(** * ShorterWithoutUTM: a URL shortener that strips query strings

    Shallow embedding of [src/main.go] and of its JSON revision
    [src/unnamed/part_000], followed by the properties of the service.

    Go strings are byte sequences: they are modelled by [string], whose
    characters are the 256 values of [ascii].  Go's [int] status codes are
    modelled by [Z].  The three collaborators of the program that live
    outside the repository are modelled at their interface:
    - [net/url] (Go 1.22, the version of [go.mod]): [Parse], [String] and
      [ResolveReference] are transcribed, since [removeQueryParams] and
      [getFinalURL] are thin wrappers around them;
    - [database/sql] over the table [short_urls]: an ordered list of rows with
      a unique [short_code], keys compared byte for byte;
    - [net/http]: the transport is an oracle from request URLs to probe
      outcomes, and a response is the status, headers and body left in the
      [ResponseWriter]; [http.Redirect], with [path.Clean] and the escaping
      of its [Location], and the checks of [client.Head] are transcribed. *)

From Stdlib Require Import String Ascii List Bool Arith NArith ZArith Lia.
Import ListNotations.

Local Open Scope string_scope.

(** ** Bytes *)

Module Bytes.

Definition code (c : ascii) : N := N_of_ascii c.

(** [lo <= c && c <= hi] on bytes. *)
Definition between (lo hi c : ascii) : bool :=
  (code lo <=? code c)%N && (code c <=? code hi)%N.

(** [c] is one of the bytes of [set]. *)
Fixpoint oneOf (set : string) (c : ascii) : bool :=
  match set with
  | EmptyString => false
  | String d set' => Ascii.eqb c d || oneOf set' c
  end.

Definition isLower (c : ascii) : bool := between "a" "z" c.
Definition isUpper (c : ascii) : bool := between "A" "Z" c.
Definition isAlpha (c : ascii) : bool := isLower c || isUpper c.
Definition isDigit (c : ascii) : bool := between "0" "9" c.
Definition isAlnum (c : ascii) : bool := isAlpha c || isDigit c.

Definition dquote : ascii := ascii_of_nat 34.
Definition newline : ascii := ascii_of_nat 10.

(** [ishex], [unhex] and the table [upperhex] of net/url. *)
Definition ishex (c : ascii) : bool :=
  isDigit c || between "a" "f" c || between "A" "F" c.

Definition unhex (c : ascii) : N :=
  if isDigit c then (code c - code "0")%N
  else if between "a" "f" c then (code c - code "a" + 10)%N
  else if between "A" "F" c then (code c - code "A" + 10)%N
  else 0%N.

Definition upperhex (n : N) : ascii :=
  if (n <? 10)%N then ascii_of_N (code "0" + n)
  else ascii_of_N (code "A" + (n - 10)).

Definition toLower (c : ascii) : ascii :=
  if isUpper c then ascii_of_N (code c + 32) else c.

End Bytes.

(** ** The functions of Go's [strings] package that the program relies on *)

Module GoStrings.

Definition isEmpty (s : string) : bool :=
  match s with EmptyString => true | _ => false end.

Fixpoint HasPrefix (s p : string) : bool :=
  match p, s with
  | EmptyString, _ => true
  | String _ _, EmptyString => false
  | String b p', String a s' => Ascii.eqb a b && HasPrefix s' p'
  end.

Fixpoint drop (n : nat) (s : string) : string :=
  match n, s with
  | O, _ => s
  | S n', String _ s' => drop n' s'
  | S _, EmptyString => EmptyString
  end.

Fixpoint take (n : nat) (s : string) : string :=
  match n, s with
  | O, _ => EmptyString
  | S n', String a s' => String a (take n' s')
  | S _, EmptyString => EmptyString
  end.

(** [strings.TrimPrefix]: [s] without the leading [p], or [s] itself when
    [p] is not a prefix. *)
Definition TrimPrefix (s p : string) : string :=
  if HasPrefix s p then drop (String.length p) s else s.

Definition HasSuffix (s p : string) : bool :=
  (String.length p <=? String.length s)%nat
  && String.eqb (drop (String.length s - String.length p) s) p.

(** [strings.TrimSuffix]: [s] without the trailing [p], or [s] itself when
    [p] is not a suffix. *)
Definition TrimSuffix (s p : string) : string :=
  if HasSuffix s p then take (String.length s - String.length p) s else s.

(** [strings.Index]: position of the first occurrence of [sep]. *)
Fixpoint Index (s sep : string) : option nat :=
  if HasPrefix s sep then Some O
  else match s with
       | EmptyString => None
       | String _ s' => option_map S (Index s' sep)
       end.

(** [strings.LastIndex]: position of the last occurrence of [sep]. *)
Fixpoint LastIndex (s sep : string) : option nat :=
  match s with
  | EmptyString => if HasPrefix s sep then Some O else None
  | String _ s' =>
      match LastIndex s' sep with
      | Some i => Some (S i)
      | None => if HasPrefix s sep then Some O else None
      end
  end.

Definition Contains (s sep : string) : bool :=
  match Index s sep with Some _ => true | None => false end.

(** [strings.Count] for a one-byte separator. *)
Fixpoint CountByte (s : string) (c : ascii) : nat :=
  match s with
  | EmptyString => O
  | String a s' => (if Ascii.eqb a c then 1 else 0) + CountByte s' c
  end.

(** [before, after, found := strings.Cut(s, sep)]. *)
Definition Cut (s sep : string) : string * string * bool :=
  match Index s sep with
  | Some i => (take i s, drop (i + String.length sep) s, true)
  | None => (s, EmptyString, false)
  end.

Fixpoint ToLower (s : string) : string :=
  match s with
  | EmptyString => EmptyString
  | String a s' => String (Bytes.toLower a) (ToLower s')
  end.

Fixpoint all (p : ascii -> bool) (s : string) : bool :=
  match s with
  | EmptyString => true
  | String a s' => p a && all p s'
  end.

Fixpoint any (p : ascii -> bool) (s : string) : bool :=
  match s with
  | EmptyString => false
  | String a s' => p a || any p s'
  end.

End GoStrings.

(** ** Go's [net/url], release 1.22

    [URL.Parse], [URL.String] and [URL.ResolveReference] with the helpers
    they call.  An error is modelled by [None]: the program only tests
    [err != nil]. *)

Module URL.

Import GoStrings.

Inductive encoding : Type :=
| encodePath
| encodePathSegment
| encodeHost
| encodeZone
| encodeUserPassword
| encodeQueryComponent
| encodeFragment.

Definition isHostMode (mode : encoding) : bool :=
  match mode with encodeHost | encodeZone => true | _ => false end.

Definition isFragmentMode (mode : encoding) : bool :=
  match mode with encodeFragment => true | _ => false end.

Definition isQueryComponentMode (mode : encoding) : bool :=
  match mode with encodeQueryComponent => true | _ => false end.

(** The bytes that a host may carry unescaped, besides letters and digits. *)
Definition hostPunct : string :=
  "!$&'()" ++ "*+,;=:[]<>" ++ String Bytes.dquote EmptyString.

(** [shouldEscape]: whether byte [c] is percent-escaped in the component
    that [mode] names. *)
Definition shouldEscape (c : ascii) (mode : encoding) : bool :=
  if Bytes.isAlnum c then false
  else if isHostMode mode && Bytes.oneOf hostPunct c then false
  else if Bytes.oneOf "-_.~" c then false
  else if Bytes.oneOf "$&+,/:;=?@" c then
    match mode with
    | encodePath => Ascii.eqb c "?"
    | encodePathSegment => Bytes.oneOf "/;,?" c
    | encodeUserPassword => Bytes.oneOf "@/?:" c
    | encodeQueryComponent => true
    | encodeFragment => false
    | encodeHost | encodeZone => true
    end
  else if isFragmentMode mode && Bytes.oneOf ("!()" ++ "*") c then false
  else true.

(** The byte that [%xy] stands for: [unhex(x)<<4 | unhex(y)]. *)
Definition unhexPair (x y : ascii) : ascii :=
  ascii_of_N (Bytes.unhex x * 16 + Bytes.unhex y).

(** First loop of [unescape]: every [%] is followed by two hex digits, and
    a host or zone holds nothing that it may not hold. *)
Fixpoint unescapeCheck (mode : encoding) (s : string) : bool :=
  match s with
  | EmptyString => true
  | String c s' =>
      if Ascii.eqb c "%" then
        match s' with
        | String x (String y rest) =>
            if negb (Bytes.ishex x && Bytes.ishex y) then false
            else if match mode with encodeHost => true | _ => false end
                    && (Bytes.unhex x <? 8)%N
                    && negb (Ascii.eqb x "2" && Ascii.eqb y "5")
            then false
            else if match mode with encodeZone => true | _ => false end
                    && negb (Ascii.eqb x "2" && Ascii.eqb y "5")
                    && negb (Ascii.eqb (unhexPair x y) " ")
                    && shouldEscape (unhexPair x y) encodeHost
            then false
            else unescapeCheck mode rest
        | _ => false
        end
      else if isHostMode mode && (Bytes.code c <? 128)%N
              && negb (Ascii.eqb c "+") && shouldEscape c encodeHost
      then false
      else unescapeCheck mode s'
  end.

(** Second loop of [unescape]: decode. *)
Fixpoint unescapeDecode (mode : encoding) (s : string) : string :=
  match s with
  | EmptyString => EmptyString
  | String c s' =>
      if Ascii.eqb c "%" then
        match s' with
        | String x (String y rest) =>
            String (unhexPair x y) (unescapeDecode mode rest)
        | _ => String c (unescapeDecode mode s')
        end
      else if Ascii.eqb c "+" && isQueryComponentMode mode
      then String " " (unescapeDecode mode s')
      else String c (unescapeDecode mode s')
  end.

Definition unescape (s : string) (mode : encoding) : option string :=
  if unescapeCheck mode s then Some (unescapeDecode mode s) else None.

Fixpoint escape (s : string) (mode : encoding) : string :=
  match s with
  | EmptyString => EmptyString
  | String c s' =>
      if Ascii.eqb c " " && isQueryComponentMode mode
      then String "+" (escape s' mode)
      else if shouldEscape c mode
      then String "%" (String (Bytes.upperhex (Bytes.code c / 16))
                      (String (Bytes.upperhex (Bytes.code c mod 16))
                         (escape s' mode)))
      else String c (escape s' mode)
  end.

(** [validEncoded]: [s] can be kept as the escaped form of a path or of a
    fragment. *)
Fixpoint validEncoded (s : string) (mode : encoding) : bool :=
  match s with
  | EmptyString => true
  | String c s' =>
      (Bytes.oneOf ("!$&'()" ++ "*+,;=:@[]%") c || negb (shouldEscape c mode))
      && validEncoded s' mode
  end.

Record Userinfo : Type := mkUserinfo {
  username : string;
  password : string;
  passwordSet : bool
}.

Record URL : Type := mkURL {
  Scheme : string;
  Opaque : string;
  User : option Userinfo;
  Host : string;
  Path : string;
  RawPath : string;
  OmitHost : bool;
  ForceQuery : bool;
  RawQuery : string;
  Fragment : string;
  RawFragment : string
}.

(** [new(URL)]: every field at its zero value. *)
Definition zeroURL : URL :=
  mkURL EmptyString EmptyString None EmptyString EmptyString EmptyString
        false false EmptyString EmptyString EmptyString.

Definition setScheme (u : URL) (v : string) : URL :=
  mkURL v (Opaque u) (User u) (Host u) (Path u) (RawPath u) (OmitHost u)
        (ForceQuery u) (RawQuery u) (Fragment u) (RawFragment u).

Definition setOpaque (u : URL) (v : string) : URL :=
  mkURL (Scheme u) v (User u) (Host u) (Path u) (RawPath u) (OmitHost u)
        (ForceQuery u) (RawQuery u) (Fragment u) (RawFragment u).

Definition setAuthority (u : URL) (usr : option Userinfo) (h : string) : URL :=
  mkURL (Scheme u) (Opaque u) usr h (Path u) (RawPath u) (OmitHost u)
        (ForceQuery u) (RawQuery u) (Fragment u) (RawFragment u).

(** The assignment [u.Host = h]. *)
Definition setHost (u : URL) (h : string) : URL :=
  setAuthority u (User u) h.

Definition setPaths (u : URL) (p rp : string) : URL :=
  mkURL (Scheme u) (Opaque u) (User u) (Host u) p rp (OmitHost u)
        (ForceQuery u) (RawQuery u) (Fragment u) (RawFragment u).

Definition setOmitHost (u : URL) (b : bool) : URL :=
  mkURL (Scheme u) (Opaque u) (User u) (Host u) (Path u) (RawPath u) b
        (ForceQuery u) (RawQuery u) (Fragment u) (RawFragment u).

Definition setForceQuery (u : URL) (b : bool) : URL :=
  mkURL (Scheme u) (Opaque u) (User u) (Host u) (Path u) (RawPath u)
        (OmitHost u) b (RawQuery u) (Fragment u) (RawFragment u).

(** The assignment [u.RawQuery = v]. *)
Definition setRawQuery (u : URL) (v : string) : URL :=
  mkURL (Scheme u) (Opaque u) (User u) (Host u) (Path u) (RawPath u)
        (OmitHost u) (ForceQuery u) v (Fragment u) (RawFragment u).

Definition setFragments (u : URL) (f rf : string) : URL :=
  mkURL (Scheme u) (Opaque u) (User u) (Host u) (Path u) (RawPath u)
        (OmitHost u) (ForceQuery u) (RawQuery u) f rf.

(** [stringContainsCTLByte]. *)
Definition isCTL (c : ascii) : bool :=
  (Bytes.code c <? 32)%N || (Bytes.code c =? 127)%N.

Definition stringContainsCTLByte (s : string) : bool := any isCTL s.

(** The loop of [getScheme], reading byte [i] of the URL. *)
Inductive schemeScan : Type :=
| NoScheme
| MissingScheme
| SchemeEnds (i : nat).

Fixpoint scanScheme (i : nat) (s : string) : schemeScan :=
  match s with
  | EmptyString => NoScheme
  | String c s' =>
      if Bytes.isAlpha c then scanScheme (S i) s'
      else if Bytes.isDigit c || Bytes.oneOf "+-." c
      then (if (i =? 0)%nat then NoScheme else scanScheme (S i) s')
      else if Ascii.eqb c ":"
      then (if (i =? 0)%nat then MissingScheme else SchemeEnds i)
      else NoScheme
  end.

(** [getScheme]: [(scheme, rest)], or the error "missing protocol scheme". *)
Definition getScheme (rawURL : string) : option (string * string) :=
  match scanScheme 0 rawURL with
  | NoScheme => Some (EmptyString, rawURL)
  | MissingScheme => None
  | SchemeEnds i => Some (take i rawURL, drop (S i) rawURL)
  end.

Definition validOptionalPort (port : string) : bool :=
  match port with
  | EmptyString => true
  | String c digits => Ascii.eqb c ":" && all Bytes.isDigit digits
  end.

Definition validUserinfo (s : string) : bool :=
  all (fun r => Bytes.isAlnum r || Bytes.oneOf ("-._:~!$&'()" ++ "*+,;=%@") r) s.

(** [parseHost]. *)
Definition parseHost (host : string) : option string :=
  if HasPrefix host "[" then
    match LastIndex host "]" with
    | None => None
    | Some i =>
        if negb (validOptionalPort (drop (S i) host)) then None
        else
          match Index (take i host) "%25" with
          | Some zone =>
              match unescape (take zone host) encodeHost with
              | None => None
              | Some host1 =>
                  match unescape (take (i - zone) (drop zone host)) encodeZone with
                  | None => None
                  | Some host2 =>
                      match unescape (drop i host) encodeHost with
                      | None => None
                      | Some host3 => Some (host1 ++ host2 ++ host3)
                      end
                  end
              end
          | None => unescape host encodeHost
          end
    end
  else
    match LastIndex host ":" with
    | Some i =>
        if negb (validOptionalPort (drop i host)) then None
        else unescape host encodeHost
    | None => unescape host encodeHost
    end.

(** [parseAuthority]: the user information and the host of [authority]. *)
Definition parseAuthority (authority : string) : option (option Userinfo * string) :=
  match LastIndex authority "@" with
  | None =>
      match parseHost authority with
      | None => None
      | Some host => Some (None, host)
      end
  | Some i =>
      match parseHost (drop (S i) authority) with
      | None => None
      | Some host =>
          let userinfo := take i authority in
          if negb (validUserinfo userinfo) then None
          else if negb (Contains userinfo ":") then
            match unescape userinfo encodeUserPassword with
            | None => None
            | Some usr => Some (Some (mkUserinfo usr EmptyString false), host)
            end
          else
            let '(uname, pass, _) := Cut userinfo ":" in
            match unescape uname encodeUserPassword with
            | None => None
            | Some usr =>
                match unescape pass encodeUserPassword with
                | None => None
                | Some pw => Some (Some (mkUserinfo usr pw true), host)
                end
            end
      end
  end.

(** [u.setPath(p)]. *)
Definition setPath (u : URL) (p : string) : option URL :=
  match unescape p encodePath with
  | None => None
  | Some path =>
      if String.eqb p (escape path encodePath)
      then Some (setPaths u path EmptyString)
      else Some (setPaths u path p)
  end.

(** [u.setFragment(f)]. *)
Definition setFragment (u : URL) (f : string) : option URL :=
  match unescape f encodeFragment with
  | None => None
  | Some frag =>
      if String.eqb f (escape frag encodeFragment)
      then Some (setFragments u frag EmptyString)
      else Some (setFragments u frag f)
  end.

(** [parse(rawURL, false)]: a URL without its fragment. *)
Definition parse (rawURL : string) : option URL :=
  if stringContainsCTLByte rawURL then None
  else if String.eqb rawURL "*" then Some (setPaths zeroURL "*" EmptyString)
  else
    match getScheme rawURL with
    | None => None
    | Some (scheme, rest0) =>
        let url := setScheme zeroURL (ToLower scheme) in
        let '(url, rest) :=
          if HasSuffix rest0 "?" && (CountByte rest0 "?" =? 1)%nat
          then (setForceQuery url true, take (String.length rest0 - 1) rest0)
          else let '(before, after, _) := Cut rest0 "?" in
               (setRawQuery url after, before) in
        if negb (HasPrefix rest "/") && negb (isEmpty (Scheme url))
        then Some (setOpaque url rest)
        else if negb (HasPrefix rest "/")
                && (let '(segment, _, _) := Cut rest "/" in Contains segment ":")
        then None
        else if (negb (isEmpty (Scheme url)) || negb (HasPrefix rest "///"))
                && HasPrefix rest "//"
        then
          let authority0 := drop 2 rest in
          let '(authority, rest) :=
            match Index authority0 "/" with
            | Some i => (take i authority0, drop i authority0)
            | None => (authority0, EmptyString)
            end in
          match parseAuthority authority with
          | None => None
          | Some (usr, host) => setPath (setAuthority url usr host) rest
          end
        else if negb (isEmpty (Scheme url)) && HasPrefix rest "/"
        then setPath (setOmitHost url true) rest
        else setPath url rest
    end.

(** [url.Parse(rawURL)]: cut the fragment off, parse the rest, then set the
    fragment. *)
Definition Parse (rawURL : string) : option URL :=
  let '(u, frag, _) := Cut rawURL "#" in
  match parse u with
  | None => None
  | Some url => if isEmpty frag then Some url else setFragment url frag
  end.

(** [u.EscapedPath()]. *)
Definition EscapedPath (u : URL) : string :=
  if negb (isEmpty (RawPath u)) && validEncoded (RawPath u) encodePath
     && match unescape (RawPath u) encodePath with
        | Some p => String.eqb p (Path u)
        | None => false
        end
  then RawPath u
  else if String.eqb (Path u) "*" then "*"
  else escape (Path u) encodePath.

(** [u.EscapedFragment()]. *)
Definition EscapedFragment (u : URL) : string :=
  if negb (isEmpty (RawFragment u)) && validEncoded (RawFragment u) encodeFragment
     && match unescape (RawFragment u) encodeFragment with
        | Some f => String.eqb f (Fragment u)
        | None => false
        end
  then RawFragment u
  else escape (Fragment u) encodeFragment.

(** [Userinfo.String()] for a non-nil receiver. *)
Definition UserinfoString (ui : Userinfo) : string :=
  escape (username ui) encodeUserPassword
  ++ (if passwordSet ui then ":" ++ escape (password ui) encodeUserPassword
      else EmptyString).

Definition hasUser (u : URL) : bool :=
  match User u with Some _ => true | None => false end.

(** What [String] writes between the scheme and the path. *)
Definition authorityString (u : URL) : string :=
  if negb (isEmpty (Scheme u)) || negb (isEmpty (Host u)) || hasUser u then
    if OmitHost u && isEmpty (Host u) && negb (hasUser u) then EmptyString
    else
      (if negb (isEmpty (Host u)) || negb (isEmpty (Path u)) || hasUser u
       then "//" else EmptyString)
      ++ match User u with
         | Some ui => UserinfoString ui ++ "@"
         | None => EmptyString
         end
      ++ (if negb (isEmpty (Host u)) then escape (Host u) encodeHost
          else EmptyString)
  else EmptyString.

(** [u.String()]: the URL reassembled from its fields. *)
Definition String_ (u : URL) : string :=
  let buf :=
    if negb (isEmpty (Scheme u)) then Scheme u ++ ":" else EmptyString in
  let buf :=
    if negb (isEmpty (Opaque u)) then buf ++ Opaque u
    else
      let buf := buf ++ authorityString u in
      let path := EscapedPath u in
      let buf :=
        if negb (isEmpty path) && negb (HasPrefix path "/")
           && negb (isEmpty (Host u))
        then buf ++ "/" else buf in
      let buf :=
        if isEmpty buf
           && (let '(segment, _, _) := Cut path "/" in Contains segment ":")
        then buf ++ "./" else buf in
      buf ++ path in
  let buf :=
    if ForceQuery u || negb (isEmpty (RawQuery u))
    then buf ++ "?" ++ RawQuery u else buf in
  if negb (isEmpty (Fragment u)) then buf ++ "#" ++ EscapedFragment u
  else buf.

(** [strings.Split(s, "/")], the sequence of elements that the loop of
    [resolvePath] cuts one after the other. *)
Fixpoint splitSlash (s : string) : list string :=
  match s with
  | EmptyString => [EmptyString]
  | String c s' =>
      if Ascii.eqb c "/" then EmptyString :: splitSlash s'
      else match splitSlash s' with
           | e :: es => String c e :: es
           | [] => [String c EmptyString]
           end
  end.

(** One turn of the loop of [resolvePath] on element [elem]; [dst] is the
    builder, which starts with the slash written before the loop. *)
Definition resolveStep (elem : string) (st : string * bool) : string * bool :=
  let '(dst, first) := st in
  if String.eqb elem "." then (dst, false)
  else if String.eqb elem ".." then
    let str := drop 1 dst in
    match LastIndex str "/" with
    | None => ("/", true)
    | Some index => ("/" ++ take index str, first)
    end
  else ((if first then dst else dst ++ "/") ++ elem, false).

Fixpoint resolveLoop (elems : list string) (st : string * bool) : string :=
  match elems with
  | [] => fst st
  | [elem] =>
      let dst := fst (resolveStep elem st) in
      if String.eqb elem "." || String.eqb elem ".." then dst ++ "/" else dst
  | elem :: rest => resolveLoop rest (resolveStep elem st)
  end.

(** [resolvePath(base, ref)]: [ref] applied to [base], dot segments removed. *)
Definition resolvePath (base ref : string) : string :=
  let full :=
    if isEmpty ref then base
    else if negb (HasPrefix ref "/") then
      match LastIndex base "/" with
      | Some i => take (S i) base ++ ref
      | None => ref
      end
    else ref in
  if isEmpty full then EmptyString
  else
    let r := resolveLoop (splitSlash full) ("/", true) in
    if HasPrefix (drop 1 r) "/" then drop 1 r else r.

(** [url.setPath(p)] with its error ignored. *)
Definition setPathIgnoringError (u : URL) (p : string) : URL :=
  match setPath u p with Some u' => u' | None => u end.

(** [u.ResolveReference(ref)]. *)
Definition ResolveReference (u ref : URL) : URL :=
  let url := if isEmpty (Scheme ref) then setScheme ref (Scheme u) else ref in
  if negb (isEmpty (Scheme ref)) || negb (isEmpty (Host ref)) || hasUser ref
  then setPathIgnoringError url (resolvePath (EscapedPath ref) EmptyString)
  else if negb (isEmpty (Opaque ref))
  then setPaths (setAuthority url None EmptyString) EmptyString (RawPath url)
  else
    let url :=
      if isEmpty (Path ref) && negb (ForceQuery ref) && isEmpty (RawQuery ref)
      then
        let url := setRawQuery url (RawQuery u) in
        if isEmpty (Fragment ref)
        then setFragments url (Fragment u) (RawFragment u) else url
      else url in
    setPathIgnoringError (setAuthority url (User u) (Host u))
      (resolvePath (EscapedPath u) (EscapedPath ref)).

(** [u.Parse(ref)]: [ref] parsed in the context of [u]. *)
Definition ParseIn (u : URL) (ref : string) : option URL :=
  match Parse ref with
  | None => None
  | Some refURL => Some (ResolveReference u refURL)
  end.

End URL.

(** ** Go's [path]: [Split] and [Clean], which [http.Redirect] applies to a
    target without scheme and host *)

Module GoPath.

Import GoStrings.

(** [path.Split]: [path[:i+1]] for the index [i] of the last slash, and
    [path[i+1:]]. *)
Definition Split (path : string) : string * string :=
  match LastIndex path "/" with
  | Some i => (take (S i) path, drop (S i) path)
  | None => (EmptyString, path)
  end.

Definition isSlash (c : option ascii) : bool :=
  match c with Some c => Ascii.eqb c "/" | None => false end.

(** The loop [for out.w > dotdot && out.index(out.w) != '/' { out.w-- }],
    entered with [out.w = w]; the result is the final [out.w]. *)
Fixpoint backtrack (out : string) (dotdot w : nat) : nat :=
  match w with
  | O => O
  | S w' =>
      if (dotdot <? w)%nat && negb (isSlash (String.get w out))
      then backtrack out dotdot w'
      else w
  end.

(** The loop [for r < n] of [Clean] on [rest = path[r:]].  [out] holds the
    [out.w] bytes written so far.  [copying] is set while the inner loop of
    the last case copies the bytes of a path element; it ends at the next
    slash, which the outer loop then skips. *)
Fixpoint cleanLoop (rooted copying : bool) (rest out : string) (dotdot : nat)
  : string :=
  match rest with
  | EmptyString => out
  | String c rest' =>
      if Ascii.eqb c "/" then cleanLoop rooted false rest' out dotdot
      else if copying
      then cleanLoop rooted true rest' (out ++ String c EmptyString) dotdot
      else if Ascii.eqb c "." && (isEmpty rest' || HasPrefix rest' "/")
      then cleanLoop rooted false rest' out dotdot
      else
        (* a real path element: a slash if needed, then its bytes *)
        let slashed :=
          if rooted && negb (String.length out =? 1)%nat
             || negb rooted && negb (String.length out =? 0)%nat
          then out ++ "/" else out in
        let element :=
          cleanLoop rooted true rest' (slashed ++ String c EmptyString) dotdot in
        match rest' with
        | String d rest'' =>
            if Ascii.eqb c "." && Ascii.eqb d "."
               && (isEmpty rest'' || HasPrefix rest'' "/")
            then
              (* a [..] element *)
              if (dotdot <? String.length out)%nat
              then
                cleanLoop rooted false rest''
                  (take (backtrack out dotdot (String.length out - 1)) out)
                  dotdot
              else if negb rooted
              then
                let out :=
                  (if (0 <? String.length out)%nat then out ++ "/" else out)
                  ++ ".." in
                cleanLoop rooted false rest'' out (String.length out)
              else cleanLoop rooted false rest'' out dotdot
            else element
        | EmptyString => element
        end
  end.

(** [path.Clean]: the shortest path name equivalent to [path]. *)
Definition Clean (path : string) : string :=
  if isEmpty path then "."
  else
    let rooted := HasPrefix path "/" in
    let out :=
      if rooted then cleanLoop true false (drop 1 path) "/" 1
      else cleanLoop false false path EmptyString 0 in
    if isEmpty out then "." else out.

End GoPath.

(** ** The table [short_urls] behind [database/sql]

    [initDB] declares [id INT AUTO_INCREMENT PRIMARY KEY],
    [short_code VARCHAR(255) UNIQUE NOT NULL] and [long_url TEXT NOT NULL].
    The table is the list of its rows in insertion order together with the
    auto-increment counter.  A statement either reaches the table or is cut
    short by the driver (lost connection, rejected value, ...): the flag
    [fault] of each operation says which. *)

Module SQL.

(** [type ShortURL struct]. *)
Record ShortURL : Type := mkShortURL {
  ID : Z;
  ShortCode : string;
  LongURL : string
}.

Record DB : Type := mkDB {
  rows : list ShortURL;
  nextID : Z
}.

Definition empty : DB := mkDB [] 1.

Inductive error : Type :=
| ErrNoRows
| ErrDuplicateEntry
| ErrDriver.

Inductive result (A : Type) : Type :=
| Ok (a : A)
| Err (e : error).

Arguments Ok {A} a.
Arguments Err {A} e.

Definition hasCode (code : string) (r : ShortURL) : bool :=
  String.eqb (ShortCode r) code.

Definition hasURL (url : string) (r : ShortURL) : bool :=
  String.eqb (LongURL r) url.

(** [QueryRow("SELECT id, short_code, long_url FROM short_urls
    WHERE short_code = ?", code).Scan(...)]: the first matching row. *)
Definition selectByShortCode (fault : bool) (db : DB) (code : string)
  : result ShortURL :=
  if fault then Err ErrDriver
  else match find (hasCode code) (rows db) with
       | Some r => Ok r
       | None => Err ErrNoRows
       end.

(** [QueryRow("SELECT short_code FROM short_urls WHERE long_url = ?",
    url).Scan(&existingShortCode)]. *)
Definition selectCodeByLongURL (fault : bool) (db : DB) (url : string)
  : result string :=
  if fault then Err ErrDriver
  else match find (hasURL url) (rows db) with
       | Some r => Ok (ShortCode r)
       | None => Err ErrNoRows
       end.

(** [Exec("INSERT INTO short_urls (short_code, long_url) VALUES (?, ?)",
    code, url)]: refused when [code] is already a [short_code]. *)
Definition insert (fault : bool) (db : DB) (code url : string) : result DB :=
  if fault then Err ErrDriver
  else if existsb (hasCode code) (rows db) then Err ErrDuplicateEntry
  else Ok (mkDB (rows db ++ [mkShortURL (nextID db) code url])
                (nextID db + 1)).

(** [Exec("DELETE FROM short_urls WHERE short_code = ?", code)]: no error
    when no row matches. *)
Definition deleteByShortCode (fault : bool) (db : DB) (code : string)
  : result DB :=
  if fault then Err ErrDriver
  else Ok (mkDB (filter (fun r => negb (hasCode code r)) (rows db))
                (nextID db)).

(** The number of rows whose [long_url] is [url]. *)
Definition countURL (url : string) (db : DB) : nat :=
  List.length (filter (hasURL url) (rows db)).

Definition codes (db : DB) : list string := map ShortCode (rows db).
Definition urls (db : DB) : list string := map LongURL (rows db).

End SQL.

(** ** [net/http]: the probe sent by the client, the response written by a
    handler *)

Module HTTP.

Definition StatusOK : Z := 200.
Definition StatusMovedPermanently : Z := 301.
Definition StatusBadRequest : Z := 400.
Definition StatusUnauthorized : Z := 401.
Definition StatusNotFound : Z := 404.
Definition StatusInternalServerError : Z := 500.

(** What a handler reads from [*http.Request]: [r.Method], [r.URL.Path],
    [r.Header.Get("Authorization")] and [r.FormValue("long_url")]; the last
    two are empty when the header or the field is absent. *)
Record Request : Type := mkRequest {
  Method : string;
  Path : string;
  Authorization : string;
  long_url : string
}.

(** What a handler leaves in the [ResponseWriter]: the status, the
    [Content-Type] and [Location] headers set by the handler and by the
    functions of net/http that it calls, and the body. *)
Record Response : Type := mkResponse {
  Status : Z;
  ContentType : option string;
  Location : option string;
  Body : string
}.

Definition nl : string := String Bytes.newline EmptyString.

(** [http.Error(w, msg, code)]. *)
Definition Error (msg : string) (code : Z) : Response :=
  mkResponse code (Some "text/plain; charset=utf-8") None (msg ++ nl).

(** [http.NotFound(w, r)]. *)
Definition NotFound : Response := Error "404 page not found" StatusNotFound.

(** [http.StatusText(code)]. *)
Definition StatusText (code : Z) : string :=
  match code with
  | 100 => "Continue"
  | 101 => "Switching Protocols"
  | 102 => "Processing"
  | 103 => "Early Hints"
  | 200 => "OK"
  | 201 => "Created"
  | 202 => "Accepted"
  | 203 => "Non-Authoritative Information"
  | 204 => "No Content"
  | 205 => "Reset Content"
  | 206 => "Partial Content"
  | 207 => "Multi-Status"
  | 208 => "Already Reported"
  | 226 => "IM Used"
  | 300 => "Multiple Choices"
  | 301 => "Moved Permanently"
  | 302 => "Found"
  | 303 => "See Other"
  | 304 => "Not Modified"
  | 305 => "Use Proxy"
  | 307 => "Temporary Redirect"
  | 308 => "Permanent Redirect"
  | 400 => "Bad Request"
  | 401 => "Unauthorized"
  | 402 => "Payment Required"
  | 403 => "Forbidden"
  | 404 => "Not Found"
  | 405 => "Method Not Allowed"
  | 406 => "Not Acceptable"
  | 407 => "Proxy Authentication Required"
  | 408 => "Request Timeout"
  | 409 => "Conflict"
  | 410 => "Gone"
  | 411 => "Length Required"
  | 412 => "Precondition Failed"
  | 413 => "Request Entity Too Large"
  | 414 => "Request URI Too Long"
  | 415 => "Unsupported Media Type"
  | 416 => "Requested Range Not Satisfiable"
  | 417 => "Expectation Failed"
  | 418 => "I'm a teapot"
  | 421 => "Misdirected Request"
  | 422 => "Unprocessable Entity"
  | 423 => "Locked"
  | 424 => "Failed Dependency"
  | 425 => "Too Early"
  | 426 => "Upgrade Required"
  | 428 => "Precondition Required"
  | 429 => "Too Many Requests"
  | 431 => "Request Header Fields Too Large"
  | 451 => "Unavailable For Legal Reasons"
  | 500 => "Internal Server Error"
  | 501 => "Not Implemented"
  | 502 => "Bad Gateway"
  | 503 => "Service Unavailable"
  | 504 => "Gateway Timeout"
  | 505 => "HTTP Version Not Supported"
  | 506 => "Variant Also Negotiates"
  | 507 => "Insufficient Storage"
  | 508 => "Loop Detected"
  | 510 => "Not Extended"
  | 511 => "Network Authentication Required"
  | _ => EmptyString
  end%Z.

(** [htmlEscape]: the replacer of net/http for the five bytes that HTML
    reserves. *)
Fixpoint htmlEscape (s : string) : string :=
  match s with
  | EmptyString => EmptyString
  | String c s' =>
      (if Ascii.eqb c "&" then "&amp;"
       else if Ascii.eqb c "<" then "&lt;"
       else if Ascii.eqb c ">" then "&gt;"
       else if Ascii.eqb c Bytes.dquote then "&#34;"
       else if Ascii.eqb c "'" then "&#39;"
       else String c EmptyString) ++ htmlEscape s'
  end.

(** [strconv.AppendInt(b, int64(c), 16)] for a byte [c] of 128 or more: two
    digits, the letters in lower case. *)
Definition lowerhex (n : N) : ascii :=
  if (n <? 10)%N then ascii_of_N (Bytes.code "0" + n)
  else ascii_of_N (Bytes.code "a" + (n - 10)).

(** [hexEscapeNonASCII]: every byte of 128 ([utf8.RuneSelf]) or more is
    replaced by a percent sign and its value in hexadecimal. *)
Fixpoint hexEscapeNonASCII (s : string) : string :=
  match s with
  | EmptyString => EmptyString
  | String c s' =>
      if (128 <=? Bytes.code c)%N
      then String "%" (String (lowerhex (Bytes.code c / 16))
                         (String (lowerhex (Bytes.code c mod 16))
                            (hexEscapeNonASCII s')))
      else String c (hexEscapeNonASCII s')
  end.

(** The first part of [http.Redirect(w, r, url, code)]: the value of [url]
    when the headers are written.  A target that parses and has neither
    scheme nor host is made absolute against [r.URL.Path] and cleaned; its
    query and a trailing slash are kept. *)
Definition redirectTarget (r : Request) (url : string) : string :=
  match URL.Parse url with
  | None => url
  | Some u =>
      if GoStrings.isEmpty (URL.Scheme u) && GoStrings.isEmpty (URL.Host u)
      then
        let oldpath := if GoStrings.isEmpty (Path r) then "/" else Path r in
        let url :=
          if negb (GoStrings.HasPrefix url "/")
          then fst (GoPath.Split oldpath) ++ url
          else url in
        let '(url, query) :=
          match GoStrings.Index url "?" with
          | Some i => (GoStrings.take i url, GoStrings.drop i url)
          | None => (url, EmptyString)
          end in
        let trailing := GoStrings.HasSuffix url "/" in
        let url := GoPath.Clean url in
        let url :=
          if trailing && negb (GoStrings.HasSuffix url "/")
          then url ++ "/" else url in
        url ++ query
      else url
  end.

(** [http.Redirect(w, r, url, code)] on a [ResponseWriter] whose headers
    the handler has not touched: the [Location] header, the [Content-Type]
    of the hypertext note for [GET] and [HEAD], the status, and the note
    itself for [GET], which [fmt.Fprintln] ends with a second line break. *)
Definition Redirect (r : Request) (url : string) (code : Z) : Response :=
  let url := redirectTarget r url in
  let isGet := String.eqb (Method r) "GET" in
  let isHead := String.eqb (Method r) "HEAD" in
  mkResponse code
    (if isGet || isHead then Some "text/html; charset=utf-8" else None)
    (Some (hexEscapeNonASCII url))
    (if isGet
     then "<a href=" ++ String Bytes.dquote EmptyString ++ htmlEscape url
          ++ String Bytes.dquote EmptyString ++ ">" ++ StatusText code
          ++ "</a>." ++ nl ++ nl
     else EmptyString).

(** A body written without a call to [WriteHeader]: status 200. *)
Definition WriteBody (contentType : option string) (body : string) : Response :=
  mkResponse StatusOK contentType None body.

(** The header of the probe's answer that [getFinalURL] reads. *)
Record ProbeResponse : Type := mkProbe {
  StatusCode : Z;
  LocationHeader : string
}.

(** The network seen from [client.Head]: for each URL, the first response
    (the client is told not to follow redirects), or [None] when the probe
    cannot be completed. *)
Definition Transport : Type := string -> option ProbeResponse.

(** [hasPort]: [strings.LastIndex(s, ":") > strings.LastIndex(s, "]")],
    an index being -1 when there is no occurrence. *)
Definition hasPort (s : string) : bool :=
  match GoStrings.LastIndex s ":", GoStrings.LastIndex s "]" with
  | Some i, Some j => (j <? i)%nat
  | Some _, None => true
  | None, _ => false
  end.

(** [removeEmptyPort]: [host] without the colon of an empty port. *)
Definition removeEmptyPort (host : string) : string :=
  if hasPort host then GoStrings.TrimSuffix host ":" else host.

(** [client.Head(urlStr)] with [CheckRedirect] returning
    [ErrUseLastResponse].  [http.NewRequest] parses the URL and removes an
    empty port from its host; the transport refuses a scheme other than
    [http] and [https] and a request URL without a host; one request is
    sent, and its response is returned as it is, together with the URL of
    the request, which [resp.Request.URL] holds.  (For the statuses that the
    client would follow, it parses [Location] itself before it asks
    [CheckRedirect] and fails if that does not parse: [ResponseLocation]
    below fails on the same header.) *)
Definition Head (net : Transport) (urlStr : string)
  : option (URL.URL * ProbeResponse) :=
  match URL.Parse urlStr with
  | None => None
  | Some u =>
      let reqURL := URL.setHost u (removeEmptyPort (URL.Host u)) in
      if negb (String.eqb (URL.Scheme reqURL) "http"
               || String.eqb (URL.Scheme reqURL) "https")
      then None
      else if GoStrings.isEmpty (URL.Host reqURL) then None
      else
        match net urlStr with
        | None => None
        | Some resp => Some (reqURL, resp)
        end
  end.

(** [resp.Location()]: the [Location] header resolved against the URL of
    the request. *)
Definition ResponseLocation (reqURL : URL.URL) (resp : ProbeResponse)
  : option URL.URL :=
  if GoStrings.isEmpty (LocationHeader resp) then None
  else URL.ParseIn reqURL (LocationHeader resp).

End HTTP.

(** ** The program: what [src/main.go] and [src/unnamed/part_000] share

    The globals [domain] and [adminKey], assigned once by [main], are the
    fields of [Config]; the global [db] is the [SQL.DB] threaded through
    the handlers.  [dbMutex] serialises the create handler: requests are
    run one after the other here. *)

Import GoStrings.

Record Config : Type := mkConfig {
  domain : string;
  adminKey : string
}.

(** The values [main] falls back on when [config.properties] is silent. *)
Definition defaultConfig : Config := mkConfig "http://localhost" "DEFAULT_KEY".

(** What the outside world contributes to one request: the network that
    answers the probe, the identifier drawn by [shortid.MustGenerate], and
    whether the driver fails the [QueryRow] or the [Exec] of the request. *)
Record Env : Type := mkEnv {
  net : HTTP.Transport;
  newCode : string;
  queryFault : bool;
  execFault : bool
}.

(** [func isRedirect(statusCode int) bool]. *)
Definition isRedirect (statusCode : Z) : bool :=
  (300 <=? statusCode)%Z && (statusCode <=? 399)%Z.

(** [func getFinalURL(urlStr string) (string, error)]; [None] is the error. *)
Definition getFinalURL (net : HTTP.Transport) (urlStr : string) : option string :=
  match HTTP.Head net urlStr with
  | None => None
  | Some (reqURL, resp) =>
      if isRedirect (HTTP.StatusCode resp) then
        match HTTP.ResponseLocation reqURL resp with
        | None => None
        | Some locationURL => Some (URL.String_ locationURL)
        end
      else Some urlStr
  end.

(** [func removeQueryParams(urlStr string) string]. *)
Definition removeQueryParams (urlStr : string) : string :=
  match URL.Parse urlStr with
  | None => urlStr
  | Some parsedURL => URL.String_ (URL.setRawQuery parsedURL EmptyString)
  end.

(** [func generateShortCode() string]. *)
Definition generateShortCode (env : Env) : string := newCode env.

(** [func handleShortURL(w, r)]. *)
Definition handleShortURL (cfg : Config) (env : Env) (r : HTTP.Request)
  (db : SQL.DB) : HTTP.Response * SQL.DB :=
  let shortCode := TrimPrefix (HTTP.Path r) "/" in
  if isEmpty shortCode then (HTTP.NotFound, db)
  else
    match SQL.selectByShortCode (queryFault env) db shortCode with
    | SQL.Err _ => (HTTP.NotFound, db)
    | SQL.Ok shortURL =>
        (HTTP.Redirect r (SQL.LongURL shortURL) HTTP.StatusMovedPermanently,
         db)
    end.

(** [func handleDeleteShortURL(w, r)]. *)
Definition handleDeleteShortURL (cfg : Config) (env : Env) (r : HTTP.Request)
  (db : SQL.DB) : HTTP.Response * SQL.DB :=
  let shortCode := TrimPrefix (HTTP.Path r) "/api/delete/" in
  let key := HTTP.Authorization r in
  if negb (String.eqb key (adminKey cfg))
  then (HTTP.Error "Unauthorized" HTTP.StatusUnauthorized, db)
  else if isEmpty shortCode then (HTTP.NotFound, db)
  else
    match SQL.deleteByShortCode (execFault env) db shortCode with
    | SQL.Err _ =>
        (HTTP.Error "Failed to delete short URL"
           HTTP.StatusInternalServerError, db)
    | SQL.Ok db' =>
        (HTTP.mkResponse HTTP.StatusOK None None
           ("Short URL deleted: " ++ domain cfg ++ shortCode ++ HTTP.nl), db')
    end.

(** ** [handleCreateShortURL] as [src/main.go] has it: plain-text replies,
    the short URL being [domain+shortCode] *)

Module MainGo.

(** [func handleCreateShortURL(w, r)]. *)
Definition handleCreateShortURL (cfg : Config) (env : Env) (r : HTTP.Request)
  (db : SQL.DB) : HTTP.Response * SQL.DB :=
  let longURL := HTTP.long_url r in
  if isEmpty longURL
  then (HTTP.Error "Missing long_url parameter" HTTP.StatusBadRequest, db)
  else
    match getFinalURL (net env) longURL with
    | None =>
        (HTTP.Error "Failed to resolve redirection"
           HTTP.StatusInternalServerError, db)
    | Some finalURL =>
        let cleanURL := removeQueryParams finalURL in
        let shortCode := generateShortCode env in
        match SQL.selectCodeByLongURL (queryFault env) db cleanURL with
        | SQL.Ok existingShortCode =>
            (HTTP.WriteBody None
               ("Short URL already exists: "
                ++ (domain cfg ++ existingShortCode) ++ HTTP.nl), db)
        | SQL.Err SQL.ErrNoRows =>
            match SQL.insert (execFault env) db shortCode cleanURL with
            | SQL.Err _ =>
                (HTTP.Error "Failed to create short URL"
                   HTTP.StatusInternalServerError, db)
            | SQL.Ok db' =>
                (HTTP.WriteBody None
                   ("Short URL created: " ++ (domain cfg ++ shortCode)
                    ++ HTTP.nl), db')
            end
        | SQL.Err _ =>
            (HTTP.Error "Failed to check for existing short URL"
               HTTP.StatusInternalServerError, db)
        end
    end.

(** The same handler entered at [cleanURL := removeQueryParams(finalURL)],
    that is with the value [finalURL] that [getFinalURL] returned without an
    error. *)
Definition storeShortURL (cfg : Config) (env : Env) (finalURL : string)
  (db : SQL.DB) : HTTP.Response * SQL.DB :=
  let cleanURL := removeQueryParams finalURL in
  let shortCode := generateShortCode env in
  match SQL.selectCodeByLongURL (queryFault env) db cleanURL with
  | SQL.Ok existingShortCode =>
      (HTTP.WriteBody None
         ("Short URL already exists: "
          ++ (domain cfg ++ existingShortCode) ++ HTTP.nl), db)
  | SQL.Err SQL.ErrNoRows =>
      match SQL.insert (execFault env) db shortCode cleanURL with
      | SQL.Err _ =>
          (HTTP.Error "Failed to create short URL"
             HTTP.StatusInternalServerError, db)
      | SQL.Ok db' =>
          (HTTP.WriteBody None
             ("Short URL created: " ++ (domain cfg ++ shortCode) ++ HTTP.nl),
           db')
      end
  | SQL.Err _ =>
      (HTTP.Error "Failed to check for existing short URL"
         HTTP.StatusInternalServerError, db)
  end.

End MainGo.

(** ** [handleCreateShortURL] as [src/unnamed/part_000] has it: JSON
    replies, the short URL being [domain+"/"+shortCode] *)

Module Part000.

Definition quote : string := String Bytes.dquote EmptyString.

(** The Go raw string [{"key": "value"}]. *)
Definition jsonObject (key value : string) : string :=
  "{" ++ quote ++ key ++ quote ++ ": " ++ quote ++ value ++ quote ++ "}".

(** [func handleCreateShortURL(w, r)]. *)
Definition handleCreateShortURL (cfg : Config) (env : Env) (r : HTTP.Request)
  (db : SQL.DB) : HTTP.Response * SQL.DB :=
  let longURL := HTTP.long_url r in
  if isEmpty longURL
  then (HTTP.Error (jsonObject "error" "Missing long_url parameter")
          HTTP.StatusBadRequest, db)
  else
    match getFinalURL (net env) longURL with
    | None =>
        (HTTP.Error (jsonObject "error" "Failed to resolve redirection")
           HTTP.StatusInternalServerError, db)
    | Some finalURL =>
        let cleanURL := removeQueryParams finalURL in
        let shortCode := generateShortCode env in
        match SQL.selectCodeByLongURL (queryFault env) db cleanURL with
        | SQL.Ok existingShortCode =>
            (HTTP.WriteBody (Some "application/json")
               (jsonObject "short_url" (domain cfg ++ "/" ++ existingShortCode)),
             db)
        | SQL.Err SQL.ErrNoRows =>
            match SQL.insert (execFault env) db shortCode cleanURL with
            | SQL.Err _ =>
                (HTTP.Error (jsonObject "error" "Failed to create short URL")
                   HTTP.StatusInternalServerError, db)
            | SQL.Ok db' =>
                (HTTP.WriteBody (Some "application/json")
                   (jsonObject "short_url" (domain cfg ++ "/" ++ shortCode)),
                 db')
            end
        | SQL.Err _ =>
            (HTTP.Error
               (jsonObject "error" "Failed to check for existing short URL")
               HTTP.StatusInternalServerError, db)
        end
    end.

(** The same handler entered at [cleanURL := removeQueryParams(finalURL)]. *)
Definition storeShortURL (cfg : Config) (env : Env) (finalURL : string)
  (db : SQL.DB) : HTTP.Response * SQL.DB :=
  let cleanURL := removeQueryParams finalURL in
  let shortCode := generateShortCode env in
  match SQL.selectCodeByLongURL (queryFault env) db cleanURL with
  | SQL.Ok existingShortCode =>
      (HTTP.WriteBody (Some "application/json")
         (jsonObject "short_url" (domain cfg ++ "/" ++ existingShortCode)), db)
  | SQL.Err SQL.ErrNoRows =>
      match SQL.insert (execFault env) db shortCode cleanURL with
      | SQL.Err _ =>
          (HTTP.Error (jsonObject "error" "Failed to create short URL")
             HTTP.StatusInternalServerError, db)
      | SQL.Ok db' =>
          (HTTP.WriteBody (Some "application/json")
             (jsonObject "short_url" (domain cfg ++ "/" ++ shortCode)), db')
      end
  | SQL.Err _ =>
      (HTTP.Error (jsonObject "error" "Failed to check for existing short URL")
         HTTP.StatusInternalServerError, db)
  end.

End Part000.

(** ** The parts of a printed URL

    [String] writes the scheme, the opaque part or the authority and the
    path, then the query, then the fragment.  The first and the last part
    are named here, to say what [removeQueryParams] keeps. *)

Module URLParts.

Import URL.

(** No byte of [s] is a question mark. *)
Definition noQuery (s : string) : bool :=
  all (fun c => negb (Ascii.eqb c "?")) s.

(** What [String] writes before the query. *)
Definition beforeQuery (u : URL) : string :=
  let buf :=
    if negb (isEmpty (Scheme u)) then Scheme u ++ ":" else EmptyString in
  if negb (isEmpty (Opaque u)) then buf ++ Opaque u
  else
    let buf := buf ++ authorityString u in
    let path := EscapedPath u in
    let buf :=
      if negb (isEmpty path) && negb (HasPrefix path "/")
         && negb (isEmpty (Host u))
      then buf ++ "/" else buf in
    let buf :=
      if isEmpty buf
         && (let '(segment, _, _) := Cut path "/" in Contains segment ":")
      then buf ++ "./" else buf in
    buf ++ path.

(** What [String] writes from the fragment on. *)
Definition fragmentSuffix (u : URL) : string :=
  if negb (isEmpty (Fragment u)) then "#" ++ EscapedFragment u
  else EmptyString.

(** No byte of [s] is a number sign. *)
Definition noHash (s : string) : bool :=
  all (fun c => negb (Ascii.eqb c "#")) s.

(** [parse] from the test of the leading slash on, that is once the scheme
    and the query have been split off: [url] holds them, [rest] is what is
    left of the URL. *)
Definition parseAfterQuery (url : URL) (rest : string) : option URL :=
  if negb (HasPrefix rest "/") && negb (isEmpty (Scheme url))
  then Some (setOpaque url rest)
  else if negb (HasPrefix rest "/")
          && (let '(segment, _, _) := Cut rest "/" in Contains segment ":")
  then None
  else if (negb (isEmpty (Scheme url)) || negb (HasPrefix rest "///"))
          && HasPrefix rest "//"
  then
    let authority0 := drop 2 rest in
    let '(authority, rest) :=
      match Index authority0 "/" with
      | Some i => (take i authority0, drop i authority0)
      | None => (authority0, EmptyString)
      end in
    match parseAuthority authority with
    | None => None
    | Some (usr, host) => setPath (setAuthority url usr host) rest
    end
  else if negb (isEmpty (Scheme url)) && HasPrefix rest "/"
  then setPath (setOmitHost url true) rest
  else setPath url rest.

(** A byte that [getScheme] accepts inside a scheme, and a scheme as it
    accepts one: a letter, then letters, digits, [+], [-] and [.]. *)
Definition schemeByte (c : ascii) : bool :=
  Bytes.isAlpha c || (Bytes.isDigit c || Bytes.oneOf "+-." c).

Definition validScheme (s : string) : bool :=
  match s with
  | EmptyString => false
  | String c s' => Bytes.isAlpha c && all schemeByte s'
  end.

(** [s] starts with a scheme and a colon. *)
Definition hasScheme (s : string) : Prop :=
  exists scheme rest : string,
    validScheme scheme = true /\ s = scheme ++ ":" ++ rest.

(** No byte of [s] is 128 or more. *)
Definition isASCII (s : string) : bool :=
  all (fun c => (Bytes.code c <? 128)%N) s.

(** [http.Redirect] sends [url] on without making it absolute: it does not
    parse, or it has a scheme or a host. *)
Definition keptByRedirect (url : string) : bool :=
  match Parse url with
  | None => true
  | Some u => negb (isEmpty (Scheme u) && isEmpty (Host u))
  end.

End URLParts.

(** ** The service as a sequential machine

    [main] registers [handleShortURL] on [/], [handleCreateShortURL] on
    [/api/create] and [handleDeleteShortURL] on [/api/delete/].  A call is a
    request that the router has handed to one of the three, with what the
    outside world contributes to it. *)

Inductive Revision : Type :=
| RevMainGo
| RevPart000.

Definition handleCreate (rev : Revision)
  : Config -> Env -> HTTP.Request -> SQL.DB -> HTTP.Response * SQL.DB :=
  match rev with
  | RevMainGo => MainGo.handleCreateShortURL
  | RevPart000 => Part000.handleCreateShortURL
  end.

Definition storeShortURL (rev : Revision)
  : Config -> Env -> string -> SQL.DB -> HTTP.Response * SQL.DB :=
  match rev with
  | RevMainGo => MainGo.storeShortURL
  | RevPart000 => Part000.storeShortURL
  end.

Inductive Call : Type :=
| CallShort (env : Env) (r : HTTP.Request)
| CallCreate (env : Env) (r : HTTP.Request)
| CallDelete (env : Env) (r : HTTP.Request).

Definition serve (rev : Revision) (cfg : Config) (c : Call) (db : SQL.DB)
  : HTTP.Response * SQL.DB :=
  match c with
  | CallShort env r => handleShortURL cfg env r db
  | CallCreate env r => handleCreate rev cfg env r db
  | CallDelete env r => handleDeleteShortURL cfg env r db
  end.

(** The table after the calls of [cs] have been served one after the other. *)
Fixpoint run (rev : Revision) (cfg : Config) (cs : list Call) (db : SQL.DB)
  : SQL.DB :=
  match cs with
  | [] => db
  | c :: cs' => run rev cfg cs' (snd (serve rev cfg c db))
  end.

(** [c] is a call to the delete endpoint for the short code [code]. *)
Definition deletes (code : string) (c : Call) : bool :=
  match c with
  | CallDelete _ r => String.eqb (TrimPrefix (HTTP.Path r) "/api/delete/") code
  | _ => false
  end.

(** The canonical URL of a create request: its [long_url] resolved by one
    hop and stripped of its query, when the resolution succeeds. *)
Definition canonicalURL (env : Env) (r : HTTP.Request) : option string :=
  if isEmpty (HTTP.long_url r) then None
  else option_map removeQueryParams (getFinalURL (net env) (HTTP.long_url r)).

(** The short URL built from [code]: [domain+code] in [src/main.go],
    [domain+"/"+code] in [src/unnamed/part_000]. *)
Definition shortURL (rev : Revision) (cfg : Config) (code : string) : string :=
  match rev with
  | RevMainGo => domain cfg ++ code
  | RevPart000 => domain cfg ++ "/" ++ code
  end.

(** The two replies by which a create request hands out a short URL: after
    an insertion, and for a URL that has a row already. *)
Definition createdReply (rev : Revision) (cfg : Config) (code : string)
  : HTTP.Response :=
  match rev with
  | RevMainGo =>
      HTTP.WriteBody None
        ("Short URL created: " ++ shortURL RevMainGo cfg code ++ HTTP.nl)
  | RevPart000 =>
      HTTP.WriteBody (Some "application/json")
        (Part000.jsonObject "short_url" (shortURL RevPart000 cfg code))
  end.

Definition existsReply (rev : Revision) (cfg : Config) (code : string)
  : HTTP.Response :=
  match rev with
  | RevMainGo =>
      HTTP.WriteBody None
        ("Short URL already exists: " ++ shortURL RevMainGo cfg code
         ++ HTTP.nl)
  | RevPart000 =>
      HTTP.WriteBody (Some "application/json")
        (Part000.jsonObject "short_url" (shortURL RevPart000 cfg code))
  end.

(** [resp] is a reply that hands out the short URL of [code]. *)
Definition announces (rev : Revision) (cfg : Config) (resp : HTTP.Response)
  (code : string) : Prop :=
  resp = createdReply rev cfg code \/ resp = existsReply rev cfg code.

(** The schema's constraint on [short_code], and the constraint on
    [long_url] that the create handler maintains. *)
Definition uniqueCodes (db : SQL.DB) : Prop := NoDup (SQL.codes db).
Definition uniqueURLs (db : SQL.DB) : Prop := NoDup (SQL.urls db).

(** *** Sample worlds *)

(** A network in which every probe is answered [200 OK]. *)
Definition netOK : HTTP.Transport := fun _ => Some (HTTP.mkProbe 200 EmptyString).

(** A network in which [http://short.example/x] answers [302 Found] with a
    [Location], the target itself answers with another redirect, and
    everything else answers [200 OK]. *)
Definition netHop : HTTP.Transport :=
  fun u =>
    if String.eqb u "http://short.example/x"
    then Some (HTTP.mkProbe 302 "http://target.example/?utm_source=a")
    else if String.eqb u "http://target.example/?utm_source=a"
    then Some (HTTP.mkProbe 301 "http://further.example/")
    else Some (HTTP.mkProbe 200 EmptyString).

(** The two bytes of a small e with an acute accent in UTF-8. *)
Definition eAcute : string :=
  String (ascii_of_nat 195) (String (ascii_of_nat 169) EmptyString).

(** A network in which [http://short.example/m] answers [302 Found] with a
    [Location] that is no hypertext address and holds the two bytes of
    [eAcute], and everything else answers [200 OK]. *)
Definition netMailto : HTTP.Transport :=
  fun u =>
    if String.eqb u "http://short.example/m"
    then Some (HTTP.mkProbe 302 ("mailto:" ++ eAcute))
    else Some (HTTP.mkProbe 200 EmptyString).

(** A network in which every probe is answered [301 Moved Permanently] with
    the [Location] [/y]. *)
Definition netMoved : HTTP.Transport :=
  fun _ => Some (HTTP.mkProbe 301 "/y").

Definition envOK (code : string) : Env := mkEnv netOK code false false.

Definition createRequest (url : string) : HTTP.Request :=
  HTTP.mkRequest "POST" "/api/create" EmptyString url.

Definition getRequest (path : string) : HTTP.Request :=
  HTTP.mkRequest "GET" path EmptyString EmptyString.

Definition deleteRequest (code key : string) : HTTP.Request :=
  HTTP.mkRequest "DELETE" ("/api/delete/" ++ code) key EmptyString.


(** A table with one row, used to try the handlers. *)
Definition dbOne : SQL.DB :=
  SQL.mkDB [SQL.mkShortURL 1 "abc" "http://example.com/page"] 2.

(** * Properties *)

(** ** Strings *)

Lemma HasPrefix_app (p s : string) : HasPrefix (p ++ s) p = true.
Proof.
  induction p as [|a p IH]; simpl.
  - destruct s; reflexivity.
  - now rewrite Ascii.eqb_refl, IH.
Qed.

Lemma drop_app (p s : string) : drop (String.length p) (p ++ s) = s.
Proof.
  induction p as [|a p IH]; simpl; [reflexivity | exact IH].
Qed.

(** [TrimPrefix] gives back what was appended to the prefix. *)
Lemma TrimPrefix_app (p s : string) : TrimPrefix (p ++ s) p = s.
Proof.
  unfold TrimPrefix. now rewrite HasPrefix_app, drop_app.
Qed.

Lemma isEmpty_false (s : string) : s <> EmptyString -> isEmpty s = false.
Proof. destruct s; [congruence | reflexivity]. Qed.

Lemma isEmpty_true (s : string) : isEmpty s = true -> s = EmptyString.
Proof. destruct s; [reflexivity | discriminate]. Qed.

(** ** Printed URLs *)

Module URLFacts.

Import URL URLParts.

Lemma all_app (p : ascii -> bool) (a b : string) :
  all p (a ++ b) = all p a && all p b.
Proof.
  induction a as [|c a IH]; simpl; [reflexivity|].
  now rewrite IH, andb_assoc.
Qed.

Lemma all_impl (p q : ascii -> bool) (s : string) :
  (forall c, p c = true -> q c = true) -> all p s = true -> all q s = true.
Proof.
  intros Hpq. induction s as [|c s IH]; simpl; [reflexivity|].
  rewrite !andb_true_iff. intros [Hc Hs]. auto.
Qed.

Lemma all_take (p : ascii -> bool) (n : nat) (s : string) :
  all p s = true -> all p (take n s) = true.
Proof.
  revert s. induction n as [|n IH]; intros [|c s]; simpl; auto.
  rewrite !andb_true_iff. intros [Hc Hs]. auto.
Qed.

(** [escape] leaves no question mark in a component in which the question
    mark is escaped. *)
Lemma escape_noQuery (s : string) (mode : encoding) :
  shouldEscape "?" mode = true -> noQuery (escape s mode) = true.
Proof.
  intros Hmode. induction s as [|c s IH]; [reflexivity|].
  destruct mode; try discriminate Hmode;
    destruct c as [[] [] [] [] [] [] [] []]; exact IH.
Qed.

Lemma validEncoded_noQuery (s : string) :
  validEncoded s encodePath = true -> noQuery s = true.
Proof.
  unfold noQuery. induction s as [|c s IH]; simpl; [reflexivity|].
  rewrite andb_true_iff. intros [Hc Hs]. rewrite (IH Hs), andb_true_r.
  revert Hc. destruct c as [[] [] [] [] [] [] [] []]; try reflexivity;
    vm_compute; discriminate.
Qed.

Lemma EscapedPath_noQuery (u : URL) : noQuery (EscapedPath u) = true.
Proof.
  unfold EscapedPath.
  destruct (negb (isEmpty (RawPath u))); simpl.
  - destruct (validEncoded (RawPath u) encodePath) eqn:Hv; simpl.
    + destruct (unescape (RawPath u) encodePath) as [p|].
      * destruct (String.eqb p (Path u)); [now apply validEncoded_noQuery|].
        destruct (String.eqb (Path u) "*"); [reflexivity|].
        now apply escape_noQuery.
      * destruct (String.eqb (Path u) "*"); [reflexivity|].
        now apply escape_noQuery.
    + destruct (String.eqb (Path u) "*"); [reflexivity|].
      now apply escape_noQuery.
  - destruct (String.eqb (Path u) "*"); [reflexivity|].
    now apply escape_noQuery.
Qed.

Lemma authorityString_noQuery (u : URL) : noQuery (authorityString u) = true.
Proof.
  unfold authorityString, UserinfoString, noQuery.
  destruct (negb (isEmpty (Scheme u)) || negb (isEmpty (Host u)) || hasUser u);
    [|reflexivity].
  destruct (OmitHost u && isEmpty (Host u) && negb (hasUser u)); [reflexivity|].
  rewrite !all_app.
  assert (He : forall s m, shouldEscape "?" m = true ->
                           all (fun c => negb (Ascii.eqb c "?")) (escape s m) = true)
    by (intros; now apply escape_noQuery).
  destruct (negb (isEmpty (Host u)) || negb (isEmpty (Path u)) || hasUser u);
    destruct (User u) as [ui|]; destruct (negb (isEmpty (Host u)));
    rewrite ?all_app; simpl; rewrite ?He by reflexivity; simpl;
    try reflexivity; destruct (passwordSet ui); rewrite ?all_app; simpl;
    rewrite ?He by reflexivity; reflexivity.
Qed.

Lemma HasPrefix_empty (s : string) : HasPrefix s EmptyString = true.
Proof. destruct s; reflexivity. Qed.

(** What [strings.Cut(s, "?")] returns first holds no question mark. *)
Lemma Index_query (s : string) :
  match Index s "?" with
  | Some i => noQuery (take i s) = true
  | None => noQuery s = true
  end.
Proof.
  unfold noQuery. induction s as [|c s IH]; [reflexivity|].
  simpl. rewrite HasPrefix_empty, andb_true_r.
  destruct (Ascii.eqb c "?") eqn:Ec; [reflexivity|].
  destruct (Index s "?") as [i|]; simpl; [rewrite Ec|]; exact IH.
Qed.

Lemma Cut_query (s before after : string) (found : bool) :
  Cut s "?" = (before, after, found) -> noQuery before = true.
Proof.
  unfold Cut. pose proof (Index_query s) as H.
  destruct (Index s "?") as [i|]; intros [= <- _ _]; exact H.
Qed.

Lemma scanScheme_chars (s : string) :
  forall k i, scanScheme k s = SchemeEnds i ->
              k <= i /\ noQuery (take (i - k) s) = true.
Proof.
  unfold noQuery. induction s as [|c s IH]; intros k i H;
    cbn [scanScheme] in H; [discriminate|].
  assert (Hstep : scanScheme (S k) s = SchemeEnds i ->
                  negb (Ascii.eqb c "?") = true ->
                  k <= i /\
                  all (fun c => negb (Ascii.eqb c "?")) (take (i - k) (String c s))
                  = true).
  { intros Hs Hc. destruct (IH _ _ Hs) as [Hle Hall]. split; [lia|].
    replace (i - k) with (S (i - S k)) by lia. simpl. now rewrite Hc, Hall. }
  destruct (Bytes.isAlpha c) eqn:Ea.
  - apply Hstep; [exact H|]. revert Ea.
    destruct c as [[] [] [] [] [] [] [] []]; try reflexivity;
      vm_compute; discriminate.
  - destruct (Bytes.isDigit c || Bytes.oneOf "+-." c) eqn:Ed.
    + destruct (k =? 0)%nat; [discriminate|]. apply Hstep; [exact H|].
      revert Ed.
      destruct c as [[] [] [] [] [] [] [] []]; try reflexivity;
        vm_compute; discriminate.
    + destruct (Ascii.eqb c ":"); [|discriminate].
      destruct (k =? 0)%nat; [discriminate|]. injection H as <-.
      split; [lia|]. now rewrite Nat.sub_diag.
Qed.

Lemma getScheme_noQuery (rawURL scheme rest : string) :
  getScheme rawURL = Some (scheme, rest) -> noQuery scheme = true.
Proof.
  unfold getScheme. destruct (scanScheme 0 rawURL) as [| |i] eqn:Hscan.
  - now intros [= <- _].
  - discriminate.
  - intros [= <- _]. destruct (scanScheme_chars _ _ _ Hscan) as [_ H].
    now rewrite Nat.sub_0_r in H.
Qed.

Lemma ToLower_noQuery (s : string) :
  noQuery s = true -> noQuery (ToLower s) = true.
Proof.
  unfold noQuery. induction s as [|c s IH]; simpl; [reflexivity|].
  rewrite !andb_true_iff. intros [Hc Hs]. split; [|auto].
  revert Hc. destruct c as [[] [] [] [] [] [] [] []]; try reflexivity;
    vm_compute; discriminate.
Qed.

(** The fields that [setPath] and [setFragment] leave alone. *)
Lemma setPath_fields (u u' : URL) (p : string) :
  setPath u p = Some u' ->
  Scheme u' = Scheme u /\ Opaque u' = Opaque u
  /\ ForceQuery u' = ForceQuery u.
Proof.
  unfold setPath. destruct (unescape p encodePath) as [path|]; [|discriminate].
  destruct (String.eqb p (escape path encodePath)); intros [= <-]; auto.
Qed.

Lemma setFragment_fields (u u' : URL) (f : string) :
  setFragment u f = Some u' ->
  Scheme u' = Scheme u /\ Opaque u' = Opaque u
  /\ ForceQuery u' = ForceQuery u.
Proof.
  unfold setFragment. destruct (unescape f encodeFragment) as [frag|];
    [|discriminate].
  destruct (String.eqb f (escape frag encodeFragment)); intros [= <-]; auto.
Qed.

(** A URL that [parse] accepts has no question mark in its scheme, and none
    in its opaque part unless the query was empty. *)
Lemma parse_noQuery (rawURL : string) (u : URL) :
  parse rawURL = Some u ->
  noQuery (Scheme u) = true
  /\ (ForceQuery u = false -> noQuery (Opaque u) = true).
Proof.
  unfold parse.
  destruct (stringContainsCTLByte rawURL); [discriminate|].
  destruct (String.eqb rawURL "*"); [intros [= <-]; auto|].
  destruct (getScheme rawURL) as [[scheme rest0]|] eqn:Hscheme; [|discriminate].
  apply getScheme_noQuery in Hscheme. apply ToLower_noQuery in Hscheme.
  set (url0 := setScheme zeroURL (ToLower scheme)).
  assert (Hgen : forall (url : URL) (rest : string) (P : option URL),
             Scheme url = ToLower scheme ->
             Opaque url = EmptyString ->
             (ForceQuery url = false -> noQuery rest = true) ->
             (forall u', P = Some u' ->
                 (Scheme u' = Scheme url /\ ForceQuery u' = ForceQuery url
                  /\ (Opaque u' = EmptyString \/ Opaque u' = rest))) ->
             P = Some u ->
             noQuery (Scheme u) = true
             /\ (ForceQuery u = false -> noQuery (Opaque u) = true)).
  { intros url rest P Hs Ho Hrest HP HPu.
    destruct (HP u HPu) as (Hs' & Hf' & Ho').
    rewrite Hs', Hs. split; [exact Hscheme|].
    rewrite Hf'. intros Hf. destruct Ho' as [-> | ->]; [reflexivity|auto]. }
  assert (Hbody : forall (url : URL) (rest : string),
             Scheme url = ToLower scheme ->
             Opaque url = EmptyString ->
             (ForceQuery url = false -> noQuery rest = true) ->
             (if negb (HasPrefix rest "/") && negb (isEmpty (Scheme url))
              then Some (setOpaque url rest)
              else if negb (HasPrefix rest "/")
                      && (let '(segment, _, _) := Cut rest "/" in
                          Contains segment ":")
              then None
              else if (negb (isEmpty (Scheme url)) || negb (HasPrefix rest "///"))
                      && HasPrefix rest "//"
              then
                let authority0 := drop 2 rest in
                let '(authority, rest) :=
                  match Index authority0 "/" with
                  | Some i => (take i authority0, drop i authority0)
                  | None => (authority0, EmptyString)
                  end in
                match parseAuthority authority with
                | None => None
                | Some (usr, host) => setPath (setAuthority url usr host) rest
                end
              else if negb (isEmpty (Scheme url)) && HasPrefix rest "/"
              then setPath (setOmitHost url true) rest
              else setPath url rest) = Some u ->
             noQuery (Scheme u) = true
             /\ (ForceQuery u = false -> noQuery (Opaque u) = true)).
  { intros url rest Hs Ho Hrest. apply (Hgen url rest); auto.
    intros u'.
    destruct (negb (HasPrefix rest "/") && negb (isEmpty (Scheme url))).
    { intros [= <-]. simpl. auto. }
    destruct (negb (HasPrefix rest "/")
              && (let '(segment, _, _) := Cut rest "/" in Contains segment ":"));
      [discriminate|].
    destruct ((negb (isEmpty (Scheme url)) || negb (HasPrefix rest "///"))
              && HasPrefix rest "//").
    { cbv zeta. destruct (Index (drop 2 rest) "/") as [i|];
        (match goal with
         | |- context [parseAuthority ?a] =>
             destruct (parseAuthority a) as [[usr host]|]
         end; [|discriminate]);
        intros H; apply setPath_fields in H as (H1 & H2 & H3); simpl in *;
        rewrite H1, H2, H3, Ho; auto. }
    destruct (negb (isEmpty (Scheme url)) && HasPrefix rest "/");
      intros H; apply setPath_fields in H as (H1 & H2 & H3); simpl in *;
      rewrite H1, H2, H3, Ho; auto. }
  destruct (HasSuffix rest0 "?" && (CountByte rest0 "?" =? 1)%nat).
  - apply Hbody; try reflexivity. simpl. discriminate.
  - destruct (Cut rest0 "?") as [[before after] found] eqn:Hcut.
    apply Hbody; try reflexivity. intros _. exact (Cut_query _ _ _ _ Hcut).
Qed.

Lemma Parse_noQuery (rawURL : string) (u : URL) :
  Parse rawURL = Some u ->
  noQuery (Scheme u) = true
  /\ (ForceQuery u = false -> noQuery (Opaque u) = true).
Proof.
  unfold Parse. destruct (Cut rawURL "#") as [[r frag] found].
  destruct (parse r) as [url|] eqn:Hparse; [|discriminate].
  apply parse_noQuery in Hparse.
  destruct (isEmpty frag); [now intros [= <-]|].
  intros H. apply setFragment_fields in H as (H1 & H2 & H3).
  now rewrite H1, H2, H3.
Qed.

Lemma append_empty_r (s : string) : s ++ EmptyString = s.
Proof. induction s as [|c s IH]; simpl; [reflexivity | now rewrite IH]. Qed.

Lemma append_assoc (a b c : string) : (a ++ b) ++ c = a ++ b ++ c.
Proof. induction a as [|x a IH]; simpl; [reflexivity | now rewrite IH]. Qed.

Lemma noQuery_app (a b : string) :
  noQuery (a ++ b) = noQuery a && noQuery b.
Proof. apply all_app. Qed.

Lemma String_parts (u : URL) :
  String_ u
  = (beforeQuery u
     ++ (if ForceQuery u || negb (isEmpty (RawQuery u))
         then "?" ++ RawQuery u else EmptyString))
    ++ fragmentSuffix u.
Proof.
  unfold String_, fragmentSuffix. fold (beforeQuery u).
  destruct (ForceQuery u || negb (isEmpty (RawQuery u)));
    destruct (negb (isEmpty (Fragment u)));
    now rewrite ?append_empty_r.
Qed.

Lemma beforeQuery_noQuery (u : URL) :
  noQuery (Scheme u) = true ->
  noQuery (Opaque u) = true ->
  noQuery (beforeQuery u) = true.
Proof.
  intros Hs Ho. unfold beforeQuery.
  assert (Hbuf : noQuery (if negb (isEmpty (Scheme u)) then Scheme u ++ ":"
                          else EmptyString) = true).
  { destruct (negb (isEmpty (Scheme u))); [|reflexivity].
    now rewrite noQuery_app, Hs. }
  destruct (negb (isEmpty (Opaque u))).
  - now rewrite noQuery_app, Hbuf, Ho.
  - cbv zeta.
    repeat match goal with
           | |- context [if ?b then _ else _] => destruct b
           end;
      rewrite ?noQuery_app, ?Hs, ?authorityString_noQuery,
        ?EscapedPath_noQuery; reflexivity.
Qed.

(** [parse] in terms of its second half. *)
Lemma parse_unfold (rawURL : string) :
  parse rawURL
  = if stringContainsCTLByte rawURL then None
    else if String.eqb rawURL "*" then Some (setPaths zeroURL "*" EmptyString)
    else
      match getScheme rawURL with
      | None => None
      | Some (scheme, rest0) =>
          let url := setScheme zeroURL (ToLower scheme) in
          if HasSuffix rest0 "?" && (CountByte rest0 "?" =? 1)%nat
          then parseAfterQuery (setForceQuery url true)
                 (take (String.length rest0 - 1) rest0)
          else let '(before, after, _) := Cut rest0 "?" in
               parseAfterQuery (setRawQuery url after) before
      end.
Proof.
  unfold parse, parseAfterQuery.
  destruct (stringContainsCTLByte rawURL); [reflexivity|].
  destruct (String.eqb rawURL "*"); [reflexivity|].
  destruct (getScheme rawURL) as [[scheme rest0]|]; [|reflexivity].
  cbv zeta.
  destruct (HasSuffix rest0 "?" && (CountByte rest0 "?" =? 1)%nat);
    [reflexivity|].
  destruct (Cut rest0 "?") as [[before after] found]. reflexivity.
Qed.

End URLFacts.

(** ** Schemes

    Every URL that the create handler stores starts with a scheme:
    [http.Redirect] then sends it on without making it absolute. *)

Module SchemeFacts.

Import URL URLParts URLFacts.

Lemma isAlpha_toLower (c : ascii) :
  Bytes.isAlpha (Bytes.toLower c) = Bytes.isAlpha c.
Proof. destruct c as [[] [] [] [] [] [] [] []]; reflexivity. Qed.

Lemma schemeByte_toLower (c : ascii) :
  schemeByte (Bytes.toLower c) = schemeByte c.
Proof. destruct c as [[] [] [] [] [] [] [] []]; reflexivity. Qed.

Lemma schemeByte_noHash (c : ascii) :
  schemeByte c = true -> negb (Ascii.eqb c "#") = true.
Proof.
  destruct c as [[] [] [] [] [] [] [] []]; try reflexivity;
    vm_compute; discriminate.
Qed.

Lemma isAlpha_schemeByte (c : ascii) :
  Bytes.isAlpha c = true -> schemeByte c = true.
Proof. unfold schemeByte. now intros ->. Qed.

Lemma validScheme_ToLower (s : string) :
  validScheme (ToLower s) = validScheme s.
Proof.
  destruct s as [|c s]; [reflexivity|]. simpl. rewrite isAlpha_toLower.
  f_equal. induction s as [|d s IH]; [reflexivity|]. simpl.
  now rewrite schemeByte_toLower, IH.
Qed.

Lemma validScheme_bytes (s : string) :
  validScheme s = true -> all schemeByte s = true.
Proof.
  destruct s as [|c s]; [discriminate|]. simpl. rewrite !andb_true_iff.
  intros [Hc Hs]. split; [now apply isAlpha_schemeByte | exact Hs].
Qed.

Lemma validScheme_nonempty (s : string) :
  validScheme s = true -> s <> EmptyString.
Proof. now destruct s. Qed.

Lemma validScheme_noHash (s : string) :
  validScheme s = true -> noHash s = true.
Proof.
  intros H. apply validScheme_bytes in H. unfold noHash.
  apply (all_impl schemeByte); [|exact H]. apply schemeByte_noHash.
Qed.

(** The scan of a scheme that has started stops at the colon. *)
Lemma scanScheme_scheme (a rest : string) (k : nat) :
  all schemeByte a = true ->
  scanScheme (S k) (a ++ ":" ++ rest) = SchemeEnds (S k + String.length a).
Proof.
  revert k. induction a as [|c a IH]; intros k Ha.
  - simpl. f_equal. lia.
  - simpl in Ha. apply andb_true_iff in Ha as [Hc Ha].
    change (String c a ++ ":" ++ rest) with (String c (a ++ ":" ++ rest)).
    cbn [scanScheme]. unfold schemeByte in Hc.
    destruct (Bytes.isAlpha c).
    + rewrite IH by exact Ha. simpl. f_equal. lia.
    + rewrite orb_false_l in Hc. rewrite Hc. cbn [Nat.eqb].
      rewrite IH by exact Ha. simpl. f_equal. lia.
Qed.

Lemma take_drop_colon (a rest : string) :
  take (String.length a) (a ++ ":" ++ rest) = a
  /\ drop (S (String.length a)) (a ++ ":" ++ rest) = rest.
Proof.
  induction a as [|c a [IHt IHd]]; [now split|].
  change (String c a ++ ":" ++ rest) with (String c (a ++ ":" ++ rest)).
  cbn [String.length take drop]. split; [now rewrite IHt | exact IHd].
Qed.

(** [getScheme] on a string that starts with a scheme and a colon. *)
Lemma getScheme_scheme (scheme rest : string) :
  validScheme scheme = true ->
  getScheme (scheme ++ ":" ++ rest) = Some (scheme, rest).
Proof.
  destruct scheme as [|c a]; [discriminate|]. cbn [validScheme].
  rewrite andb_true_iff. intros [Hc Ha].
  unfold getScheme.
  change (String c a ++ ":" ++ rest) with (String c (a ++ ":" ++ rest)).
  cbn [scanScheme]. rewrite Hc.
  rewrite (scanScheme_scheme a rest 0 Ha).
  destruct (take_drop_colon (String c a) rest) as [Ht Hd].
  exact (f_equal2 (fun x y => Some (x, y)) Ht Hd).
Qed.

(** What [getScheme] returns as a scheme is empty or a scheme. *)
Lemma scanScheme_valid (s : string) :
  forall k i, scanScheme (S k) s = SchemeEnds i ->
              S k <= i /\ all schemeByte (take (i - S k) s) = true.
Proof.
  induction s as [|c s IH]; intros k i H; cbn [scanScheme] in H;
    [discriminate|].
  assert (Hstep : scanScheme (S (S k)) s = SchemeEnds i ->
                  schemeByte c = true ->
                  S k <= i
                  /\ all schemeByte (take (i - S k) (String c s)) = true).
  { intros Hs Hc. destruct (IH _ _ Hs) as [Hle Hall]. split; [lia|].
    replace (i - S k) with (S (i - S (S k))) by lia. simpl.
    now rewrite Hc, Hall. }
  unfold schemeByte in Hstep.
  destruct (Bytes.isAlpha c); [now apply Hstep|].
  destruct (Bytes.isDigit c || Bytes.oneOf "+-." c);
    [cbn [Nat.eqb] in H; now apply Hstep|].
  destruct (Ascii.eqb c ":"); [|discriminate].
  cbn [Nat.eqb] in H. injection H as <-. split; [lia|].
  now rewrite Nat.sub_diag.
Qed.

Lemma getScheme_valid (rawURL scheme rest : string) :
  getScheme rawURL = Some (scheme, rest) ->
  scheme = EmptyString \/ validScheme scheme = true.
Proof.
  unfold getScheme. destruct (scanScheme 0 rawURL) as [| |i] eqn:Hscan.
  - intros [= <- _]. now left.
  - discriminate.
  - intros [= <- _]. right.
    destruct rawURL as [|c s]; cbn [scanScheme] in Hscan; [discriminate|].
    destruct (Bytes.isAlpha c) eqn:Hc.
    + destruct (scanScheme_valid _ _ _ Hscan) as [Hle Hall].
      destruct i as [|i]; [lia|]. simpl. rewrite Hc.
      now rewrite Nat.sub_succ, Nat.sub_0_r in Hall.
    + destruct (Bytes.isDigit c || Bytes.oneOf "+-." c);
        [discriminate|].
      destruct (Ascii.eqb c ":"); discriminate.
Qed.

(** The second half of [parse] keeps the scheme. *)
Lemma parseAfterQuery_scheme (url u : URL) (rest : string) :
  parseAfterQuery url rest = Some u -> Scheme u = Scheme url.
Proof.
  unfold parseAfterQuery.
  destruct (negb (HasPrefix rest "/") && negb (isEmpty (Scheme url)));
    [now intros [= <-]|].
  destruct (negb (HasPrefix rest "/")
            && (let '(segment, _, _) := Cut rest "/" in Contains segment ":"));
    [discriminate|].
  destruct ((negb (isEmpty (Scheme url)) || negb (HasPrefix rest "///"))
            && HasPrefix rest "//").
  { destruct (Index (drop 2 rest) "/") as [i|];
      (match goal with
       | |- context [parseAuthority ?a] =>
           destruct (parseAuthority a) as [[usr host]|]; [|discriminate]
       end);
      intros H; apply setPath_fields in H as [H _]; exact H. }
  destruct (negb (isEmpty (Scheme url)) && HasPrefix rest "/");
    intros H; apply setPath_fields in H as [H _]; exact H.
Qed.

Lemma parse_scheme (rawURL : string) (u : URL) :
  parse rawURL = Some u ->
  (rawURL = "*" /\ Scheme u = EmptyString)
  \/ exists scheme rest,
       getScheme rawURL = Some (scheme, rest) /\ Scheme u = ToLower scheme.
Proof.
  rewrite parse_unfold.
  destruct (stringContainsCTLByte rawURL); [discriminate|].
  destruct (String.eqb rawURL "*") eqn:Hstar.
  { apply String.eqb_eq in Hstar. intros [= <-]. now left. }
  destruct (getScheme rawURL) as [[scheme rest0]|]; [|discriminate].
  intros H. right. exists scheme, rest0. split; [reflexivity|].
  cbv zeta in H.
  destruct (HasSuffix rest0 "?" && (CountByte rest0 "?" =? 1)%nat).
  - now apply parseAfterQuery_scheme in H.
  - destruct (Cut rest0 "?") as [[before after] found].
    now apply parseAfterQuery_scheme in H.
Qed.

Lemma Parse_parse (rawURL : string) (u : URL) :
  Parse rawURL = Some u ->
  exists before after found url,
    Cut rawURL "#" = (before, after, found)
    /\ parse before = Some url /\ Scheme u = Scheme url.
Proof.
  unfold Parse. destruct (Cut rawURL "#") as [[before after] found].
  destruct (parse before) as [url|] eqn:Hparse; [|discriminate].
  intros H. exists before, after, found, url.
  split; [reflexivity|]. split; [exact Hparse|].
  destruct (isEmpty after); [now injection H as <-|].
  now apply setFragment_fields in H as [H _].
Qed.

(** The scheme of a URL that [Parse] accepts is empty or a scheme. *)
Lemma Parse_scheme_valid (rawURL : string) (u : URL) :
  Parse rawURL = Some u ->
  Scheme u = EmptyString \/ validScheme (Scheme u) = true.
Proof.
  intros H. apply Parse_parse in H as (before & after & found & url & _ & H & ->).
  apply parse_scheme in H as [[_ H] | (scheme & rest & Hs & ->)]; [now left|].
  rewrite validScheme_ToLower.
  destruct (getScheme_valid _ _ _ Hs) as [-> | Hv]; [now left | now right].
Qed.

(** The cut at the number sign falls after a prefix without one. *)
Lemma Index_hash_prefix (a b : string) :
  noHash a = true ->
  Index (a ++ b) "#" = option_map (Nat.add (String.length a)) (Index b "#").
Proof.
  unfold noHash. induction a as [|c a IH]; simpl; intros Ha.
  - now destruct (Index b "#").
  - apply andb_true_iff in Ha as [Hc Ha]. rewrite HasPrefix_empty, andb_true_r.
    apply negb_true_iff in Hc. rewrite Hc, (IH Ha).
    now destruct (Index b "#").
Qed.

Lemma Cut_hash_prefix (a b : string) :
  noHash a = true ->
  Cut (a ++ b) "#"
  = let '(before, after, found) := Cut b "#" in (a ++ before, after, found).
Proof.
  intros Ha. unfold Cut. rewrite (Index_hash_prefix a b Ha).
  destruct (Index b "#") as [i|]; cbn [option_map]; [|reflexivity].
  assert (Ht : take (String.length a + i) (a ++ b) = a ++ take i b).
  { clear Ha. induction a as [|c a IH]; simpl; [reflexivity | now rewrite IH]. }
  assert (Hd : drop (String.length a + i + String.length "#") (a ++ b)
               = drop (i + String.length "#") b).
  { clear Ha Ht. induction a as [|c a IH]; simpl; [reflexivity | exact IH]. }
  now rewrite Ht, Hd.
Qed.

(** A URL that starts with a scheme and parses has that scheme, in lower
    case. *)
Lemma Parse_hasScheme (rawURL : string) (u : URL) :
  hasScheme rawURL -> Parse rawURL = Some u ->
  validScheme (Scheme u) = true.
Proof.
  intros (scheme & rest & Hv & ->) H.
  apply Parse_parse in H as (before & after & found & url & Hcut & H & ->).
  assert (Hp : noHash (scheme ++ ":") = true).
  { unfold noHash. rewrite all_app. fold (noHash scheme).
    now rewrite (validScheme_noHash _ Hv). }
  replace (scheme ++ ":" ++ rest) with ((scheme ++ ":") ++ rest) in Hcut
    by apply append_assoc.
  rewrite (Cut_hash_prefix _ rest Hp) in Hcut.
  destruct (Cut rest "#") as [[b1 a1] f1]. injection Hcut as <- _ _.
  rewrite append_assoc in H.
  apply parse_scheme in H as [[H _] | (scheme' & rest' & Hs & ->)].
  - exfalso. apply validScheme_nonempty in Hv.
    destruct scheme as [|c [|d a]]; [now apply Hv | discriminate H
                                    | discriminate H].
  - rewrite (getScheme_scheme scheme b1 Hv) in Hs. injection Hs as <- _.
    now rewrite validScheme_ToLower.
Qed.

(** A URL with a scheme is printed with it in front. *)
Lemma beforeQuery_hasScheme (u : URL) :
  validScheme (Scheme u) = true ->
  exists rest, beforeQuery u = Scheme u ++ ":" ++ rest.
Proof.
  intros Hv. pose proof (validScheme_nonempty _ Hv) as Hne.
  unfold beforeQuery. rewrite (isEmpty_false _ Hne). cbn [negb].
  destruct (negb (isEmpty (Opaque u))).
  { exists (Opaque u). apply append_assoc. }
  assert (Hbuf : forall x, isEmpty (Scheme u ++ x) = false).
  { intros x. destruct (Scheme u); [now elim Hne | reflexivity]. }
  cbv zeta.
  destruct (negb (isEmpty (EscapedPath u)) && negb (HasPrefix (EscapedPath u) "/")
            && negb (isEmpty (Host u)));
    rewrite !append_assoc, Hbuf; cbn [andb]; eexists;
    rewrite ?append_assoc; reflexivity.
Qed.

Lemma String_hasScheme (u : URL) :
  validScheme (Scheme u) = true -> hasScheme (String_ u).
Proof.
  intros Hv. destruct (beforeQuery_hasScheme u Hv) as [rest Hrest].
  exists (Scheme u). rewrite String_parts, Hrest. eexists. split; [exact Hv|].
  rewrite !append_assoc. reflexivity.
Qed.

(** [ResolveReference] takes the scheme of the reference, or that of the
    base when the reference has none. *)
Lemma setPathIgnoringError_scheme (u : URL) (p : string) :
  Scheme (setPathIgnoringError u p) = Scheme u.
Proof.
  unfold setPathIgnoringError. destruct (setPath u p) as [u'|] eqn:H;
    [|reflexivity].
  now apply setPath_fields in H as [H _].
Qed.

Lemma ResolveReference_scheme (u ref : URL) :
  Scheme (ResolveReference u ref)
  = if isEmpty (Scheme ref) then Scheme u else Scheme ref.
Proof.
  unfold ResolveReference.
  destruct (negb (isEmpty (Scheme ref)) || negb (isEmpty (Host ref))
            || hasUser ref).
  { rewrite setPathIgnoringError_scheme. now destruct (isEmpty (Scheme ref)). }
  destruct (negb (isEmpty (Opaque ref)));
    [now destruct (isEmpty (Scheme ref))|].
  rewrite setPathIgnoringError_scheme.
  destruct (isEmpty (Path ref) && negb (ForceQuery ref)
            && isEmpty (RawQuery ref));
    destruct (isEmpty (Fragment ref)); now destruct (isEmpty (Scheme ref)).
Qed.

End SchemeFacts.

(** ** The table *)

Module SQLFacts.

Import SQL.

Lemma hasCode_true code r : hasCode code r = true <-> ShortCode r = code.
Proof. unfold hasCode. apply String.eqb_eq. Qed.

Lemma hasURL_true url r : hasURL url r = true <-> LongURL r = url.
Proof. unfold hasURL. apply String.eqb_eq. Qed.

Lemma find_none_not_in {A B : Type} (key : A -> B) (test : A -> bool)
  (k : B) (l : list A) :
  (forall a, test a = true <-> key a = k) ->
  find test l = None -> ~ In k (map key l).
Proof.
  intros Htest Hfind Hin. apply in_map_iff in Hin as (a & Hk & Ha).
  apply (find_none _ _ Hfind) in Ha. apply Htest in Hk. congruence.
Qed.

Lemma not_in_find_none {A B : Type} (key : A -> B) (test : A -> bool)
  (k : B) (l : list A) :
  (forall a, test a = true <-> key a = k) ->
  ~ In k (map key l) -> find test l = None.
Proof.
  intros Htest Hnin. destruct (find test l) as [a|] eqn:E; [|reflexivity].
  apply find_some in E as (Hin & Ht). exfalso. apply Hnin.
  apply in_map_iff. exists a. split; [now apply Htest | exact Hin].
Qed.

(** With distinct keys, [find] returns the one element that has the key. *)
Lemma find_unique {A B : Type} (key : A -> B) (test : A -> bool)
  (k : B) (l : list A) (a : A) :
  (forall x, test x = true <-> key x = k) ->
  NoDup (map key l) -> In a l -> key a = k -> find test l = Some a.
Proof.
  intros Htest. induction l as [|x l IH]; simpl; intros Hnd Hin Hk.
  - contradiction.
  - inversion_clear Hnd as [|? ? Hx Hnd'].
    destruct (test x) eqn:Ex.
    + destruct Hin as [->|Hin]; [reflexivity|].
      exfalso. apply Hx. apply Htest in Ex. rewrite Ex, <- Hk.
      now apply in_map.
    + destruct Hin as [->|Hin].
      * apply Htest in Hk. congruence.
      * now apply IH.
Qed.

Lemma filter_none {A : Type} (test : A -> bool) (l : list A) :
  (forall a, In a l -> test a = false) -> filter test l = [].
Proof.
  induction l as [|x l IH]; simpl; intros H; [reflexivity|].
  rewrite (H x (or_introl eq_refl)). apply IH. intros a Ha. apply H. now right.
Qed.

Lemma filter_all {A : Type} (test : A -> bool) (l : list A) :
  (forall a, In a l -> test a = true) -> filter test l = l.
Proof.
  induction l as [|x l IH]; simpl; intros H; [reflexivity|].
  rewrite (H x (or_introl eq_refl)). f_equal. apply IH.
  intros a Ha. apply H. now right.
Qed.

(** With distinct long URLs, at most one row carries a given one. *)
Lemma NoDup_count_le (url : string) (l : list ShortURL) :
  NoDup (map LongURL l) -> List.length (filter (hasURL url) l) <= 1.
Proof.
  induction l as [|x l IH]; simpl; intros Hnd; [lia|].
  inversion_clear Hnd as [|? ? Hx Hnd'].
  destruct (hasURL url x) eqn:E; [|now apply IH].
  apply hasURL_true in E. simpl.
  rewrite filter_none; [simpl; lia|].
  intros a Ha. destruct (hasURL url a) eqn:Ea; [|reflexivity].
  apply hasURL_true in Ea. exfalso. apply Hx. rewrite E, <- Ea.
  now apply in_map.
Qed.

Lemma count_le_NoDup (l : list ShortURL) :
  (forall url, List.length (filter (hasURL url) l) <= 1) ->
  NoDup (map LongURL l).
Proof.
  induction l as [|x l IH]; simpl; intros H; constructor.
  - intros Hin. apply in_map_iff in Hin as (a & Ha & Hin).
    specialize (H (LongURL x)). unfold hasURL at 1 in H.
    rewrite String.eqb_refl in H. simpl in H.
    assert (Hpos : 0 < List.length (filter (hasURL (LongURL x)) l)).
    { destruct (filter (hasURL (LongURL x)) l) as [|y ys] eqn:Ef; simpl; [|lia].
      assert (Hm : In a (filter (hasURL (LongURL x)) l)).
      { apply filter_In. split; [exact Hin | now apply hasURL_true]. }
      rewrite Ef in Hm. contradiction. }
    lia.
  - apply IH. intros url. specialize (H url).
    destruct (hasURL url x); simpl in H; lia.
Qed.

Lemma NoDup_filter_map {A B : Type} (key : A -> B) (test : A -> bool)
  (l : list A) :
  NoDup (map key l) -> NoDup (map key (filter test l)).
Proof.
  induction l as [|x l IH]; simpl; intros Hnd; [constructor|].
  inversion_clear Hnd as [|? ? Hx Hnd'].
  destruct (test x); simpl; [constructor|]; auto.
  intros Hin. apply Hx. apply in_map_iff in Hin as (a & Ha & Hin).
  apply filter_In in Hin as [Hin _]. rewrite <- Ha. now apply in_map.
Qed.

Lemma NoDup_snoc {B : Type} (l : list B) (b : B) :
  NoDup l -> ~ In b l -> NoDup (l ++ [b]).
Proof.
  induction l as [|x l IH]; simpl; intros Hnd Hnin.
  - constructor; [intros [] | constructor].
  - inversion_clear Hnd as [|? ? Hx Hnd']. constructor.
    + rewrite in_app_iff. simpl. intuition congruence.
    + apply IH; [exact Hnd' | tauto].
Qed.

Lemma NoDup_map_snoc {A B : Type} (key : A -> B) (l : list A) (a : A) :
  NoDup (map key l) -> ~ In (key a) (map key l) -> NoDup (map key (l ++ [a])).
Proof.
  intros Hnd Hnin. rewrite map_app. simpl. now apply NoDup_snoc.
Qed.

End SQLFacts.

(** ** The delete endpoint *)

Section Delete.

Variable cfg : Config.

(** C8.  A request to the delete endpoint whose [Authorization] header is
    not the configured admin key is answered 401 and leaves the table as it
    was, whatever its method and its path; the key is compared before the
    code is looked at, so this is also the answer when the code is empty. *)
Theorem unauthorized_delete_rejected (env : Env) (r : HTTP.Request)
  (db : SQL.DB) :
  HTTP.Authorization r <> adminKey cfg ->
  handleDeleteShortURL cfg env r db
  = (HTTP.Error "Unauthorized" HTTP.StatusUnauthorized, db)
  /\ HTTP.Status (fst (handleDeleteShortURL cfg env r db)) = 401%Z
  /\ snd (handleDeleteShortURL cfg env r db) = db.
Proof.
  intros Hkey. unfold handleDeleteShortURL.
  apply String.eqb_neq in Hkey. rewrite Hkey. simpl. auto.
Qed.

(** What an authorized request with a non-empty code does when the driver
    does not fail: it deletes the rows of that code and answers 200. *)
Lemma authorized_delete (env : Env) (r : HTTP.Request) (db : SQL.DB)
  (code : string) :
  HTTP.Authorization r = adminKey cfg ->
  HTTP.Path r = "/api/delete/" ++ code ->
  code <> EmptyString ->
  execFault env = false ->
  handleDeleteShortURL cfg env r db
  = (HTTP.mkResponse HTTP.StatusOK None None
       ("Short URL deleted: " ++ domain cfg ++ code ++ HTTP.nl),
     SQL.mkDB (filter (fun x => negb (SQL.hasCode code x)) (SQL.rows db))
              (SQL.nextID db)).
Proof.
  intros Hkey Hpath Hcode Hfault. unfold handleDeleteShortURL.
  rewrite Hpath, TrimPrefix_app, Hkey, String.eqb_refl. simpl.
  rewrite (isEmpty_false _ Hcode). unfold SQL.deleteByShortCode.
  now rewrite Hfault.
Qed.

(** C9.  An authorized request to [/api/delete/{code}] with a non-empty
    code, served by a working datastore, is answered 200 whether or not the
    code is in the table.  When the code is absent the table is unchanged;
    when a row has it, that row is removed and every other row stays. *)
Theorem delete_absent_is_noop (env : Env) (r : HTTP.Request) (db : SQL.DB)
  (code : string) :
  HTTP.Authorization r = adminKey cfg ->
  HTTP.Path r = "/api/delete/" ++ code ->
  code <> EmptyString ->
  execFault env = false ->
  HTTP.Status (fst (handleDeleteShortURL cfg env r db)) = 200%Z
  /\ (~ In code (SQL.codes db) -> snd (handleDeleteShortURL cfg env r db) = db)
  /\ (forall before row after,
        SQL.rows db = (before ++ row :: after)%list ->
        SQL.ShortCode row = code ->
        NoDup (SQL.codes db) ->
        snd (handleDeleteShortURL cfg env r db)
        = SQL.mkDB (before ++ after)%list (SQL.nextID db)).
Proof.
  intros Hkey Hpath Hcode Hfault.
  rewrite (authorized_delete env r db code Hkey Hpath Hcode Hfault). simpl.
  split; [reflexivity|]. split.
  - intros Habsent. destruct db as [rows next]. simpl in *. f_equal.
    apply SQLFacts.filter_all. intros a Ha.
    destruct (SQL.hasCode code a) eqn:E; [|reflexivity].
    apply SQLFacts.hasCode_true in E. exfalso. apply Habsent.
    unfold SQL.codes. simpl. rewrite <- E. now apply in_map.
  - intros before row after Hrows Hrow Hnd. f_equal.
    unfold SQL.codes in Hnd. rewrite Hrows in *.
    rewrite map_app in Hnd. simpl in Hnd.
    apply NoDup_remove in Hnd as [_ Hnot]. rewrite in_app_iff in Hnot.
    rewrite filter_app. simpl.
    assert (Hrow' : SQL.hasCode code row = true)
      by now apply SQLFacts.hasCode_true.
    rewrite Hrow'. simpl. f_equal; apply SQLFacts.filter_all; intros a Ha;
      destruct (SQL.hasCode code a) eqn:E; try reflexivity;
      apply SQLFacts.hasCode_true in E; exfalso; apply Hnot;
      rewrite Hrow, <- E; [left | right]; now apply in_map.
Qed.

End Delete.

Lemma unauthorized_delete_rejected_witness :
  handleDeleteShortURL defaultConfig (envOK EmptyString)
    (deleteRequest EmptyString "guess") dbOne
  = (HTTP.Error "Unauthorized" HTTP.StatusUnauthorized, dbOne)
  /\ HTTP.Status
       (fst (handleDeleteShortURL defaultConfig (envOK EmptyString)
               (deleteRequest EmptyString "guess") dbOne)) = 401%Z
  /\ snd (handleDeleteShortURL defaultConfig (envOK EmptyString)
            (deleteRequest EmptyString "guess") dbOne) = dbOne.
Proof.
  apply (unauthorized_delete_rejected defaultConfig).
  simpl. discriminate.
Defined.

Lemma delete_absent_is_noop_witness :
  HTTP.Status
    (fst (handleDeleteShortURL defaultConfig (envOK EmptyString)
            (deleteRequest "zzz" "DEFAULT_KEY") dbOne)) = 200%Z
  /\ snd (handleDeleteShortURL defaultConfig (envOK EmptyString)
            (deleteRequest "zzz" "DEFAULT_KEY") dbOne) = dbOne.
Proof.
  destruct (delete_absent_is_noop defaultConfig (envOK EmptyString)
              (deleteRequest "zzz" "DEFAULT_KEY") dbOne "zzz")
    as (Hstatus & Habsent & _).
  - reflexivity.
  - reflexivity.
  - discriminate.
  - reflexivity.
  - split; [exact Hstatus | apply Habsent].
    simpl. intros [H | []]. discriminate H.
Defined.

(** ** Redirect resolution *)

Lemma isRedirect_range (statusCode : Z) :
  isRedirect statusCode = true <-> (300 <= statusCode <= 399)%Z.
Proof.
  unfold isRedirect. rewrite andb_true_iff, !Z.leb_le. tauto.
Qed.

Lemma isRedirect_outside (statusCode : Z) :
  isRedirect statusCode = false <-> ~ (300 <= statusCode <= 399)%Z.
Proof.
  rewrite <- isRedirect_range. destruct (isRedirect statusCode); intuition congruence.
Qed.

(** What [client.Head] has checked when it returns a response. *)
Lemma Head_request (net : HTTP.Transport) (urlStr : string) (reqURL : URL.URL)
  (resp : HTTP.ProbeResponse) :
  HTTP.Head net urlStr = Some (reqURL, resp) ->
  exists u,
    URL.Parse urlStr = Some u
    /\ reqURL = URL.setHost u (HTTP.removeEmptyPort (URL.Host u))
    /\ (URL.Scheme u = "http" \/ URL.Scheme u = "https")
    /\ URL.Host reqURL <> EmptyString
    /\ net urlStr = Some resp.
Proof.
  unfold HTTP.Head. destruct (URL.Parse urlStr) as [u|]; [|discriminate].
  cbv zeta. cbn [URL.Scheme URL.setHost URL.setAuthority URL.Host].
  destruct (String.eqb (URL.Scheme u) "http") eqn:E1;
    [|destruct (String.eqb (URL.Scheme u) "https") eqn:E2; [|discriminate]];
    cbn [orb negb];
    (destruct (isEmpty (HTTP.removeEmptyPort (URL.Host u))) eqn:Eh;
     [discriminate|]);
    (destruct (net urlStr) as [resp'|]; [|discriminate]);
    intros [= <- <-]; exists u; repeat split;
    try (intros He; cbn [URL.Host URL.setHost URL.setAuthority] in He;
         rewrite He in Eh; discriminate).
  - left. now apply String.eqb_eq.
  - right. now apply String.eqb_eq.
Qed.

(** C7.  Let [client.Head] return the response [resp] to the probe of
    [urlStr].  The status counts as a redirect exactly when it lies in
    300..399.  In that case the result is the [Location] header parsed in the
    context of the request URL, printed back as a string, and the resolution
    fails when the header is absent or does not parse.  For any other status
    the result is [urlStr] itself.  Nothing but the answer to this one probe
    is consulted: what the network would answer for the target of the
    redirect plays no part.  The request URL is [urlStr] as [url.Parse]
    reads it, without the colon of an empty port. *)
Theorem getFinalURL_resolves_one_hop (net : HTTP.Transport) (urlStr : string)
  (reqURL : URL.URL) (resp : HTTP.ProbeResponse) :
  HTTP.Head net urlStr = Some (reqURL, resp) ->
  (isRedirect (HTTP.StatusCode resp) = true
   <-> (300 <= HTTP.StatusCode resp <= 399)%Z)
  /\ ((300 <= HTTP.StatusCode resp <= 399)%Z ->
      (HTTP.LocationHeader resp = EmptyString -> getFinalURL net urlStr = None)
      /\ (URL.Parse (HTTP.LocationHeader resp) = None ->
          getFinalURL net urlStr = None)
      /\ (forall ref,
            HTTP.LocationHeader resp <> EmptyString ->
            URL.Parse (HTTP.LocationHeader resp) = Some ref ->
            getFinalURL net urlStr
            = Some (URL.String_ (URL.ResolveReference reqURL ref))))
  /\ (~ (300 <= HTTP.StatusCode resp <= 399)%Z ->
      getFinalURL net urlStr = Some urlStr)
  /\ (forall net' : HTTP.Transport,
        net' urlStr = net urlStr ->
        getFinalURL net' urlStr = getFinalURL net urlStr)
  /\ (exists u,
        URL.Parse urlStr = Some u
        /\ reqURL = URL.setHost u (HTTP.removeEmptyPort (URL.Host u))).
Proof.
  intros Hhead. split; [apply isRedirect_range|].
  split; [|split; [|split]].
  - intros Hin. apply isRedirect_range in Hin.
    unfold getFinalURL. rewrite Hhead, Hin.
    unfold HTTP.ResponseLocation, URL.ParseIn. split; [|split].
    + intros Hloc. now rewrite Hloc.
    + intros Hbad. rewrite Hbad.
      now destruct (isEmpty (HTTP.LocationHeader resp)).
    + intros ref Hloc Href. now rewrite (isEmpty_false _ Hloc), Href.
  - intros Hout. apply isRedirect_outside in Hout.
    unfold getFinalURL. now rewrite Hhead, Hout.
  - intros net' Hsame. unfold getFinalURL, HTTP.Head. now rewrite Hsame.
  - apply Head_request in Hhead as (u & Hu & Hreq & _). now exists u.
Qed.

Lemma getFinalURL_resolves_one_hop_witness :
  getFinalURL netHop "http://short.example/x"
  = Some "http://target.example/?utm_source=a"
  /\ getFinalURL netHop "http://example.com/page?x=1"
     = Some "http://example.com/page?x=1"
  /\ getFinalURL netMoved "http://example.com:/x"
     = Some "http://example.com/y".
Proof.
  split; [|split].
  - destruct (getFinalURL_resolves_one_hop netHop "http://short.example/x"
                (URL.mkURL "http" EmptyString None "short.example" "/x"
                   EmptyString false false EmptyString EmptyString EmptyString)
                (HTTP.mkProbe 302 "http://target.example/?utm_source=a")
                eq_refl) as (_ & Hredirect & _).
    destruct Hredirect as (_ & _ & Hloc); [simpl; lia|].
    rewrite (Hloc
               (URL.mkURL "http" EmptyString None "target.example" "/"
                  EmptyString false false "utm_source=a" EmptyString
                  EmptyString)).
    + reflexivity.
    + discriminate.
    + reflexivity.
  - destruct (getFinalURL_resolves_one_hop netHop "http://example.com/page?x=1"
                (URL.mkURL "http" EmptyString None "example.com" "/page"
                   EmptyString false false "x=1" EmptyString EmptyString)
                (HTTP.mkProbe 200 EmptyString)
                eq_refl) as (_ & _ & Hother & _).
    apply Hother. simpl. lia.
  - destruct (getFinalURL_resolves_one_hop netMoved "http://example.com:/x"
                (URL.mkURL "http" EmptyString None "example.com" "/x"
                   EmptyString false false EmptyString EmptyString EmptyString)
                (HTTP.mkProbe 301 "/y")
                eq_refl) as (_ & Hredirect & _).
    destruct Hredirect as (_ & _ & Hloc); [simpl; lia|].
    rewrite (Hloc
               (URL.mkURL EmptyString EmptyString None EmptyString "/y"
                  EmptyString false false EmptyString EmptyString
                  EmptyString)).
    + reflexivity.
    + discriminate.
    + reflexivity.
Defined.

(** ** The create endpoint *)

Section Create.

Variable rev : Revision.
Variable cfg : Config.

Lemma createdReply_status (code : string) :
  HTTP.Status (createdReply rev cfg code) = 200%Z.
Proof. destruct rev; reflexivity. Qed.

Lemma existsReply_status (code : string) :
  HTTP.Status (existsReply rev cfg code) = 200%Z.
Proof. destruct rev; reflexivity. Qed.

(** The four ways out of the handler once the URL is resolved, in both
    revisions: the URL has a row, the lookup fails, the insertion fails,
    the insertion succeeds. *)
Lemma storeShortURL_found (env : Env) (finalURL : string) (db : SQL.DB)
  (existing : string) :
  SQL.selectCodeByLongURL (queryFault env) db (removeQueryParams finalURL)
  = SQL.Ok existing ->
  storeShortURL rev cfg env finalURL db = (existsReply rev cfg existing, db).
Proof.
  intros Hsel. destruct rev; simpl;
    unfold MainGo.storeShortURL, Part000.storeShortURL; now rewrite Hsel.
Qed.

Lemma storeShortURL_lookup_failed (env : Env) (finalURL : string)
  (db : SQL.DB) (e : SQL.error) :
  SQL.selectCodeByLongURL (queryFault env) db (removeQueryParams finalURL)
  = SQL.Err e ->
  e <> SQL.ErrNoRows ->
  HTTP.Status (fst (storeShortURL rev cfg env finalURL db)) = 500%Z
  /\ snd (storeShortURL rev cfg env finalURL db) = db.
Proof.
  intros Hsel He. destruct rev; simpl;
    unfold MainGo.storeShortURL, Part000.storeShortURL; rewrite Hsel;
    destruct e; try congruence; auto.
Qed.

Lemma storeShortURL_insert_failed (env : Env) (finalURL : string)
  (db : SQL.DB) (e : SQL.error) :
  SQL.selectCodeByLongURL (queryFault env) db (removeQueryParams finalURL)
  = SQL.Err SQL.ErrNoRows ->
  SQL.insert (execFault env) db (newCode env) (removeQueryParams finalURL)
  = SQL.Err e ->
  HTTP.Status (fst (storeShortURL rev cfg env finalURL db)) = 500%Z
  /\ snd (storeShortURL rev cfg env finalURL db) = db.
Proof.
  intros Hsel Hins. destruct rev; simpl;
    unfold MainGo.storeShortURL, Part000.storeShortURL, generateShortCode;
    rewrite Hsel, Hins; auto.
Qed.

Lemma storeShortURL_inserted (env : Env) (finalURL : string) (db db' : SQL.DB) :
  SQL.selectCodeByLongURL (queryFault env) db (removeQueryParams finalURL)
  = SQL.Err SQL.ErrNoRows ->
  SQL.insert (execFault env) db (newCode env) (removeQueryParams finalURL)
  = SQL.Ok db' ->
  storeShortURL rev cfg env finalURL db
  = (createdReply rev cfg (newCode env), db').
Proof.
  intros Hsel Hins. destruct rev; simpl;
    unfold MainGo.storeShortURL, Part000.storeShortURL, generateShortCode;
    now rewrite Hsel, Hins.
Qed.

(** A create request whose URL resolves is handled by [storeShortURL]. *)
Lemma handleCreate_resolved (env : Env) (r : HTTP.Request) (db : SQL.DB)
  (finalURL : string) :
  HTTP.long_url r <> EmptyString ->
  getFinalURL (net env) (HTTP.long_url r) = Some finalURL ->
  handleCreate rev cfg env r db = storeShortURL rev cfg env finalURL db.
Proof.
  intros Hurl Hfinal. destruct rev; simpl;
    unfold MainGo.handleCreateShortURL, Part000.handleCreateShortURL;
    now rewrite (isEmpty_false _ Hurl), Hfinal.
Qed.

(** A create request that has a canonical URL is one whose URL resolves. *)
Lemma canonicalURL_some (env : Env) (r : HTTP.Request) (u : string) :
  canonicalURL env r = Some u ->
  HTTP.long_url r <> EmptyString
  /\ exists finalURL,
       getFinalURL (net env) (HTTP.long_url r) = Some finalURL
       /\ removeQueryParams finalURL = u.
Proof.
  unfold canonicalURL. destruct (HTTP.long_url r) as [|a s] eqn:E; simpl.
  - discriminate.
  - destruct (getFinalURL (net env) (String a s)) as [f|]; simpl;
      [|discriminate].
    intros [= <-]. split; [discriminate|]. now exists f.
Qed.

(** A create request without a canonical URL leaves the table alone and is
    answered 400 or 500. *)
Lemma handleCreate_unresolved (env : Env) (r : HTTP.Request) (db : SQL.DB) :
  canonicalURL env r = None ->
  snd (handleCreate rev cfg env r db) = db
  /\ (HTTP.Status (fst (handleCreate rev cfg env r db)) = 400%Z
      \/ HTTP.Status (fst (handleCreate rev cfg env r db)) = 500%Z).
Proof.
  unfold canonicalURL. intros Hnone. destruct rev; simpl;
    unfold MainGo.handleCreateShortURL, Part000.handleCreateShortURL;
    destruct (isEmpty (HTTP.long_url r)); simpl; auto;
    destruct (getFinalURL (net env) (HTTP.long_url r)); simpl in *;
    try discriminate; auto.
Qed.

(** The table after a create request for the canonical URL [u]: unchanged,
    or extended by one row for [u] that carries the drawn code, which
    happens only when [u] had no row and the code was not in use. *)
Lemma handleCreate_table (env : Env) (r : HTTP.Request) (db : SQL.DB)
  (u : string) :
  canonicalURL env r = Some u ->
  snd (handleCreate rev cfg env r db) = db
  \/ (find (SQL.hasURL u) (SQL.rows db) = None
      /\ existsb (SQL.hasCode (newCode env)) (SQL.rows db) = false
      /\ snd (handleCreate rev cfg env r db)
         = SQL.mkDB (SQL.rows db
                     ++ [SQL.mkShortURL (SQL.nextID db) (newCode env) u])
                    (SQL.nextID db + 1)).
Proof.
  intros Hcanon. apply canonicalURL_some in Hcanon as (Hurl & f & Hf & Hu).
  rewrite (handleCreate_resolved env r db f Hurl Hf).
  destruct (SQL.selectCodeByLongURL (queryFault env) db (removeQueryParams f))
    as [existing|e] eqn:Hsel.
  - left. now rewrite (storeShortURL_found env f db existing Hsel).
  - destruct e;
      try (left; apply (storeShortURL_lookup_failed env f db _ Hsel);
           discriminate).
    destruct (SQL.insert (execFault env) db (newCode env) (removeQueryParams f))
      as [db'|e] eqn:Hins.
    + right. rewrite (storeShortURL_inserted env f db db' Hsel Hins). simpl.
      unfold SQL.selectCodeByLongURL in Hsel. unfold SQL.insert in Hins.
      rewrite Hu in *.
      destruct (queryFault env); [discriminate|].
      destruct (find (SQL.hasURL u) (SQL.rows db)); [discriminate|].
      destruct (execFault env); [discriminate|].
      destruct (existsb (SQL.hasCode (newCode env)) (SQL.rows db));
        [discriminate|].
      injection Hins as <-. auto.
    + left. apply (storeShortURL_insert_failed env f db e Hsel Hins).
Qed.

End Create.

(** ** Invariants of the table *)

Section Invariants.

Variable rev : Revision.
Variable cfg : Config.

Lemma handleShortURL_table (env : Env) (r : HTTP.Request) (db : SQL.DB) :
  snd (handleShortURL cfg env r db) = db.
Proof.
  unfold handleShortURL.
  destruct (isEmpty (TrimPrefix (HTTP.Path r) "/")); [reflexivity|].
  now destruct (SQL.selectByShortCode (queryFault env) db
                  (TrimPrefix (HTTP.Path r) "/")).
Qed.

(** The delete handler leaves the table alone or removes the rows of the
    code named by the path. *)
Lemma handleDeleteShortURL_table (env : Env) (r : HTTP.Request) (db : SQL.DB) :
  snd (handleDeleteShortURL cfg env r db) = db
  \/ snd (handleDeleteShortURL cfg env r db)
     = SQL.mkDB
         (filter (fun x =>
                    negb (SQL.hasCode (TrimPrefix (HTTP.Path r) "/api/delete/") x))
            (SQL.rows db))
         (SQL.nextID db).
Proof.
  unfold handleDeleteShortURL.
  destruct (negb (HTTP.Authorization r =? adminKey cfg)); [now left|].
  destruct (isEmpty (TrimPrefix (HTTP.Path r) "/api/delete/")); [now left|].
  unfold SQL.deleteByShortCode. destruct (execFault env); [now left|now right].
Qed.

Lemma serve_uniqueCodes (c : Call) (db : SQL.DB) :
  uniqueCodes db -> uniqueCodes (snd (serve rev cfg c db)).
Proof.
  unfold uniqueCodes, SQL.codes. intros Hnd. destruct c as [env r|env r|env r]; simpl.
  - now rewrite handleShortURL_table.
  - destruct (canonicalURL env r) as [u|] eqn:Hc.
    + destruct (handleCreate_table rev cfg env r db u Hc)
        as [-> | (_ & Hfresh & ->)]; [exact Hnd|]. simpl.
      apply SQLFacts.NoDup_map_snoc; [exact Hnd|]. simpl.
      intros Hin. apply in_map_iff in Hin as (x & Hx & Hin).
      assert (Hex : existsb (SQL.hasCode (newCode env)) (SQL.rows db) = true).
      { apply existsb_exists. exists x. split; [exact Hin|].
        now apply SQLFacts.hasCode_true. }
      congruence.
    + destruct (handleCreate_unresolved rev cfg env r db Hc) as [-> _].
      exact Hnd.
  - destruct (handleDeleteShortURL_table env r db) as [-> | ->]; [exact Hnd|].
    simpl. now apply SQLFacts.NoDup_filter_map.
Qed.

Lemma serve_uniqueURLs (c : Call) (db : SQL.DB) :
  uniqueURLs db -> uniqueURLs (snd (serve rev cfg c db)).
Proof.
  unfold uniqueURLs, SQL.urls. intros Hnd. destruct c as [env r|env r|env r]; simpl.
  - now rewrite handleShortURL_table.
  - destruct (canonicalURL env r) as [u|] eqn:Hc.
    + destruct (handleCreate_table rev cfg env r db u Hc)
        as [-> | (Habsent & _ & ->)]; [exact Hnd|]. simpl.
      apply SQLFacts.NoDup_map_snoc; [exact Hnd|]. simpl.
      apply (SQLFacts.find_none_not_in SQL.LongURL (SQL.hasURL u));
        [intros a; apply SQLFacts.hasURL_true | exact Habsent].
    + destruct (handleCreate_unresolved rev cfg env r db Hc) as [-> _].
      exact Hnd.
  - destruct (handleDeleteShortURL_table env r db) as [-> | ->]; [exact Hnd|].
    simpl. now apply SQLFacts.NoDup_filter_map.
Qed.

Lemma run_uniqueCodes (cs : list Call) (db : SQL.DB) :
  uniqueCodes db -> uniqueCodes (run rev cfg cs db).
Proof.
  revert db. induction cs as [|c cs IH]; simpl; intros db Hdb; [exact Hdb|].
  apply IH. now apply serve_uniqueCodes.
Qed.

Lemma run_uniqueURLs (cs : list Call) (db : SQL.DB) :
  uniqueURLs db -> uniqueURLs (run rev cfg cs db).
Proof.
  revert db. induction cs as [|c cs IH]; simpl; intros db Hdb; [exact Hdb|].
  apply IH. now apply serve_uniqueURLs.
Qed.

Lemma empty_uniqueCodes : uniqueCodes SQL.empty.
Proof. constructor. Qed.

Lemma empty_uniqueURLs : uniqueURLs SQL.empty.
Proof. constructor. Qed.

(** The create handler reuses the code of a row that has the canonical URL. *)
Lemma handleCreate_reuses (env : Env) (r : HTTP.Request) (db : SQL.DB)
  (u : string) (row : SQL.ShortURL) :
  canonicalURL env r = Some u ->
  queryFault env = false ->
  find (SQL.hasURL u) (SQL.rows db) = Some row ->
  handleCreate rev cfg env r db = (existsReply rev cfg (SQL.ShortCode row), db).
Proof.
  intros Hcanon Hfault Hfind.
  apply canonicalURL_some in Hcanon as (Hurl & f & Hf & Hu).
  rewrite (handleCreate_resolved rev cfg env r db f Hurl Hf).
  apply storeShortURL_found. unfold SQL.selectCodeByLongURL.
  now rewrite Hfault, Hu, Hfind.
Qed.

(** C3.  Whatever calls to the redirect, create and delete endpoints are
    served one after the other from the empty table, the table holds at most
    one row for any long URL.  The create handler is what keeps it so: when
    the canonical URL of a request already has a row, the reply carries the
    code of that row and the table is left as it was. *)
Theorem longURL_unique_in_every_reachable_state :
  (forall (cs : list Call) (url : string),
     SQL.countURL url (run rev cfg cs SQL.empty) <= 1)
  /\ (forall (env : Env) (r : HTTP.Request) (db : SQL.DB) (u : string)
        (row : SQL.ShortURL),
        canonicalURL env r = Some u ->
        queryFault env = false ->
        find (SQL.hasURL u) (SQL.rows db) = Some row ->
        handleCreate rev cfg env r db
        = (existsReply rev cfg (SQL.ShortCode row), db)).
Proof.
  split.
  - intros cs url. apply SQLFacts.NoDup_count_le.
    apply (run_uniqueURLs cs SQL.empty empty_uniqueURLs).
  - apply handleCreate_reuses.
Qed.

End Invariants.

Lemma longURL_unique_in_every_reachable_state_witness :
  SQL.countURL "http://example.com/page"
    (run RevPart000 defaultConfig
       [CallCreate (envOK "abc") (createRequest "http://example.com/page?x=1");
        CallCreate (envOK "def") (createRequest "http://example.com/page?y=2")]
       SQL.empty) <= 1
  /\ handleCreate RevPart000 defaultConfig (envOK "def")
       (createRequest "http://example.com/page?y=2") dbOne
     = (existsReply RevPart000 defaultConfig "abc", dbOne).
Proof.
  destruct (longURL_unique_in_every_reachable_state RevPart000 defaultConfig)
    as [Hcount Hreuse].
  split.
  - apply Hcount.
  - apply (Hreuse (envOK "def") (createRequest "http://example.com/page?y=2")
             dbOne "http://example.com/page"
             (SQL.mkShortURL 1 "abc" "http://example.com/page"));
      reflexivity.
Defined.

(** ** Idempotence of creation *)

Module CountFacts.

Import SQL.

Lemma find_none_count (url : string) (l : list ShortURL) :
  find (hasURL url) l = None -> List.length (filter (hasURL url) l) = 0.
Proof.
  intros Hfind. rewrite SQLFacts.filter_none; [reflexivity|].
  intros a Ha. exact (find_none _ _ Hfind a Ha).
Qed.

Lemma find_some_count (url : string) (l : list ShortURL) (r : ShortURL) :
  find (hasURL url) l = Some r -> 1 <= List.length (filter (hasURL url) l).
Proof.
  intros Hfind. apply find_some in Hfind as [Hin Hr].
  assert (Hf : In r (filter (hasURL url) l)) by (apply filter_In; auto).
  destruct (filter (hasURL url) l); [contradiction | simpl; lia].
Qed.

Lemma find_snoc_none {A : Type} (test : A -> bool) (l : list A) (a : A) :
  find test l = None -> test a = true -> find test (l ++ [a]) = Some a.
Proof.
  induction l as [|x l IH]; simpl; intros Hfind Ha.
  - now rewrite Ha.
  - destruct (test x); [discriminate | auto].
Qed.

Lemma find_app_some {A : Type} (test : A -> bool) (l l' : list A) (a : A) :
  find test l = Some a -> find test (l ++ l') = Some a.
Proof.
  induction l as [|x l IH]; simpl; intros Hfind; [discriminate|].
  destruct (test x); auto.
Qed.

End CountFacts.

(** What a create request does when its canonical URL has no row, the code
    drawn for it is not in use and the driver does not fail: it appends the
    row and hands out the code. *)
Lemma create_inserts (rev : Revision) (cfg : Config) (env : Env)
  (r : HTTP.Request) (db : SQL.DB) (u : string) :
  canonicalURL env r = Some u ->
  queryFault env = false ->
  execFault env = false ->
  ~ In u (SQL.urls db) ->
  ~ In (newCode env) (SQL.codes db) ->
  handleCreate rev cfg env r db
  = (createdReply rev cfg (newCode env),
     SQL.mkDB (SQL.rows db ++ [SQL.mkShortURL (SQL.nextID db) (newCode env) u])
              (SQL.nextID db + 1)).
Proof.
  intros Hcanon Hq Hx Hnew Hfresh.
  apply canonicalURL_some in Hcanon as (Hne & f & Hf & Hu).
  rewrite (handleCreate_resolved rev cfg env r db f Hne Hf).
  apply storeShortURL_inserted.
  - unfold SQL.selectCodeByLongURL. rewrite Hq, Hu.
    rewrite (SQLFacts.not_in_find_none SQL.LongURL _ u); auto.
    intros a. apply SQLFacts.hasURL_true.
  - unfold SQL.insert. rewrite Hx, Hu.
    destruct (existsb (SQL.hasCode (newCode env)) (SQL.rows db)) eqn:Hex;
      [|reflexivity].
    exfalso. apply existsb_exists in Hex as (x & Hxin & Hxc).
    apply Hfresh. unfold SQL.codes. apply in_map_iff. exists x.
    split; [now apply SQLFacts.hasCode_true | exact Hxin].
Qed.

Section Idempotence.

Variable rev : Revision.
Variable cfg : Config.

(** What a create request that is answered 200 has done: reused the code of
    the first row that has its canonical URL, or appended a row for it. *)
Lemma handleCreate_success (env : Env) (r : HTTP.Request) (db : SQL.DB)
  (u : string) :
  canonicalURL env r = Some u ->
  HTTP.Status (fst (handleCreate rev cfg env r db)) = 200%Z ->
  (exists row,
     find (SQL.hasURL u) (SQL.rows db) = Some row
     /\ handleCreate rev cfg env r db
        = (existsReply rev cfg (SQL.ShortCode row), db))
  \/ (find (SQL.hasURL u) (SQL.rows db) = None
      /\ existsb (SQL.hasCode (newCode env)) (SQL.rows db) = false
      /\ handleCreate rev cfg env r db
         = (createdReply rev cfg (newCode env),
            SQL.mkDB (SQL.rows db
                      ++ [SQL.mkShortURL (SQL.nextID db) (newCode env) u])
                     (SQL.nextID db + 1))).
Proof.
  intros Hcanon Hstatus.
  apply canonicalURL_some in Hcanon as (Hurl & f & Hf & Hu).
  rewrite (handleCreate_resolved rev cfg env r db f Hurl Hf) in *.
  destruct (SQL.selectCodeByLongURL (queryFault env) db (removeQueryParams f))
    as [existing|e] eqn:Hsel.
  - left. unfold SQL.selectCodeByLongURL in Hsel. rewrite Hu in Hsel.
    destruct (queryFault env) eqn:Hq; [discriminate|].
    destruct (find (SQL.hasURL u) (SQL.rows db)) as [row|] eqn:Hfind;
      [|discriminate].
    exists row. split; [reflexivity|].
    apply storeShortURL_found. unfold SQL.selectCodeByLongURL.
    now rewrite Hq, Hu, Hfind.
  - destruct e;
      try (destruct (storeShortURL_lookup_failed rev cfg env f db _ Hsel)
             as [H500 _]; [discriminate | rewrite H500 in Hstatus;
                                          discriminate]).
    destruct (SQL.insert (execFault env) db (newCode env) (removeQueryParams f))
      as [db'|e] eqn:Hins.
    + right. rewrite (storeShortURL_inserted rev cfg env f db db' Hsel Hins).
      unfold SQL.selectCodeByLongURL in Hsel. unfold SQL.insert in Hins.
      rewrite Hu in *.
      destruct (queryFault env); [discriminate|].
      destruct (find (SQL.hasURL u) (SQL.rows db)); [discriminate|].
      destruct (execFault env); [discriminate|].
      destruct (existsb (SQL.hasCode (newCode env)) (SQL.rows db));
        [discriminate|].
      injection Hins as <-. auto.
    + destruct (storeShortURL_insert_failed rev cfg env f db e Hsel Hins)
        as [H500 _]. rewrite H500 in Hstatus. discriminate.
Qed.

(** Two create requests with the canonical URL [u], served one right after
    the other on a table that has at most one row for [u]. *)
Lemma create_twice (env1 env2 : Env) (r1 r2 : HTTP.Request)
  (db : SQL.DB) (u : string) :
  canonicalURL env1 r1 = Some u ->
  canonicalURL env2 r2 = Some u ->
  SQL.countURL u db <= 1 ->
  HTTP.Status (fst (handleCreate rev cfg env1 r1 db)) = 200%Z ->
  queryFault env2 = false ->
  exists code,
    announces rev cfg (fst (handleCreate rev cfg env1 r1 db)) code
    /\ announces rev cfg
         (fst (handleCreate rev cfg env2 r2
                 (snd (handleCreate rev cfg env1 r1 db)))) code
    /\ SQL.countURL u
         (snd (handleCreate rev cfg env2 r2
                 (snd (handleCreate rev cfg env1 r1 db)))) = 1.
Proof.
  intros Hc1 Hc2 Hcount Hstatus Hq2.
  destruct (handleCreate_success env1 r1 db u Hc1 Hstatus)
    as [(row & Hfind & ->) | (Hfind & _ & ->)]; simpl.
  - exists (SQL.ShortCode row).
    rewrite (handleCreate_reuses rev cfg env2 r2 db u row Hc2 Hq2 Hfind).
    simpl. unfold announces. repeat split; auto.
    apply CountFacts.find_some_count in Hfind. unfold SQL.countURL in *. lia.
  - exists (newCode env1).
    set (row := SQL.mkShortURL (SQL.nextID db) (newCode env1) u).
    set (db1 := SQL.mkDB (SQL.rows db ++ [row]) (SQL.nextID db + 1)).
    assert (Hfind1 : find (SQL.hasURL u) (SQL.rows db1) = Some row).
    { simpl. apply CountFacts.find_snoc_none; [exact Hfind|].
      now apply SQLFacts.hasURL_true. }
    rewrite (handleCreate_reuses rev cfg env2 r2 db1 u row Hc2 Hq2 Hfind1).
    simpl. unfold announces. repeat split; auto.
    unfold SQL.countURL. simpl. rewrite filter_app, length_app.
    rewrite (CountFacts.find_none_count u _ Hfind). simpl.
    unfold SQL.hasURL at 1. simpl. now rewrite String.eqb_refl.
Qed.




End Idempotence.



(** ** What [http.Redirect] sends for a stored URL *)

Module RedirectFacts.

Import URL URLParts SchemeFacts.

(** [path.Clean] on a few paths, and the replies of [http.Redirect] to a
    [GET] and to a [POST]. *)
Example Clean_samples :
  GoPath.Clean "a/b/../c" = "a/c"
  /\ GoPath.Clean "/../a//b/./c/" = "/a/b/c"
  /\ GoPath.Clean "../../a" = "../../a"
  /\ GoPath.Clean "abc/def/../../.." = ".."
  /\ GoPath.Clean "abc/def/../.." = "."
  /\ GoPath.Clean EmptyString = ".".
Proof. repeat split; reflexivity. Qed.

Example Redirect_get :
  HTTP.Redirect (getRequest "/abc") "http://example.com/?a=1&b=2" 301
  = HTTP.mkResponse 301 (Some "text/html; charset=utf-8")
      (Some "http://example.com/?a=1&b=2")
      ("<a href=" ++ Part000.quote ++ "http://example.com/?a=1&amp;b=2"
       ++ Part000.quote ++ ">Moved Permanently</a>." ++ HTTP.nl ++ HTTP.nl).
Proof. reflexivity. Qed.

Example Redirect_relative :
  HTTP.Redirect (HTTP.mkRequest "POST" "/x/abc" EmptyString EmptyString)
    "foo/../bar/?q=1" 301
  = HTTP.mkResponse 301 None (Some "/x/bar/?q=1") EmptyString.
Proof. reflexivity. Qed.

Lemma hexEscapeNonASCII_ascii (s : string) :
  isASCII s = true -> HTTP.hexEscapeNonASCII s = s.
Proof.
  unfold isASCII. induction s as [|c s IH]; [reflexivity|].
  simpl. rewrite andb_true_iff. intros [Hc Hs].
  apply N.ltb_lt in Hc. destruct (N.leb_spec 128 (Bytes.code c)) as [H|_];
    [lia|]. now rewrite IH.
Qed.

Lemma redirectTarget_kept (r : HTTP.Request) (url : string) :
  keptByRedirect url = true -> HTTP.redirectTarget r url = url.
Proof.
  unfold keptByRedirect, HTTP.redirectTarget.
  destruct (Parse url) as [u|]; [|reflexivity].
  destruct (isEmpty (Scheme u) && isEmpty (Host u)); [discriminate|reflexivity].
Qed.

Lemma Redirect_kept (r : HTTP.Request) (url : string) (code : Z) :
  keptByRedirect url = true ->
  HTTP.Status (HTTP.Redirect r url code) = code
  /\ HTTP.Location (HTTP.Redirect r url code)
     = Some (HTTP.hexEscapeNonASCII url).
Proof.
  intros H. unfold HTTP.Redirect. now rewrite (redirectTarget_kept r url H).
Qed.

Lemma hasScheme_kept (url : string) : hasScheme url -> keptByRedirect url = true.
Proof.
  intros H. unfold keptByRedirect. destruct (Parse url) as [u|] eqn:Hu;
    [|reflexivity].
  apply (Parse_hasScheme _ _ H), validScheme_nonempty in Hu.
  now rewrite (isEmpty_false _ Hu).
Qed.

Lemma removeQueryParams_hasScheme (f : string) :
  hasScheme f -> hasScheme (removeQueryParams f).
Proof.
  intros H. unfold removeQueryParams. destruct (Parse f) as [p|] eqn:Hp;
    [|exact H].
  apply String_hasScheme. exact (Parse_hasScheme _ _ H Hp).
Qed.

(** Whatever [getFinalURL] returns, its query-free form starts with a
    scheme: that of the submitted URL, which the transport has accepted, or
    that of the location it was redirected to. *)
Lemma getFinalURL_hasScheme (net : HTTP.Transport) (urlStr f : string) :
  getFinalURL net urlStr = Some f -> hasScheme (removeQueryParams f).
Proof.
  unfold getFinalURL.
  destruct (HTTP.Head net urlStr) as [[reqURL resp]|] eqn:Hhead;
    [|discriminate].
  apply Head_request in Hhead as (u & Hu & Hreq & Hscheme & _ & _).
  assert (Hv : validScheme (Scheme u) = true).
  { now destruct Hscheme as [-> | ->]. }
  destruct (isRedirect (HTTP.StatusCode resp)).
  - unfold HTTP.ResponseLocation, ParseIn.
    destruct (isEmpty (HTTP.LocationHeader resp)); [discriminate|].
    destruct (Parse (HTTP.LocationHeader resp)) as [ref|] eqn:Href;
      [|discriminate].
    intros [= <-]. apply removeQueryParams_hasScheme, String_hasScheme.
    rewrite ResolveReference_scheme.
    destruct (isEmpty (Scheme ref)) eqn:He; [now rewrite Hreq|].
    destruct (Parse_scheme_valid _ _ Href) as [H | H]; [|exact H].
    rewrite H in He. discriminate.
  - intros [= <-]. unfold removeQueryParams. rewrite Hu.
    now apply String_hasScheme.
Qed.

Lemma canonicalURL_hasScheme (env : Env) (r : HTTP.Request) (u : string) :
  canonicalURL env r = Some u -> hasScheme u.
Proof.
  unfold canonicalURL. destruct (isEmpty (HTTP.long_url r)); [discriminate|].
  destruct (getFinalURL (net env) (HTTP.long_url r)) as [f|] eqn:Hf;
    [|discriminate].
  intros [= <-]. exact (getFinalURL_hasScheme _ _ _ Hf).
Qed.

End RedirectFacts.

(** ** From a created code to its long URL *)

Module AppendFacts.

Lemma length_append (a b : string) :
  String.length (a ++ b) = String.length a + String.length b.
Proof. induction a as [|c a IH]; simpl; [reflexivity | now rewrite IH]. Qed.

Lemma append_inv_head (p a b : string) : p ++ a = p ++ b -> a = b.
Proof.
  induction p as [|c p IH]; simpl; intros H; [exact H|].
  injection H as H. now apply IH.
Qed.

Lemma append_inv_tail (a b s : string) : a ++ s = b ++ s -> a = b.
Proof.
  revert b. induction a as [|c a IH]; intros [|d b] H; simpl in H.
  - reflexivity.
  - apply (f_equal String.length) in H. simpl in H.
    rewrite length_append in H. lia.
  - apply (f_equal String.length) in H. simpl in H.
    rewrite length_append in H. lia.
  - injection H as -> H. f_equal. now apply IH.
Qed.

End AppendFacts.

Section RoundTrip.

Variable rev : Revision.
Variable cfg : Config.

(** A reply hands out one code only. *)
Lemma shortURL_inj (c1 c2 : string) :
  shortURL rev cfg c1 = shortURL rev cfg c2 -> c1 = c2.
Proof.
  destruct rev; simpl; intros H; apply AppendFacts.append_inv_head in H.
  - exact H.
  - now injection H.
Qed.

Lemma createdReply_inj (c1 c2 : string) :
  createdReply rev cfg c1 = createdReply rev cfg c2 -> c1 = c2.
Proof.
  intros H. apply shortURL_inj. revert H.
  destruct rev; unfold createdReply, HTTP.WriteBody, Part000.jsonObject;
    intros [= H]; now apply AppendFacts.append_inv_tail in H.
Qed.

Lemma existsReply_inj (c1 c2 : string) :
  existsReply rev cfg c1 = existsReply rev cfg c2 -> c1 = c2.
Proof.
  intros H. apply shortURL_inj. revert H.
  destruct rev; unfold existsReply, HTTP.WriteBody, Part000.jsonObject;
    intros [= H]; now apply AppendFacts.append_inv_tail in H.
Qed.

Lemma created_exists_inj (c1 c2 : string) :
  createdReply rev cfg c1 = existsReply rev cfg c2 -> c1 = c2.
Proof.
  intros H. apply shortURL_inj. revert H.
  destruct rev; unfold createdReply, existsReply, HTTP.WriteBody,
    Part000.jsonObject; intros [= H];
    now apply AppendFacts.append_inv_tail in H.
Qed.

Lemma announces_created (code c : string) :
  announces rev cfg (createdReply rev cfg c) code -> code = c.
Proof.
  intros [H | H]; symmetry.
  - now apply createdReply_inj.
  - now apply created_exists_inj.
Qed.

Lemma announces_exists (code c : string) :
  announces rev cfg (existsReply rev cfg c) code -> code = c.
Proof.
  intros [H | H].
  - now apply created_exists_inj.
  - symmetry. now apply existsReply_inj.
Qed.

Lemma announces_status (resp : HTTP.Response) (code : string) :
  announces rev cfg resp code -> HTTP.Status resp = 200%Z.
Proof.
  intros [-> | ->]; [apply createdReply_status | apply existsReply_status].
Qed.

(** A call that is not a delete for the code of [row] keeps [row]. *)
Lemma serve_keeps_row (c : Call) (db : SQL.DB) (row : SQL.ShortURL) :
  deletes (SQL.ShortCode row) c = false ->
  In row (SQL.rows db) ->
  In row (SQL.rows (snd (serve rev cfg c db))).
Proof.
  intros Hdel Hin. destruct c as [env r|env r|env r]; simpl in *.
  - now rewrite handleShortURL_table.
  - destruct (canonicalURL env r) as [u|] eqn:Hc.
    + destruct (handleCreate_table rev cfg env r db u Hc)
        as [-> | (_ & _ & ->)]; [exact Hin|]. simpl.
      apply in_or_app. now left.
    + now destruct (handleCreate_unresolved rev cfg env r db Hc) as [-> _].
  - destruct (handleDeleteShortURL_table cfg env r db) as [-> | ->];
      [exact Hin|]. simpl. apply filter_In. split; [exact Hin|].
    unfold SQL.hasCode. rewrite String.eqb_sym. now rewrite Hdel.
Qed.

Lemma run_keeps_row (cs : list Call) (db : SQL.DB) (row : SQL.ShortURL) :
  Forall (fun c => deletes (SQL.ShortCode row) c = false) cs ->
  In row (SQL.rows db) ->
  In row (SQL.rows (run rev cfg cs db)).
Proof.
  revert db. induction cs as [|c cs IH]; simpl; intros db Hcs Hin;
    [exact Hin|].
  inversion_clear Hcs as [|? ? Hc Hcs']. apply IH; [exact Hcs'|].
  now apply serve_keeps_row.
Qed.

(** The redirect handler on the path of a code that a row carries. *)
Lemma handleShortURL_found (env : Env) (g : HTTP.Request) (db : SQL.DB)
  (row : SQL.ShortURL) :
  HTTP.Path g = "/" ++ SQL.ShortCode row ->
  SQL.ShortCode row <> EmptyString ->
  queryFault env = false ->
  find (SQL.hasCode (SQL.ShortCode row)) (SQL.rows db) = Some row ->
  handleShortURL cfg env g db
  = (HTTP.Redirect g (SQL.LongURL row) HTTP.StatusMovedPermanently, db).
Proof.
  intros Hpath Hcode Hq Hfind. unfold handleShortURL.
  rewrite Hpath, TrimPrefix_app, (isEmpty_false _ Hcode).
  unfold SQL.selectByShortCode. now rewrite Hq, Hfind.
Qed.

(** C2, as amended.  Let a create request be answered with a reply that
    hands out the non-empty code [code], and let any calls follow, none of
    them a delete for [code].  Then the table has a row for [code], its long
    URL is the canonical URL of the create request, and a request for
    [/code], looked up by a working datastore, is answered by
    [http.Redirect] with that long URL and the status 301.  The [Location]
    header of that reply is the long URL with every byte of 128 or more
    written as a percent sign and two hexadecimal digits; it is exactly the
    long URL when the long URL is made of ASCII bytes. *)
Theorem created_code_redirects (env : Env) (r : HTTP.Request) (db : SQL.DB)
  (code : string) (cs : list Call) (envG : Env) (g : HTTP.Request) :
  uniqueCodes db ->
  announces rev cfg (fst (handleCreate rev cfg env r db)) code ->
  code <> EmptyString ->
  Forall (fun c => deletes code c = false) cs ->
  HTTP.Path g = "/" ++ code ->
  queryFault envG = false ->
  exists row,
    find (SQL.hasCode code)
      (SQL.rows (run rev cfg cs (snd (handleCreate rev cfg env r db))))
    = Some row
    /\ canonicalURL env r = Some (SQL.LongURL row)
    /\ handleShortURL cfg envG g
         (run rev cfg cs (snd (handleCreate rev cfg env r db)))
       = (HTTP.Redirect g (SQL.LongURL row) HTTP.StatusMovedPermanently,
          run rev cfg cs (snd (handleCreate rev cfg env r db)))
    /\ HTTP.Status (HTTP.Redirect g (SQL.LongURL row) 301) = 301%Z
    /\ HTTP.Location (HTTP.Redirect g (SQL.LongURL row) 301)
       = Some (HTTP.hexEscapeNonASCII (SQL.LongURL row))
    /\ (URLParts.isASCII (SQL.LongURL row) = true ->
        HTTP.Location (HTTP.Redirect g (SQL.LongURL row) 301)
        = Some (SQL.LongURL row)).
Proof.
  intros Hcodes Hann Hcode Hcs Hpath Hq.
  pose proof (announces_status _ _ Hann) as Hstatus.
  destruct (canonicalURL env r) as [u|] eqn:Hcanon.
  2:{ destruct (handleCreate_unresolved rev cfg env r db Hcanon)
        as [_ [H | H]]; rewrite H in Hstatus; discriminate. }
  assert (Hrow : exists row,
             In row (SQL.rows (snd (handleCreate rev cfg env r db)))
             /\ SQL.ShortCode row = code /\ SQL.LongURL row = u).
  { destruct (handleCreate_success rev cfg env r db u Hcanon Hstatus)
      as [(row & Hfind & Heq) | (_ & _ & Heq)]; rewrite Heq in *; simpl in *.
    - apply announces_exists in Hann. exists row.
      apply find_some in Hfind as [Hin Hu].
      apply SQLFacts.hasURL_true in Hu. auto.
    - apply announces_created in Hann.
      exists (SQL.mkShortURL (SQL.nextID db) (newCode env) u). simpl.
      split; [apply in_or_app; right; now left | auto]. }
  destruct Hrow as (row & Hin & Hrc & Hru). subst code u.
  set (db1 := snd (handleCreate rev cfg env r db)) in *.
  assert (Hcodes1 : uniqueCodes (run rev cfg cs db1)).
  { apply run_uniqueCodes.
    apply (serve_uniqueCodes rev cfg (CallCreate env r) db Hcodes). }
  assert (Hfind : find (SQL.hasCode (SQL.ShortCode row))
                    (SQL.rows (run rev cfg cs db1)) = Some row).
  { apply (SQLFacts.find_unique SQL.ShortCode _ (SQL.ShortCode row)).
    - intros x. apply SQLFacts.hasCode_true.
    - exact Hcodes1.
    - now apply run_keeps_row.
    - reflexivity. }
  exists row. split; [exact Hfind|]. split; [reflexivity|].
  split; [now apply handleShortURL_found|].
  pose proof (RedirectFacts.hasScheme_kept _
                (RedirectFacts.canonicalURL_hasScheme env r _ Hcanon)) as Hkept.
  destruct (RedirectFacts.Redirect_kept g (SQL.LongURL row) 301 Hkept)
    as [Hs Hl].
  split; [exact Hs|]. split; [exact Hl|].
  intros Hascii. rewrite Hl.
  now rewrite (RedirectFacts.hexEscapeNonASCII_ascii _ Hascii).
Qed.

End RoundTrip.

Lemma created_code_redirects_witness :
  exists row,
    find (SQL.hasCode "abc")
      (SQL.rows
         (run RevPart000 defaultConfig
            [CallCreate (envOK "def") (createRequest "http://example.com/page");
             CallDelete (envOK EmptyString) (deleteRequest "def" "DEFAULT_KEY")]
            (snd (handleCreate RevPart000 defaultConfig
                    (mkEnv netHop "abc" false false)
                    (createRequest "http://short.example/x") SQL.empty))))
    = Some row
    /\ canonicalURL (mkEnv netHop "abc" false false)
         (createRequest "http://short.example/x")
       = Some (SQL.LongURL row)
    /\ handleShortURL defaultConfig (envOK EmptyString) (getRequest "/abc")
         (run RevPart000 defaultConfig
            [CallCreate (envOK "def") (createRequest "http://example.com/page");
             CallDelete (envOK EmptyString) (deleteRequest "def" "DEFAULT_KEY")]
            (snd (handleCreate RevPart000 defaultConfig
                    (mkEnv netHop "abc" false false)
                    (createRequest "http://short.example/x") SQL.empty)))
       = (HTTP.Redirect (getRequest "/abc") (SQL.LongURL row)
            HTTP.StatusMovedPermanently,
          run RevPart000 defaultConfig
            [CallCreate (envOK "def") (createRequest "http://example.com/page");
             CallDelete (envOK EmptyString) (deleteRequest "def" "DEFAULT_KEY")]
            (snd (handleCreate RevPart000 defaultConfig
                    (mkEnv netHop "abc" false false)
                    (createRequest "http://short.example/x") SQL.empty)))
    /\ HTTP.Status (HTTP.Redirect (getRequest "/abc") (SQL.LongURL row) 301)
       = 301%Z
    /\ HTTP.Location (HTTP.Redirect (getRequest "/abc") (SQL.LongURL row) 301)
       = Some (HTTP.hexEscapeNonASCII (SQL.LongURL row))
    /\ (URLParts.isASCII (SQL.LongURL row) = true ->
        HTTP.Location (HTTP.Redirect (getRequest "/abc") (SQL.LongURL row) 301)
        = Some (SQL.LongURL row)).
Proof.
  apply (created_code_redirects RevPart000 defaultConfig
           (mkEnv netHop "abc" false false)
           (createRequest "http://short.example/x") SQL.empty "abc").
  - constructor.
  - left. reflexivity.
  - discriminate.
  - repeat constructor.
  - reflexivity.
  - reflexivity.
Defined.

(** C2, as the claim has it, fails for a long URL with a byte of 128 or
    more.  The probe of [http://short.example/m] is answered with the
    location [mailto:] followed by the two bytes of [eAcute]; the create
    request is answered with the code [abc] and that location is stored as
    it is; the request for [/abc] is answered 301 with a [Location] in which
    the two bytes are percent-encoded, which is not the stored long URL. *)
Lemma redirect_target_escaped_counterexample :
  handleCreate RevMainGo defaultConfig (mkEnv netMailto "abc" false false)
    (createRequest "http://short.example/m") SQL.empty
  = (createdReply RevMainGo defaultConfig "abc",
     SQL.mkDB [SQL.mkShortURL 1 "abc" ("mailto:" ++ eAcute)] 2)
  /\ HTTP.Status
       (fst (handleShortURL defaultConfig (envOK EmptyString)
               (getRequest "/abc")
               (SQL.mkDB [SQL.mkShortURL 1 "abc" ("mailto:" ++ eAcute)] 2)))
     = 301%Z
  /\ HTTP.Location
       (fst (handleShortURL defaultConfig (envOK EmptyString)
               (getRequest "/abc")
               (SQL.mkDB [SQL.mkShortURL 1 "abc" ("mailto:" ++ eAcute)] 2)))
     = Some "mailto:%c3%a9"
  /\ HTTP.Location
       (fst (handleShortURL defaultConfig (envOK EmptyString)
               (getRequest "/abc")
               (SQL.mkDB [SQL.mkShortURL 1 "abc" ("mailto:" ++ eAcute)] 2)))
     <> Some ("mailto:" ++ eAcute).
Proof.
  split; [reflexivity|]. split; [reflexivity|]. split; [reflexivity|].
  discriminate.
Qed.

(** ** The replies of the create endpoint *)

(** C4, as the claim has it, fails on [src/main.go]: a request that goes
    through the insertion is answered 200 with a line of plain text in which
    the code follows the domain without a slash. *)
Lemma create_reply_is_json_counterexample :
  let result :=
    MainGo.handleCreateShortURL defaultConfig (envOK "abc")
      (createRequest "http://example.com/page?x=1") SQL.empty in
  SQL.rows (snd result) = [SQL.mkShortURL 1 "abc" "http://example.com/page"]
  /\ HTTP.Status (fst result) = 200%Z
  /\ HTTP.ContentType (fst result) = None
  /\ HTTP.Body (fst result)
     = "Short URL created: http://localhostabc" ++ HTTP.nl
  /\ Contains (HTTP.Body (fst result)) "http://localhost/abc" = false
  /\ HTTP.Body (fst result)
     <> Part000.jsonObject "short_url" "http://localhost/abc".
Proof.
  vm_compute. repeat split; try reflexivity. discriminate.
Qed.

(** C4, amended.  Take a create request whose URL resolves, so that the
    handler reaches the table.  The branch that finds a row for the canonical
    URL and the branch that inserts one both answer 200.  In
    [src/unnamed/part_000] the body is the JSON object whose [short_url] is
    the domain, a slash and the code; in [src/main.go] it is a line of plain
    text, [Short URL already exists: ] or [Short URL created: ] followed by
    the domain and the code. *)
Theorem create_replies_200_with_short_url (cfg : Config) (env : Env)
  (r : HTTP.Request) (finalURL : string) (db : SQL.DB) :
  HTTP.long_url r <> EmptyString ->
  getFinalURL (net env) (HTTP.long_url r) = Some finalURL ->
  (forall existing,
     SQL.selectCodeByLongURL (queryFault env) db (removeQueryParams finalURL)
     = SQL.Ok existing ->
     Part000.handleCreateShortURL cfg env r db
     = (HTTP.mkResponse 200 (Some "application/json") None
          (Part000.jsonObject "short_url" (domain cfg ++ "/" ++ existing)), db)
     /\ MainGo.handleCreateShortURL cfg env r db
        = (HTTP.mkResponse 200 None None
             ("Short URL already exists: " ++ (domain cfg ++ existing)
              ++ HTTP.nl), db))
  /\ (forall db',
        SQL.selectCodeByLongURL (queryFault env) db (removeQueryParams finalURL)
        = SQL.Err SQL.ErrNoRows ->
        SQL.insert (execFault env) db (newCode env) (removeQueryParams finalURL)
        = SQL.Ok db' ->
        Part000.handleCreateShortURL cfg env r db
        = (HTTP.mkResponse 200 (Some "application/json") None
             (Part000.jsonObject "short_url" (domain cfg ++ "/" ++ newCode env)),
           db')
        /\ MainGo.handleCreateShortURL cfg env r db
           = (HTTP.mkResponse 200 None None
                ("Short URL created: " ++ (domain cfg ++ newCode env)
                 ++ HTTP.nl), db')).
Proof.
  intros Hurl Hfinal.
  pose proof (handleCreate_resolved RevPart000 cfg env r db finalURL Hurl Hfinal)
    as HP.
  pose proof (handleCreate_resolved RevMainGo cfg env r db finalURL Hurl Hfinal)
    as HM.
  simpl in HP, HM. rewrite HP, HM. split.
  - intros existing Hsel. split.
    + apply (storeShortURL_found RevPart000 cfg env finalURL db existing Hsel).
    + apply (storeShortURL_found RevMainGo cfg env finalURL db existing Hsel).
  - intros db' Hsel Hins. split.
    + apply (storeShortURL_inserted RevPart000 cfg env finalURL db db' Hsel Hins).
    + apply (storeShortURL_inserted RevMainGo cfg env finalURL db db' Hsel Hins).
Qed.

Lemma create_replies_200_with_short_url_witness :
  Part000.handleCreateShortURL defaultConfig (envOK "def")
    (createRequest "http://example.com/page?y=2") dbOne
  = (HTTP.mkResponse 200 (Some "application/json") None
       (Part000.jsonObject "short_url" "http://localhost/abc"), dbOne)
  /\ MainGo.handleCreateShortURL defaultConfig (envOK "abc")
       (createRequest "http://example.com/page?x=1") SQL.empty
     = (HTTP.mkResponse 200 None None
          ("Short URL created: http://localhostabc" ++ HTTP.nl), dbOne).
Proof.
  split.
  - apply (create_replies_200_with_short_url defaultConfig (envOK "def")
             (createRequest "http://example.com/page?y=2")
             "http://example.com/page?y=2" dbOne);
      [discriminate | reflexivity | reflexivity].
  - apply (create_replies_200_with_short_url defaultConfig (envOK "abc")
             (createRequest "http://example.com/page?x=1")
             "http://example.com/page?x=1" SQL.empty);
      [discriminate | reflexivity | reflexivity | reflexivity].
Defined.

(** ** Failures of the datastore *)

Section Faults.

Variable rev : Revision.
Variable cfg : Config.

(** The create endpoint answers 500 when the driver fails its lookup. *)
Lemma create_lookup_fault (env : Env) (r : HTTP.Request) (db : SQL.DB)
  (u : string) :
  canonicalURL env r = Some u ->
  queryFault env = true ->
  HTTP.Status (fst (handleCreate rev cfg env r db)) = 500%Z
  /\ snd (handleCreate rev cfg env r db) = db.
Proof.
  intros Hcanon Hq. apply canonicalURL_some in Hcanon as (Hurl & f & Hf & _).
  rewrite (handleCreate_resolved rev cfg env r db f Hurl Hf).
  apply (storeShortURL_lookup_failed rev cfg env f db SQL.ErrDriver);
    [|discriminate].
  unfold SQL.selectCodeByLongURL. now rewrite Hq.
Qed.

(** The create endpoint answers 500 when the driver fails its insertion. *)
Lemma create_insert_fault (env : Env) (r : HTTP.Request) (db : SQL.DB)
  (u : string) :
  canonicalURL env r = Some u ->
  queryFault env = false ->
  find (SQL.hasURL u) (SQL.rows db) = None ->
  execFault env = true ->
  HTTP.Status (fst (handleCreate rev cfg env r db)) = 500%Z
  /\ snd (handleCreate rev cfg env r db) = db.
Proof.
  intros Hcanon Hq Hfind Hx.
  apply canonicalURL_some in Hcanon as (Hurl & f & Hf & Hu).
  rewrite (handleCreate_resolved rev cfg env r db f Hurl Hf).
  apply (storeShortURL_insert_failed rev cfg env f db SQL.ErrDriver).
  - unfold SQL.selectCodeByLongURL. now rewrite Hq, Hu, Hfind.
  - unfold SQL.insert. now rewrite Hx.
Qed.

(** The delete endpoint answers 500 when the driver fails its statement. *)
Lemma delete_fault (env : Env) (r : HTTP.Request) (db : SQL.DB) :
  HTTP.Authorization r = adminKey cfg ->
  TrimPrefix (HTTP.Path r) "/api/delete/" <> EmptyString ->
  execFault env = true ->
  HTTP.Status (fst (handleDeleteShortURL cfg env r db)) = 500%Z
  /\ snd (handleDeleteShortURL cfg env r db) = db.
Proof.
  intros Hkey Hcode Hx. unfold handleDeleteShortURL.
  rewrite Hkey, String.eqb_refl, (isEmpty_false _ Hcode). simpl.
  unfold SQL.deleteByShortCode. now rewrite Hx.
Qed.

(** The redirect endpoint answers 404 to every failure of its lookup,
    whether the code is unknown or the driver failed. *)
Lemma redirect_fault (env : Env) (r : HTTP.Request) (db : SQL.DB) :
  queryFault env = true ->
  handleShortURL cfg env r db = (HTTP.NotFound, db).
Proof.
  intros Hq. unfold handleShortURL.
  destruct (isEmpty (TrimPrefix (HTTP.Path r) "/")); [reflexivity|].
  unfold SQL.selectByShortCode. now rewrite Hq.
Qed.

End Faults.

(** C5 does not hold of the redirect endpoint.  The code [abc] is in the
    table and the driver fails the lookup with an error other than
    [sql.ErrNoRows]: [handleShortURL] answers 404, the reply it gives for an
    unknown code, where [handleCreateShortURL] tells the two errors apart
    and answers 500. *)
Theorem redirect_answers_404_on_driver_error :
  SQL.selectByShortCode true dbOne "abc" = SQL.Err SQL.ErrDriver
  /\ handleShortURL defaultConfig (mkEnv netOK EmptyString true false)
       (getRequest "/abc") dbOne
     = (HTTP.NotFound, dbOne)
  /\ HTTP.Status
       (fst (handleShortURL defaultConfig (mkEnv netOK EmptyString true false)
               (getRequest "/abc") dbOne)) = 404%Z
  /\ HTTP.Status
       (fst (handleShortURL defaultConfig (envOK EmptyString)
               (getRequest "/abc") dbOne)) = 301%Z.
Proof. repeat split. Qed.

(** ** Query stripping *)

(** The example of the specification: two URLs with different non-empty
    queries have the same canonical URL. *)
Example removeQueryParams_page :
  removeQueryParams "http://example.com/page?x=1" = "http://example.com/page"
  /\ removeQueryParams "http://example.com/page?y=2" = "http://example.com/page".
Proof. split; reflexivity. Qed.

Example removeQueryParams_keeps_fragment :
  removeQueryParams "https://example.com/a/b?utm_source=x&id=7#top"
  = "https://example.com/a/b#top".
Proof. reflexivity. Qed.

(** The target of a redirect is what is stored, without its query. *)
Example create_stores_redirect_target :
  SQL.rows
    (snd (Part000.handleCreateShortURL defaultConfig
            (mkEnv netHop "abc" false false)
            (createRequest "http://short.example/x") SQL.empty))
  = [SQL.mkShortURL 1 "abc" "http://target.example/"].
Proof. reflexivity. Qed.

(** X19.  What [removeQueryParams] does to a URL that parses: the output is the
    URL printed without a query, followed by the fragment; no question mark
    is left in front of the fragment, except the one that [String] writes
    for a URL that ended in a bare question mark. *)
Theorem removeQueryParams_parsed (urlStr : string) (u : URL.URL) :
  URL.Parse urlStr = Some u ->
  removeQueryParams urlStr
  = (URLParts.beforeQuery u ++ (if URL.ForceQuery u then "?" else EmptyString))
    ++ URLParts.fragmentSuffix u
  /\ (URL.ForceQuery u = false ->
      URLParts.noQuery (URLParts.beforeQuery u) = true).
Proof.
  intros Hparse. unfold removeQueryParams. rewrite Hparse. split.
  - rewrite URLFacts.String_parts. simpl.
    now rewrite orb_false_r.
  - intros Hf. destruct (URLFacts.Parse_noQuery _ _ Hparse) as [Hs Ho].
    apply URLFacts.beforeQuery_noQuery; auto.
Qed.

(** C6 does not hold of a URL that ends in a bare question mark.
    [url.Parse] records the empty query in [ForceQuery], which
    [removeQueryParams] does not reset, so [String] writes the question mark
    back.  The URLs [http://example.com/page?] and
    [http://example.com/page?x=1] differ in their query only, none of them
    is redirected, and they end up in two rows. *)
Theorem bare_question_mark_survives :
  option_map URL.ForceQuery (URL.Parse "http://example.com/page?") = Some true
  /\ removeQueryParams "http://example.com/page?" = "http://example.com/page?"
  /\ removeQueryParams "http://example.com/page?x=1" = "http://example.com/page"
  /\ SQL.rows
       (run RevPart000 defaultConfig
          [CallCreate (envOK "abc") (createRequest "http://example.com/page?");
           CallCreate (envOK "def") (createRequest "http://example.com/page?x=1")]
          SQL.empty)
     = [SQL.mkShortURL 1 "abc" "http://example.com/page?";
        SQL.mkShortURL 2 "def" "http://example.com/page"]
  /\ SQL.rows
       (run RevMainGo defaultConfig
          [CallCreate (envOK "abc") (createRequest "http://example.com/page?");
           CallCreate (envOK "def") (createRequest "http://example.com/page?x=1")]
          SQL.empty)
     = [SQL.mkShortURL 1 "abc" "http://example.com/page?";
        SQL.mkShortURL 2 "def" "http://example.com/page"].
Proof. repeat split. Qed.

(** C10.  On a string that [url.Parse] rejects, [removeQueryParams] is the
    identity; being a function to [string], it has no error to signal.  So
    the create handler never stops at this step: were [getFinalURL] to
    return such a string, the handler would go on as [storeShortURL] does,
    and with a working datastore and a code that is not in use the reply is
    200; when the string has no row yet it is inserted as it is, query
    included. *)
Theorem removeQueryParams_unparsable (urlStr : string) :
  URL.Parse urlStr = None ->
  removeQueryParams urlStr = urlStr
  /\ (forall rev cfg env r db,
        HTTP.long_url r <> EmptyString ->
        getFinalURL (net env) (HTTP.long_url r) = Some urlStr ->
        handleCreate rev cfg env r db = storeShortURL rev cfg env urlStr db)
  /\ (forall rev cfg env db,
        queryFault env = false ->
        execFault env = false ->
        existsb (SQL.hasCode (newCode env)) (SQL.rows db) = false ->
        HTTP.Status (fst (storeShortURL rev cfg env urlStr db)) = 200%Z
        /\ (find (SQL.hasURL urlStr) (SQL.rows db) = None ->
            storeShortURL rev cfg env urlStr db
            = (createdReply rev cfg (newCode env),
               SQL.mkDB
                 (SQL.rows db
                  ++ [SQL.mkShortURL (SQL.nextID db) (newCode env) urlStr])
                 (SQL.nextID db + 1)))).
Proof.
  intros Hparse.
  assert (Hid : removeQueryParams urlStr = urlStr)
    by (unfold removeQueryParams; now rewrite Hparse).
  split; [exact Hid|]. split; [intros; now apply handleCreate_resolved|].
  intros rev cfg env db Hq Hx Hfresh.
  assert (Hins : SQL.insert (execFault env) db (newCode env)
                   (removeQueryParams urlStr)
                 = SQL.Ok (SQL.mkDB
                             (SQL.rows db
                              ++ [SQL.mkShortURL (SQL.nextID db) (newCode env)
                                    urlStr])
                             (SQL.nextID db + 1))).
  { unfold SQL.insert. now rewrite Hx, Hfresh, Hid. }
  destruct (find (SQL.hasURL urlStr) (SQL.rows db)) as [row|] eqn:Hfind.
  - split; [|discriminate].
    rewrite (storeShortURL_found rev cfg env urlStr db (SQL.ShortCode row)).
    + apply existsReply_status.
    + unfold SQL.selectCodeByLongURL. now rewrite Hq, Hid, Hfind.
  - assert (Hsel : SQL.selectCodeByLongURL (queryFault env) db
                     (removeQueryParams urlStr) = SQL.Err SQL.ErrNoRows)
      by (unfold SQL.selectCodeByLongURL; now rewrite Hq, Hid, Hfind).
    rewrite (storeShortURL_inserted rev cfg env urlStr db _ Hsel Hins).
    split; [apply createdReply_status | reflexivity].
Qed.

Lemma removeQueryParams_unparsable_witness :
  removeQueryParams "http://example.com/%zz?utm_source=a"
  = "http://example.com/%zz?utm_source=a"
  /\ SQL.rows
       (snd (storeShortURL RevPart000 defaultConfig (envOK "abc")
               "http://example.com/%zz?utm_source=a" SQL.empty))
     = [SQL.mkShortURL 1 "abc" "http://example.com/%zz?utm_source=a"].
Proof.
  destruct (removeQueryParams_unparsable "http://example.com/%zz?utm_source=a"
              eq_refl) as (Hid & _ & Hstore).
  split; [exact Hid|].
  destruct (Hstore RevPart000 defaultConfig (envOK "abc") SQL.empty
              eq_refl eq_refl eq_refl) as [_ Hrow].
  now rewrite Hrow.
Defined.

(** * Further properties of the handlers *)

(** ** What the create endpoint can do *)

(** X1.  A create request is answered 200, 400 or 500, and 400 exactly when
    [long_url] is missing or empty.  Unless the answer is 200 the table is
    left as it was; in any case the rows that were there stay, in their
    order, and at most one row is appended. *)
Theorem create_outcomes (rev : Revision) (cfg : Config) (env : Env)
  (r : HTTP.Request) (db : SQL.DB) :
  (HTTP.Status (fst (handleCreate rev cfg env r db)) = 400%Z
   <-> HTTP.long_url r = EmptyString)
  /\ (HTTP.Status (fst (handleCreate rev cfg env r db)) = 200%Z
      \/ HTTP.Status (fst (handleCreate rev cfg env r db)) = 400%Z
      \/ HTTP.Status (fst (handleCreate rev cfg env r db)) = 500%Z)
  /\ (HTTP.Status (fst (handleCreate rev cfg env r db)) <> 200%Z ->
      snd (handleCreate rev cfg env r db) = db)
  /\ (exists added,
        SQL.rows (snd (handleCreate rev cfg env r db))
        = (SQL.rows db ++ added)%list
        /\ List.length added <= 1).
Proof.
  destruct (HTTP.long_url r) as [|a s] eqn:Hurl.
  - assert (H : HTTP.Status (fst (handleCreate rev cfg env r db)) = 400%Z
                /\ snd (handleCreate rev cfg env r db) = db).
    { destruct rev; simpl;
        unfold MainGo.handleCreateShortURL, Part000.handleCreateShortURL;
        rewrite Hurl; simpl; auto. }
    destruct H as [Hs Ht]. rewrite Hs, Ht.
    repeat split; auto. exists []. rewrite app_nil_r. auto.
  - assert (Hne : HTTP.long_url r <> EmptyString) by (rewrite Hurl; discriminate).
    rewrite <- Hurl in *. clear Hurl.
    destruct (getFinalURL (net env) (HTTP.long_url r)) as [f|] eqn:Hf.
    + rewrite (handleCreate_resolved rev cfg env r db f Hne Hf).
      destruct (SQL.selectCodeByLongURL (queryFault env) db (removeQueryParams f))
        as [existing|e] eqn:Hsel.
      * rewrite (storeShortURL_found rev cfg env f db existing Hsel). simpl.
        rewrite existsReply_status.
        repeat split; auto; try (intros; congruence || tauto).
        exists []. rewrite app_nil_r. auto.
      * assert (Hfail : forall resp,
                   HTTP.Status (fst resp) = 500%Z /\ snd resp = db ->
                   (HTTP.Status (fst resp) = 400%Z <-> HTTP.long_url r = EmptyString)
                   /\ (HTTP.Status (fst resp) = 200%Z
                       \/ HTTP.Status (fst resp) = 400%Z
                       \/ HTTP.Status (fst resp) = 500%Z)
                   /\ (HTTP.Status (fst resp) <> 200%Z -> snd resp = db)
                   /\ (exists added,
                          SQL.rows (snd resp) = (SQL.rows db ++ added)%list
                          /\ List.length added <= 1)).
        { intros resp [Hs Ht]. rewrite Hs, Ht. repeat split; auto;
            try (intros; congruence). exists []. rewrite app_nil_r. auto. }
        destruct e;
          try (apply Hfail;
               apply (storeShortURL_lookup_failed rev cfg env f db _ Hsel);
               discriminate).
        destruct (SQL.insert (execFault env) db (newCode env)
                    (removeQueryParams f)) as [db'|e] eqn:Hins.
        -- rewrite (storeShortURL_inserted rev cfg env f db db' Hsel Hins).
           simpl. rewrite createdReply_status.
           repeat split; auto; try (intros; congruence || tauto).
           unfold SQL.insert in Hins.
           destruct (execFault env); [discriminate|].
           destruct (existsb _ _); [discriminate|]. injection Hins as <-.
           simpl. eexists. split; [reflexivity | simpl; lia].
        -- apply Hfail.
           apply (storeShortURL_insert_failed rev cfg env f db e Hsel Hins).
    + assert (Hc : canonicalURL env r = None).
      { unfold canonicalURL. rewrite (isEmpty_false _ Hne), Hf. reflexivity. }
      assert (H : HTTP.Status (fst (handleCreate rev cfg env r db)) = 500%Z
                  /\ snd (handleCreate rev cfg env r db) = db).
      { destruct rev; simpl;
          unfold MainGo.handleCreateShortURL, Part000.handleCreateShortURL;
          rewrite (isEmpty_false _ Hne), Hf; simpl; auto. }
      destruct H as [Hs Ht]. rewrite Hs, Ht.
      repeat split; auto; try (intros; congruence).
      exists []. rewrite app_nil_r. auto.
Qed.

(** X2.  A collision of short codes is not retried.  When the canonical URL
    has no row and the code drawn for the request is already the code of a
    row, the insertion is refused, the answer is 500 and the table is left as
    it was. *)
Theorem create_collision_not_retried (rev : Revision) (cfg : Config)
  (env : Env) (r : HTTP.Request) (db : SQL.DB) (u : string) :
  canonicalURL env r = Some u ->
  queryFault env = false ->
  ~ In u (SQL.urls db) ->
  In (newCode env) (SQL.codes db) ->
  HTTP.Status (fst (handleCreate rev cfg env r db)) = 500%Z
  /\ snd (handleCreate rev cfg env r db) = db.
Proof.
  intros Hcanon Hq Hnew Hused.
  apply canonicalURL_some in Hcanon as (Hurl & f & Hf & Hu).
  rewrite (handleCreate_resolved rev cfg env r db f Hurl Hf).
  assert (Hfind : find (SQL.hasURL u) (SQL.rows db) = None).
  { apply (SQLFacts.not_in_find_none SQL.LongURL _ u); [|exact Hnew].
    intros a. apply SQLFacts.hasURL_true. }
  assert (Hsel : SQL.selectCodeByLongURL (queryFault env) db
                   (removeQueryParams f) = SQL.Err SQL.ErrNoRows).
  { unfold SQL.selectCodeByLongURL. now rewrite Hq, Hu, Hfind. }
  assert (Hex : existsb (SQL.hasCode (newCode env)) (SQL.rows db) = true).
  { unfold SQL.codes in Hused. apply in_map_iff in Hused as (x & Hx & Hin).
    apply existsb_exists. exists x. split; [exact Hin|].
    now apply SQLFacts.hasCode_true. }
  destruct (SQL.insert (execFault env) db (newCode env) (removeQueryParams f))
    as [db'|e] eqn:Hins.
  - unfold SQL.insert in Hins. rewrite Hex in Hins.
    destruct (execFault env); discriminate.
  - apply (storeShortURL_insert_failed rev cfg env f db e Hsel Hins).
Qed.

Lemma create_collision_not_retried_witness :
  HTTP.Status
    (fst (handleCreate RevPart000 defaultConfig (envOK "abc")
            (createRequest "http://example.org/other?x=1") dbOne)) = 500%Z
  /\ snd (handleCreate RevPart000 defaultConfig (envOK "abc")
            (createRequest "http://example.org/other?x=1") dbOne) = dbOne.
Proof.
  apply (create_collision_not_retried RevPart000 defaultConfig (envOK "abc")
           (createRequest "http://example.org/other?x=1") dbOne
           "http://example.org/other").
  - reflexivity.
  - reflexivity.
  - simpl. intros [H | []]. discriminate H.
  - simpl. now left.
Defined.

(** X3.  A URL that cannot be probed is not stored.  When [long_url] does
    not parse, is not an [http] or [https] URL with a host, or its probe
    cannot be completed, [getFinalURL] fails, the create request is answered
    500 and the table is left as it was. *)
Theorem create_unprobed_url_rejected (rev : Revision) (cfg : Config)
  (env : Env) (r : HTTP.Request) (db : SQL.DB) :
  HTTP.long_url r <> EmptyString ->
  (URL.Parse (HTTP.long_url r) = None
   \/ (exists u, URL.Parse (HTTP.long_url r) = Some u
                 /\ (URL.Host u = EmptyString
                     \/ (URL.Scheme u <> "http" /\ URL.Scheme u <> "https")))
   \/ net env (HTTP.long_url r) = None) ->
  getFinalURL (net env) (HTTP.long_url r) = None
  /\ HTTP.Status (fst (handleCreate rev cfg env r db)) = 500%Z
  /\ snd (handleCreate rev cfg env r db) = db.
Proof.
  intros Hurl Hbad.
  assert (Hf : getFinalURL (net env) (HTTP.long_url r) = None).
  { unfold getFinalURL, HTTP.Head.
    destruct Hbad as [Hp | [(u & Hp & Hu) | Hn]].
    - now rewrite Hp.
    - rewrite Hp. cbv zeta. cbn [URL.setHost URL.setAuthority URL.Scheme URL.Host].
      destruct Hu as [Hh | [H1 H2]].
      + rewrite Hh.
        now destruct (negb ((URL.Scheme u =? "http") || (URL.Scheme u =? "https"))).
      + apply String.eqb_neq in H1, H2. now rewrite H1, H2.
    - destruct (URL.Parse (HTTP.long_url r)) as [u|]; [|reflexivity].
      cbv zeta. destruct (negb _); [reflexivity|].
      destruct (isEmpty _); [reflexivity|]. now rewrite Hn. }
  split; [exact Hf|].
  destruct rev; simpl;
    unfold MainGo.handleCreateShortURL, Part000.handleCreateShortURL;
    rewrite (isEmpty_false _ Hurl), Hf; simpl; auto.
Qed.

Lemma create_unprobed_url_rejected_witness :
  getFinalURL netOK "ftp://example.com/file" = None
  /\ HTTP.Status
       (fst (handleCreate RevMainGo defaultConfig (envOK "abc")
               (createRequest "ftp://example.com/file") dbOne)) = 500%Z
  /\ snd (handleCreate RevMainGo defaultConfig (envOK "abc")
            (createRequest "ftp://example.com/file") dbOne) = dbOne.
Proof.
  apply (create_unprobed_url_rejected RevMainGo defaultConfig (envOK "abc")
           (createRequest "ftp://example.com/file") dbOne).
  - discriminate.
  - right. left.
    exists (URL.mkURL "ftp" EmptyString None "example.com" "/file" EmptyString
              false false EmptyString EmptyString EmptyString).
    split; [reflexivity|]. right. split; discriminate.
Defined.

(** X4.  A create request never hands out the code of a row of another URL:
    when the reply carries [code], every row whose long URL is not the
    canonical URL of the request has another short code. *)
Theorem create_code_not_shared (rev : Revision) (cfg : Config) (env : Env)
  (r : HTTP.Request) (db : SQL.DB) (u code : string) :
  uniqueCodes db ->
  canonicalURL env r = Some u ->
  announces rev cfg (fst (handleCreate rev cfg env r db)) code ->
  forall row,
    In row (SQL.rows (snd (handleCreate rev cfg env r db))) ->
    SQL.LongURL row <> u ->
    SQL.ShortCode row <> code.
Proof.
  intros Hcodes Hcanon Hann row Hin Hother Hsame.
  pose proof (announces_status rev cfg _ _ Hann) as Hstatus.
  destruct (handleCreate_success rev cfg env r db u Hcanon Hstatus)
    as [(row0 & Hfind & Heq) | (Hfind & Hfresh & Heq)];
    rewrite Heq in *; simpl in *.
  - apply announces_exists in Hann. subst code.
    pose proof (find_some _ _ Hfind) as [Hin0 Hu0].
    apply SQLFacts.hasURL_true in Hu0.
    assert (Hf : find (SQL.hasCode (SQL.ShortCode row0)) (SQL.rows db) = Some row).
    { apply (SQLFacts.find_unique SQL.ShortCode _ (SQL.ShortCode row0)); auto.
      intros x. apply SQLFacts.hasCode_true. }
    assert (Hf0 : find (SQL.hasCode (SQL.ShortCode row0)) (SQL.rows db) = Some row0).
    { apply (SQLFacts.find_unique SQL.ShortCode _ (SQL.ShortCode row0)); auto.
      intros x. apply SQLFacts.hasCode_true. }
    congruence.
  - apply announces_created in Hann. subst code.
    apply in_app_or in Hin as [Hin | [<- | []]].
    + assert (Hex : existsb (SQL.hasCode (newCode env)) (SQL.rows db) = true).
      { apply existsb_exists. exists row. split; [exact Hin|].
        now apply SQLFacts.hasCode_true. }
      congruence.
    + now apply Hother.
Qed.

Lemma create_code_not_shared_witness :
  SQL.ShortCode (SQL.mkShortURL 1 "abc" "http://example.com/page") <> "def".
Proof.
  apply (create_code_not_shared RevPart000 defaultConfig (envOK "def")
           (createRequest "http://example.org/other?x=1") dbOne
           "http://example.org/other" "def").
  - unfold uniqueCodes. simpl. repeat constructor. intros [].
  - reflexivity.
  - left. reflexivity.
  - simpl. now left.
  - simpl. discriminate.
Defined.

(** ** What the redirect endpoint can do *)

(** X5.  A request to the redirect endpoint never changes the table and is
    answered by [http.NotFound] or with the status 301.  A 301 is the reply
    of [http.Redirect] for the long URL of a row of the table whose short
    code is the path without its leading slash.  Its [Location] is the
    target that [http.Redirect] makes of that long URL, with every byte of
    128 or more percent-encoded; the target is the long URL itself when it
    does not parse or has a scheme or a host. *)
Theorem redirect_outcomes (cfg : Config) (env : Env) (r : HTTP.Request)
  (db : SQL.DB) :
  snd (handleShortURL cfg env r db) = db
  /\ (HTTP.Status (fst (handleShortURL cfg env r db)) = 301%Z
      \/ handleShortURL cfg env r db = (HTTP.NotFound, db))
  /\ (HTTP.Status (fst (handleShortURL cfg env r db)) = 301%Z ->
      exists row,
        In row (SQL.rows db)
        /\ SQL.ShortCode row = TrimPrefix (HTTP.Path r) "/"
        /\ SQL.ShortCode row <> EmptyString
        /\ fst (handleShortURL cfg env r db)
           = HTTP.Redirect r (SQL.LongURL row) 301
        /\ HTTP.Location (fst (handleShortURL cfg env r db))
           = Some (HTTP.hexEscapeNonASCII
                     (HTTP.redirectTarget r (SQL.LongURL row)))
        /\ (URLParts.keptByRedirect (SQL.LongURL row) = true ->
            HTTP.Location (fst (handleShortURL cfg env r db))
            = Some (HTTP.hexEscapeNonASCII (SQL.LongURL row)))).
Proof.
  unfold handleShortURL.
  destruct (isEmpty (TrimPrefix (HTTP.Path r) "/")) eqn:Hempty.
  - simpl. repeat split; auto. discriminate.
  - unfold SQL.selectByShortCode.
    destruct (queryFault env); [simpl; repeat split; auto; discriminate|].
    destruct (find (SQL.hasCode (TrimPrefix (HTTP.Path r) "/")) (SQL.rows db))
      as [row|] eqn:Hfind; [|simpl; repeat split; auto; discriminate].
    cbn [fst snd]. split; [reflexivity|]. split; [now left|]. intros _.
    apply find_some in Hfind as [Hin Hc]. apply SQLFacts.hasCode_true in Hc.
    exists row. split; [exact Hin|]. split; [exact Hc|].
    split; [rewrite Hc; intros He; rewrite He in Hempty; discriminate|].
    split; [reflexivity|]. split; [reflexivity|].
    intros Hkept.
    exact (proj2 (RedirectFacts.Redirect_kept r (SQL.LongURL row) _ Hkept)).
Qed.

(** X6.  A request for a code that no row carries is answered 404, whatever
    the datastore does; so is the request for [/], whose code is empty. *)
Theorem unknown_code_not_found (cfg : Config) (env : Env) (r : HTTP.Request)
  (db : SQL.DB) (code : string) :
  HTTP.Path r = "/" ++ code ->
  code = EmptyString \/ ~ In code (SQL.codes db) ->
  handleShortURL cfg env r db = (HTTP.NotFound, db)
  /\ HTTP.Status (fst (handleShortURL cfg env r db)) = 404%Z.
Proof.
  intros Hpath Hcode.
  assert (H : handleShortURL cfg env r db = (HTTP.NotFound, db)).
  { unfold handleShortURL. rewrite Hpath, TrimPrefix_app.
    destruct Hcode as [-> | Habsent]; [reflexivity|].
    destruct (isEmpty code); [reflexivity|].
    unfold SQL.selectByShortCode. destruct (queryFault env); [reflexivity|].
    rewrite (SQLFacts.not_in_find_none SQL.ShortCode _ code); auto.
    intros a. apply SQLFacts.hasCode_true. }
  now rewrite H.
Qed.

Lemma unknown_code_not_found_witness :
  handleShortURL defaultConfig (envOK EmptyString) (getRequest "/zzz") dbOne
  = (HTTP.NotFound, dbOne)
  /\ HTTP.Status
       (fst (handleShortURL defaultConfig (envOK EmptyString)
               (getRequest "/zzz") dbOne)) = 404%Z.
Proof.
  apply (unknown_code_not_found defaultConfig (envOK EmptyString)
           (getRequest "/zzz") dbOne "zzz").
  - reflexivity.
  - right. simpl. intros [H | []]. discriminate H.
Defined.

(** ** What the delete endpoint can do *)

(** X7.  A request to the delete endpoint is answered 200, 401, 404 or 500;
    401 exactly when the key is wrong, and 404 exactly when the key is right
    and the code is empty.  Unless the answer is 200 the table is left as it
    was.  No row is ever added or altered: the rows afterwards are rows that
    were there, and the id counter is untouched. *)
Theorem delete_outcomes (cfg : Config) (env : Env) (r : HTTP.Request)
  (db : SQL.DB) :
  (HTTP.Status (fst (handleDeleteShortURL cfg env r db)) = 401%Z
   <-> HTTP.Authorization r <> adminKey cfg)
  /\ (HTTP.Status (fst (handleDeleteShortURL cfg env r db)) = 404%Z
      <-> HTTP.Authorization r = adminKey cfg
          /\ TrimPrefix (HTTP.Path r) "/api/delete/" = EmptyString)
  /\ (HTTP.Status (fst (handleDeleteShortURL cfg env r db)) = 200%Z
      \/ HTTP.Status (fst (handleDeleteShortURL cfg env r db)) = 401%Z
      \/ HTTP.Status (fst (handleDeleteShortURL cfg env r db)) = 404%Z
      \/ HTTP.Status (fst (handleDeleteShortURL cfg env r db)) = 500%Z)
  /\ (HTTP.Status (fst (handleDeleteShortURL cfg env r db)) <> 200%Z ->
      snd (handleDeleteShortURL cfg env r db) = db)
  /\ (forall row,
        In row (SQL.rows (snd (handleDeleteShortURL cfg env r db))) ->
        In row (SQL.rows db))
  /\ SQL.nextID (snd (handleDeleteShortURL cfg env r db)) = SQL.nextID db.
Proof.
  unfold handleDeleteShortURL.
  destruct (String.eqb_spec (HTTP.Authorization r) (adminKey cfg)) as [Hk | Hk];
    simpl.
  2:{ repeat split; auto; try discriminate; tauto. }
  destruct (TrimPrefix (HTTP.Path r) "/api/delete/") as [|a s] eqn:Hcode; simpl.
  { repeat split; auto; try discriminate; tauto. }
  unfold SQL.deleteByShortCode. destruct (execFault env); simpl.
  { repeat split; auto; try discriminate; try tauto.
    all: intros [_ H]; discriminate. }
  repeat split; auto; try discriminate; try tauto.
  - intros [_ H]. discriminate.
  - intros row Hin. now apply filter_In in Hin.
Qed.

Lemma find_filter_other (c c' : string) (l : list SQL.ShortURL) :
  c <> c' ->
  find (SQL.hasCode c') (filter (fun x => negb (SQL.hasCode c x)) l)
  = find (SQL.hasCode c') l.
Proof.
  intros Hne. induction l as [|x l IH]; simpl; [reflexivity|].
  destruct (SQL.hasCode c x) eqn:Ec; simpl.
  - destruct (SQL.hasCode c' x) eqn:Ec'; [|exact IH].
    apply SQLFacts.hasCode_true in Ec, Ec'. congruence.
  - now rewrite IH.
Qed.

Lemma filter_filter_same {A : Type} (test : A -> bool) (l : list A) :
  filter test (filter test l) = filter test l.
Proof.
  induction l as [|x l IH]; simpl; [reflexivity|].
  destruct (test x) eqn:E; simpl; [rewrite E; f_equal|]; exact IH.
Qed.

(** X8.  A deleted code is gone.  After an authorized delete of a non-empty
    code that the driver does not fail, no row carries the code and a request
    for it is answered 404. *)
Theorem deleted_code_not_found (cfg : Config) (env envG : Env)
  (r g : HTTP.Request) (db : SQL.DB) (code : string) :
  HTTP.Authorization r = adminKey cfg ->
  HTTP.Path r = "/api/delete/" ++ code ->
  code <> EmptyString ->
  execFault env = false ->
  HTTP.Path g = "/" ++ code ->
  ~ In code (SQL.codes (snd (handleDeleteShortURL cfg env r db)))
  /\ handleShortURL cfg envG g (snd (handleDeleteShortURL cfg env r db))
     = (HTTP.NotFound, snd (handleDeleteShortURL cfg env r db)).
Proof.
  intros Hkey Hpath Hcode Hx Hg.
  rewrite (authorized_delete cfg env r db code Hkey Hpath Hcode Hx). simpl.
  assert (Habsent : ~ In code
                      (SQL.codes
                         (SQL.mkDB
                            (filter (fun x => negb (SQL.hasCode code x))
                               (SQL.rows db)) (SQL.nextID db)))).
  { unfold SQL.codes. simpl. intros Hin.
    apply in_map_iff in Hin as (x & Hc & Hin).
    apply filter_In in Hin as [_ Hn].
    apply SQLFacts.hasCode_true in Hc. rewrite Hc in Hn. discriminate. }
  split; [exact Habsent|].
  unfold handleShortURL. rewrite Hg, TrimPrefix_app, (isEmpty_false _ Hcode).
  unfold SQL.selectByShortCode. destruct (queryFault envG); [reflexivity|].
  rewrite (SQLFacts.not_in_find_none SQL.ShortCode _ code); auto.
  intros a. apply SQLFacts.hasCode_true.
Qed.

Lemma deleted_code_not_found_witness :
  ~ In "abc"
      (SQL.codes
         (snd (handleDeleteShortURL defaultConfig (envOK EmptyString)
                 (deleteRequest "abc" "DEFAULT_KEY") dbOne)))
  /\ handleShortURL defaultConfig (envOK EmptyString) (getRequest "/abc")
       (snd (handleDeleteShortURL defaultConfig (envOK EmptyString)
               (deleteRequest "abc" "DEFAULT_KEY") dbOne))
     = (HTTP.NotFound,
        snd (handleDeleteShortURL defaultConfig (envOK EmptyString)
               (deleteRequest "abc" "DEFAULT_KEY") dbOne)).
Proof.
  apply (deleted_code_not_found defaultConfig (envOK EmptyString)
           (envOK EmptyString) (deleteRequest "abc" "DEFAULT_KEY")
           (getRequest "/abc") dbOne "abc");
    try reflexivity. discriminate.
Defined.

(** X9.  Deleting twice is deleting once: a second authorized delete of the
    same code is answered 200 again and leaves the table as the first one
    left it. *)
Theorem delete_idempotent (cfg : Config) (env1 env2 : Env)
  (r1 r2 : HTTP.Request) (db : SQL.DB) (code : string) :
  HTTP.Authorization r1 = adminKey cfg ->
  HTTP.Authorization r2 = adminKey cfg ->
  HTTP.Path r1 = "/api/delete/" ++ code ->
  HTTP.Path r2 = "/api/delete/" ++ code ->
  code <> EmptyString ->
  execFault env1 = false ->
  execFault env2 = false ->
  HTTP.Status
    (fst (handleDeleteShortURL cfg env2 r2
            (snd (handleDeleteShortURL cfg env1 r1 db)))) = 200%Z
  /\ snd (handleDeleteShortURL cfg env2 r2
            (snd (handleDeleteShortURL cfg env1 r1 db)))
     = snd (handleDeleteShortURL cfg env1 r1 db).
Proof.
  intros Hk1 Hk2 Hp1 Hp2 Hcode Hx1 Hx2.
  rewrite (authorized_delete cfg env1 r1 db code Hk1 Hp1 Hcode Hx1).
  rewrite (authorized_delete cfg env2 r2 _ code Hk2 Hp2 Hcode Hx2). simpl.
  split; [reflexivity|]. f_equal. apply filter_filter_same.
Qed.

Lemma delete_idempotent_witness :
  HTTP.Status
    (fst (handleDeleteShortURL defaultConfig (envOK EmptyString)
            (deleteRequest "abc" "DEFAULT_KEY")
            (snd (handleDeleteShortURL defaultConfig (envOK EmptyString)
                    (deleteRequest "abc" "DEFAULT_KEY") dbOne)))) = 200%Z
  /\ snd (handleDeleteShortURL defaultConfig (envOK EmptyString)
            (deleteRequest "abc" "DEFAULT_KEY")
            (snd (handleDeleteShortURL defaultConfig (envOK EmptyString)
                    (deleteRequest "abc" "DEFAULT_KEY") dbOne)))
     = snd (handleDeleteShortURL defaultConfig (envOK EmptyString)
              (deleteRequest "abc" "DEFAULT_KEY") dbOne).
Proof.
  apply (delete_idempotent defaultConfig (envOK EmptyString)
           (envOK EmptyString) (deleteRequest "abc" "DEFAULT_KEY")
           (deleteRequest "abc" "DEFAULT_KEY") dbOne "abc");
    try reflexivity. discriminate.
Defined.

(** X10.  A delete does not disturb the other codes: whatever the delete
    request and its outcome, a request for a code other than the one named by
    its path gets the same answer after it as before. *)
Theorem delete_keeps_other_codes (cfg : Config) (env envG : Env)
  (r g : HTTP.Request) (db : SQL.DB) :
  TrimPrefix (HTTP.Path g) "/" <> TrimPrefix (HTTP.Path r) "/api/delete/" ->
  fst (handleShortURL cfg envG g (snd (handleDeleteShortURL cfg env r db)))
  = fst (handleShortURL cfg envG g db).
Proof.
  intros Hother.
  destruct (handleDeleteShortURL_table cfg env r db) as [-> | ->];
    [reflexivity|].
  unfold handleShortURL.
  destruct (isEmpty (TrimPrefix (HTTP.Path g) "/")); [reflexivity|].
  unfold SQL.selectByShortCode. destruct (queryFault envG); [reflexivity|].
  simpl. rewrite find_filter_other by congruence.
  now destruct (find _ _).
Qed.

Lemma delete_keeps_other_codes_witness :
  fst (handleShortURL defaultConfig (envOK EmptyString) (getRequest "/abc")
         (snd (handleDeleteShortURL defaultConfig (envOK EmptyString)
                 (deleteRequest "zzz" "DEFAULT_KEY") dbOne)))
  = fst (handleShortURL defaultConfig (envOK EmptyString) (getRequest "/abc")
           dbOne).
Proof.
  apply (delete_keeps_other_codes defaultConfig (envOK EmptyString)
           (envOK EmptyString) (deleteRequest "zzz" "DEFAULT_KEY")
           (getRequest "/abc") dbOne).
  discriminate.
Defined.

(** ** Creating and deleting *)

Lemma filter_snoc_fresh (code : string) (l : list SQL.ShortURL)
  (row : SQL.ShortURL) :
  existsb (SQL.hasCode code) l = false ->
  SQL.ShortCode row = code ->
  filter (fun x => negb (SQL.hasCode code x)) (l ++ [row]) = l.
Proof.
  intros Hfresh Hrow. rewrite filter_app. simpl.
  assert (Hc : SQL.hasCode code row = true) by now apply SQLFacts.hasCode_true.
  rewrite Hc. simpl. rewrite app_nil_r. apply SQLFacts.filter_all.
  intros a Ha. destruct (SQL.hasCode code a) eqn:E; [|reflexivity].
  assert (Hex : existsb (SQL.hasCode code) l = true)
    by (apply existsb_exists; eauto).
  congruence.
Qed.

(** X11.  Creating and then deleting gives the rows back.  When a create
    request inserts a row (its canonical URL has no row, its code is not in
    use, the driver does not fail) and the code it hands out is then deleted
    by an authorized request, the table holds the rows it held before the
    two requests; only the id counter has moved on. *)
Theorem create_then_delete_restores_rows (rev : Revision) (cfg : Config)
  (env envD : Env) (r d : HTTP.Request) (db : SQL.DB) (u : string) :
  canonicalURL env r = Some u ->
  queryFault env = false ->
  execFault env = false ->
  ~ In u (SQL.urls db) ->
  ~ In (newCode env) (SQL.codes db) ->
  newCode env <> EmptyString ->
  HTTP.Authorization d = adminKey cfg ->
  HTTP.Path d = "/api/delete/" ++ newCode env ->
  execFault envD = false ->
  fst (handleCreate rev cfg env r db) = createdReply rev cfg (newCode env)
  /\ snd (handleDeleteShortURL cfg envD d (snd (handleCreate rev cfg env r db)))
     = SQL.mkDB (SQL.rows db) (SQL.nextID db + 1).
Proof.
  intros Hcanon Hq Hxe Hnew Hfresh Hcode Hkey Hpath Hx.
  rewrite (create_inserts rev cfg env r db u Hcanon Hq Hxe Hnew Hfresh). simpl.
  split; [reflexivity|].
  rewrite (authorized_delete cfg envD d _ (newCode env) Hkey Hpath Hcode Hx).
  simpl. f_equal. apply filter_snoc_fresh; [|reflexivity].
  destruct (existsb (SQL.hasCode (newCode env)) (SQL.rows db)) eqn:Hex;
    [|reflexivity].
  exfalso. apply existsb_exists in Hex as (x & Hxin & Hxc).
  apply Hfresh. unfold SQL.codes. apply in_map_iff. exists x.
  split; [now apply SQLFacts.hasCode_true | exact Hxin].
Qed.

Lemma create_then_delete_restores_rows_witness :
  fst (handleCreate RevPart000 defaultConfig (envOK "def")
         (createRequest "http://example.org/other?x=1") dbOne)
  = createdReply RevPart000 defaultConfig "def"
  /\ snd (handleDeleteShortURL defaultConfig (envOK EmptyString)
            (deleteRequest "def" "DEFAULT_KEY")
            (snd (handleCreate RevPart000 defaultConfig (envOK "def")
                    (createRequest "http://example.org/other?x=1") dbOne)))
     = SQL.mkDB (SQL.rows dbOne) (SQL.nextID dbOne + 1).
Proof.
  apply (create_then_delete_restores_rows RevPart000 defaultConfig
           (envOK "def") (envOK EmptyString)
           (createRequest "http://example.org/other?x=1")
           (deleteRequest "def" "DEFAULT_KEY") dbOne
           "http://example.org/other");
    try reflexivity; try discriminate;
    simpl; intros [H | []]; discriminate H.
Defined.

(** X12.  A deleted URL can be shortened again, under a new code.  In a
    table with one row per long URL, once the row of [u] has been deleted a
    create request for [u] finds no row, inserts one with the code drawn for
    it and hands out that code, not the deleted one. *)
Theorem delete_then_create_inserts (rev : Revision) (cfg : Config)
  (envD env : Env) (d r : HTTP.Request) (db : SQL.DB) (row : SQL.ShortURL) :
  uniqueURLs db ->
  In row (SQL.rows db) ->
  SQL.ShortCode row <> EmptyString ->
  HTTP.Authorization d = adminKey cfg ->
  HTTP.Path d = "/api/delete/" ++ SQL.ShortCode row ->
  execFault envD = false ->
  canonicalURL env r = Some (SQL.LongURL row) ->
  queryFault env = false ->
  execFault env = false ->
  ~ In (newCode env) (SQL.codes (snd (handleDeleteShortURL cfg envD d db))) ->
  handleCreate rev cfg env r (snd (handleDeleteShortURL cfg envD d db))
  = (createdReply rev cfg (newCode env),
     SQL.mkDB
       (SQL.rows (snd (handleDeleteShortURL cfg envD d db))
        ++ [SQL.mkShortURL (SQL.nextID db) (newCode env) (SQL.LongURL row)])
       (SQL.nextID db + 1)).
Proof.
  intros Hurls Hin Hcode Hkey Hpath Hx Hcanon Hq Hxe Hfresh.
  rewrite (authorized_delete cfg envD d db _ Hkey Hpath Hcode Hx) in *.
  simpl in *.
  set (db1 := SQL.mkDB
                (filter (fun x => negb (SQL.hasCode (SQL.ShortCode row) x))
                   (SQL.rows db)) (SQL.nextID db)) in *.
  apply canonicalURL_some in Hcanon as (Hne & f & Hf & Hu).
  rewrite (handleCreate_resolved rev cfg env r db1 f Hne Hf).
  assert (Hfind : find (SQL.hasURL (SQL.LongURL row)) (SQL.rows db1) = None).
  { apply (SQLFacts.not_in_find_none SQL.LongURL _ (SQL.LongURL row)).
    - intros a. apply SQLFacts.hasURL_true.
    - simpl. intros Hm. apply in_map_iff in Hm as (x & Hxu & Hxin).
      apply filter_In in Hxin as [Hxin Hxc].
      assert (x = row).
      { assert (F1 : find (SQL.hasURL (SQL.LongURL row)) (SQL.rows db) = Some x).
        { apply (SQLFacts.find_unique SQL.LongURL _ (SQL.LongURL row)); auto.
          intros y. apply SQLFacts.hasURL_true. }
        assert (F2 : find (SQL.hasURL (SQL.LongURL row)) (SQL.rows db) = Some row).
        { apply (SQLFacts.find_unique SQL.LongURL _ (SQL.LongURL row)); auto.
          intros y. apply SQLFacts.hasURL_true. }
        congruence. }
      subst x. unfold SQL.hasCode in Hxc. rewrite String.eqb_refl in Hxc.
      discriminate. }
  apply storeShortURL_inserted.
  - unfold SQL.selectCodeByLongURL. now rewrite Hq, Hu, Hfind.
  - unfold SQL.insert. rewrite Hxe, Hu.
    destruct (existsb (SQL.hasCode (newCode env)) (SQL.rows db1)) eqn:Hex;
      [|reflexivity].
    exfalso. apply existsb_exists in Hex as (x & Hxin & Hxc).
    apply Hfresh. unfold SQL.codes. apply in_map_iff. exists x.
    split; [now apply SQLFacts.hasCode_true | exact Hxin].
Qed.

Lemma delete_then_create_inserts_witness :
  handleCreate RevPart000 defaultConfig (envOK "def")
    (createRequest "http://example.com/page?x=1")
    (snd (handleDeleteShortURL defaultConfig (envOK EmptyString)
            (deleteRequest "abc" "DEFAULT_KEY") dbOne))
  = (createdReply RevPart000 defaultConfig "def",
     SQL.mkDB [SQL.mkShortURL 2 "def" "http://example.com/page"] 3).
Proof.
  apply (delete_then_create_inserts RevPart000 defaultConfig
           (envOK EmptyString) (envOK "def")
           (deleteRequest "abc" "DEFAULT_KEY")
           (createRequest "http://example.com/page?x=1") dbOne
           (SQL.mkShortURL 1 "abc" "http://example.com/page"));
    try reflexivity.
  - unfold uniqueURLs. simpl. repeat constructor. intros [].
  - simpl. now left.
  - discriminate.
  - simpl. intros [].
Defined.

(** ** Every state the service reaches *)

(** The rows of a reachable state come from create requests. *)
Lemma run_provenance (rev : Revision) (cfg : Config) (cs : list Call) :
  forall db row,
    In row (SQL.rows (run rev cfg cs db)) ->
    In row (SQL.rows db)
    \/ exists env r,
         In (CallCreate env r) cs
         /\ canonicalURL env r = Some (SQL.LongURL row)
         /\ newCode env = SQL.ShortCode row.
Proof.
  induction cs as [|c cs IH]; simpl; intros db row Hin; [now left|].
  apply IH in Hin as [Hin | (env & r & Hc & Hu & Hn)].
  2:{ right. exists env, r. auto. }
  destruct c as [env r|env r|env r]; simpl in Hin.
  - rewrite handleShortURL_table in Hin. now left.
  - destruct (canonicalURL env r) as [u|] eqn:Hcanon.
    + destruct (handleCreate_table rev cfg env r db u Hcanon)
        as [Heq | (_ & _ & Heq)]; rewrite Heq in Hin; [now left|].
      simpl in Hin. apply in_app_or in Hin as [Hin | [<- | []]]; [now left|].
      right. exists env, r. simpl. auto.
    + destruct (handleCreate_unresolved rev cfg env r db Hcanon) as [Heq _].
      rewrite Heq in Hin. now left.
  - destruct (handleDeleteShortURL_table cfg env r db) as [Heq | Heq];
      rewrite Heq in Hin; [now left|].
    simpl in Hin. apply filter_In in Hin as [Hin _]. now left.
Qed.

(** X13.  Whatever calls have been served from the empty table, no two rows
    have the same short code, and a request for the code of a row is
    answered by [http.Redirect] with the long URL of that very row: the
    status is 301 and the [Location] is that long URL, with every byte of
    128 or more percent-encoded. *)
Theorem shortCode_unique_in_every_reachable_state (rev : Revision)
  (cfg : Config) (cs : list Call) :
  NoDup (SQL.codes (run rev cfg cs SQL.empty))
  /\ (forall row env g,
        In row (SQL.rows (run rev cfg cs SQL.empty)) ->
        SQL.ShortCode row <> EmptyString ->
        queryFault env = false ->
        HTTP.Path g = "/" ++ SQL.ShortCode row ->
        fst (handleShortURL cfg env g (run rev cfg cs SQL.empty))
        = HTTP.Redirect g (SQL.LongURL row) 301
        /\ HTTP.Status (HTTP.Redirect g (SQL.LongURL row) 301) = 301%Z
        /\ HTTP.Location (HTTP.Redirect g (SQL.LongURL row) 301)
           = Some (HTTP.hexEscapeNonASCII (SQL.LongURL row))).
Proof.
  pose proof (run_uniqueCodes rev cfg cs SQL.empty (empty_uniqueCodes))
    as Hcodes.
  split; [exact Hcodes|].
  intros row env g Hin Hcode Hq Hpath. split.
  - rewrite (handleShortURL_found cfg env g _ row Hpath Hcode Hq);
      [reflexivity|].
    apply (SQLFacts.find_unique SQL.ShortCode _ (SQL.ShortCode row)); auto.
    intros x. apply SQLFacts.hasCode_true.
  - apply run_provenance in Hin as [[] | (envC & r & _ & Hu & _)].
    apply RedirectFacts.Redirect_kept, RedirectFacts.hasScheme_kept.
    exact (RedirectFacts.canonicalURL_hasScheme envC r _ Hu).
Qed.

(** X14.  Nothing is stored but what a create request asked for: every row
    of a state reached from the empty table was inserted by one of the create
    requests served, its long URL is the canonical URL of that request (the
    output of [removeQueryParams] on what [getFinalURL] returned) and its
    short code is the code drawn for that request. *)
Theorem rows_come_from_create_requests (rev : Revision) (cfg : Config)
  (cs : list Call) (row : SQL.ShortURL) :
  In row (SQL.rows (run rev cfg cs SQL.empty)) ->
  exists env r finalURL,
    In (CallCreate env r) cs
    /\ getFinalURL (net env) (HTTP.long_url r) = Some finalURL
    /\ SQL.LongURL row = removeQueryParams finalURL
    /\ SQL.ShortCode row = generateShortCode env.
Proof.
  intros Hin. apply run_provenance in Hin as [[] | (env & r & Hc & Hu & Hn)].
  apply canonicalURL_some in Hu as (_ & f & Hf & Hclean).
  exists env, r, f. auto.
Qed.

Lemma rows_come_from_create_requests_witness :
  exists env r finalURL,
    In (CallCreate env r)
      [CallCreate (mkEnv netHop "abc" false false)
         (createRequest "http://short.example/x")]
    /\ getFinalURL (net env) (HTTP.long_url r) = Some finalURL
    /\ SQL.LongURL (SQL.mkShortURL 1 "abc" "http://target.example/")
       = removeQueryParams finalURL
    /\ SQL.ShortCode (SQL.mkShortURL 1 "abc" "http://target.example/")
       = generateShortCode env.
Proof.
  apply (rows_come_from_create_requests RevPart000 defaultConfig
           [CallCreate (mkEnv netHop "abc" false false)
              (createRequest "http://short.example/x")]
           (SQL.mkShortURL 1 "abc" "http://target.example/")).
  simpl. now left.
Defined.

(** X15.  The two revisions of the create handler differ in the wording of
    their replies only: on the same request they give the same status and
    leave the same table, so the service reaches the same states with
    either. *)
Theorem revisions_agree (cfg : Config) :
  (forall env r db,
     HTTP.Status (fst (MainGo.handleCreateShortURL cfg env r db))
     = HTTP.Status (fst (Part000.handleCreateShortURL cfg env r db))
     /\ snd (MainGo.handleCreateShortURL cfg env r db)
        = snd (Part000.handleCreateShortURL cfg env r db))
  /\ (forall cs db, run RevMainGo cfg cs db = run RevPart000 cfg cs db).
Proof.
  assert (Hstep : forall env r db,
             HTTP.Status (fst (MainGo.handleCreateShortURL cfg env r db))
             = HTTP.Status (fst (Part000.handleCreateShortURL cfg env r db))
             /\ snd (MainGo.handleCreateShortURL cfg env r db)
                = snd (Part000.handleCreateShortURL cfg env r db)).
  { intros env r db.
    unfold MainGo.handleCreateShortURL, Part000.handleCreateShortURL.
    destruct (isEmpty (HTTP.long_url r)); [auto|].
    destruct (getFinalURL (net env) (HTTP.long_url r)) as [f|]; [|auto].
    destruct (SQL.selectCodeByLongURL (queryFault env) db (removeQueryParams f))
      as [e|[]]; auto.
    now destruct (SQL.insert (execFault env) db (generateShortCode env)
                    (removeQueryParams f)). }
  split; [exact Hstep|].
  induction cs as [|c cs IH]; intros db; simpl; [reflexivity|].
  destruct c as [env r|env r|env r]; simpl; rewrite ?IH; try reflexivity.
  now rewrite (proj2 (Hstep env r db)).
Qed.

(** X16.  What is stored for a redirected URL is the target of the redirect
    without its query, not the URL submitted.  When the probe of [long_url]
    is answered with a status in 300..399 and a [Location] that parses, the
    canonical URL of the request is [removeQueryParams] of that location
    resolved against the request URL; it is the long URL of the row inserted
    when that URL has no row and the code is not in use. *)
Theorem redirected_url_stored_as_target (rev : Revision) (cfg : Config)
  (env : Env) (r : HTTP.Request) (db : SQL.DB) (reqURL ref : URL.URL)
  (resp : HTTP.ProbeResponse) :
  HTTP.long_url r <> EmptyString ->
  HTTP.Head (net env) (HTTP.long_url r) = Some (reqURL, resp) ->
  (300 <= HTTP.StatusCode resp <= 399)%Z ->
  HTTP.LocationHeader resp <> EmptyString ->
  URL.Parse (HTTP.LocationHeader resp) = Some ref ->
  let target :=
    removeQueryParams (URL.String_ (URL.ResolveReference reqURL ref)) in
  canonicalURL env r = Some target
  /\ (queryFault env = false ->
      execFault env = false ->
      ~ In target (SQL.urls db) ->
      ~ In (newCode env) (SQL.codes db) ->
      snd (handleCreate rev cfg env r db)
      = SQL.mkDB
          (SQL.rows db ++ [SQL.mkShortURL (SQL.nextID db) (newCode env) target])
          (SQL.nextID db + 1)).
Proof.
  intros Hne Hhead Hstatus Hloc Href target.
  assert (Hcanon : canonicalURL env r = Some target).
  { unfold canonicalURL, getFinalURL. rewrite (isEmpty_false _ Hne), Hhead.
    apply isRedirect_range in Hstatus. rewrite Hstatus.
    unfold HTTP.ResponseLocation, URL.ParseIn.
    now rewrite (isEmpty_false _ Hloc), Href. }
  split; [exact Hcanon|].
  intros Hq Hx Hnew Hfresh.
  now rewrite (create_inserts rev cfg env r db target Hcanon Hq Hx Hnew Hfresh).
Qed.

Lemma redirected_url_stored_as_target_witness :
  (canonicalURL (mkEnv netHop "abc" false false)
     (createRequest "http://short.example/x")
   = Some "http://target.example/"
   /\ snd (handleCreate RevMainGo defaultConfig (mkEnv netHop "abc" false false)
             (createRequest "http://short.example/x") SQL.empty)
      = SQL.mkDB [SQL.mkShortURL 1 "abc" "http://target.example/"] 2)
  /\ (canonicalURL (mkEnv netMoved "abc" false false)
        (createRequest "http://example.com:/x")
      = Some "http://example.com/y"
      /\ snd (handleCreate RevMainGo defaultConfig
                (mkEnv netMoved "abc" false false)
                (createRequest "http://example.com:/x") SQL.empty)
         = SQL.mkDB [SQL.mkShortURL 1 "abc" "http://example.com/y"] 2).
Proof.
  split.
  - destruct (redirected_url_stored_as_target RevMainGo defaultConfig
                (mkEnv netHop "abc" false false)
                (createRequest "http://short.example/x") SQL.empty
                (URL.mkURL "http" EmptyString None "short.example" "/x"
                   EmptyString false false EmptyString EmptyString EmptyString)
                (URL.mkURL "http" EmptyString None "target.example" "/"
                   EmptyString false false "utm_source=a" EmptyString
                   EmptyString)
                (HTTP.mkProbe 302 "http://target.example/?utm_source=a"))
      as [Hcanon Hrow]; try reflexivity; try discriminate.
    + simpl. lia.
    + split; [exact Hcanon|].
      apply Hrow; try reflexivity; simpl; intros [].
  - destruct (redirected_url_stored_as_target RevMainGo defaultConfig
                (mkEnv netMoved "abc" false false)
                (createRequest "http://example.com:/x") SQL.empty
                (URL.mkURL "http" EmptyString None "example.com" "/x"
                   EmptyString false false EmptyString EmptyString EmptyString)
                (URL.mkURL EmptyString EmptyString None EmptyString "/y"
                   EmptyString false false EmptyString EmptyString
                   EmptyString)
                (HTTP.mkProbe 301 "/y"))
      as [Hcanon Hrow]; try reflexivity; try discriminate.
    + simpl. lia.
    + split; [exact Hcanon|].
      apply Hrow; try reflexivity; simpl; intros [].
Defined.

(** ** Query stripping, on the text of the URL *)

Module QueryFacts.
Import URL URLParts URLFacts AppendFacts.

Lemma any_app (p : ascii -> bool) (a b : string) :
  any p (a ++ b) = any p a || any p b.
Proof.
  induction a as [|c a IH]; simpl; [reflexivity|].
  now rewrite IH, orb_assoc.
Qed.

Lemma all_drop (p : ascii -> bool) (n : nat) (s : string) :
  all p s = true -> all p (drop n s) = true.
Proof.
  revert s. induction n as [|n IH]; intros [|c s]; simpl; auto.
  rewrite andb_true_iff. intros [_ Hs]. auto.
Qed.

Lemma take_app (a b : string) (n : nat) :
  n <= String.length a -> take n (a ++ b) = take n a.
Proof.
  revert n. induction a as [|c a IH]; intros [|n]; simpl; intros H;
    try reflexivity; try lia.
  f_equal. apply IH. lia.
Qed.

Lemma take_length_app (a b : string) : take (String.length a) (a ++ b) = a.
Proof. induction a as [|c a IH]; simpl; [now destruct b | now rewrite IH]. Qed.

Lemma drop_app_le (a b : string) (n : nat) :
  n <= String.length a -> drop n (a ++ b) = drop n a ++ b.
Proof.
  revert n. induction a as [|c a IH]; intros [|n]; simpl; intros H;
    try reflexivity; try lia.
  apply IH. lia.
Qed.

Lemma drop_app_ge (a b : string) (n : nat) :
  String.length a <= n -> drop n (a ++ b) = drop (n - String.length a) b.
Proof.
  revert n. induction a as [|c a IH]; intros n H; simpl.
  - now rewrite Nat.sub_0_r.
  - destruct n as [|n]; simpl in *; [lia|]. apply IH. lia.
Qed.

(** The scan for the scheme does not look past a question mark. *)
Lemma scanScheme_app (a x : string) (k : nat) :
  scanScheme k (a ++ String "?" x) = scanScheme k a.
Proof.
  revert k. induction a as [|c a IH]; intros k; [reflexivity|].
  cbn [append scanScheme]. rewrite !IH. reflexivity.
Qed.

Lemma scanScheme_bound (s : string) :
  forall k i, scanScheme k s = SchemeEnds i -> i < k + String.length s.
Proof.
  induction s as [|c s IH]; intros k i H; cbn [scanScheme] in H;
    [discriminate|]. simpl.
  destruct (Bytes.isAlpha c).
  - apply IH in H. lia.
  - destruct (Bytes.isDigit c || Bytes.oneOf "+-." c).
    + destruct (k =? 0)%nat; [discriminate|]. apply IH in H. lia.
    + destruct (Ascii.eqb c ":"); [|discriminate].
      destruct (k =? 0)%nat; [discriminate|]. injection H as <-. lia.
Qed.

Lemma getScheme_app (a x : string) :
  getScheme (a ++ String "?" x)
  = match getScheme a with
    | Some (scheme, rest) => Some (scheme, rest ++ String "?" x)
    | None => None
    end.
Proof.
  unfold getScheme. rewrite scanScheme_app.
  destruct (scanScheme 0 a) as [| |i] eqn:Hscan; try reflexivity.
  apply scanScheme_bound in Hscan. simpl in Hscan.
  rewrite take_app by lia. rewrite drop_app_le by lia. reflexivity.
Qed.

Lemma getScheme_rest_noQuery (a scheme rest : string) :
  getScheme a = Some (scheme, rest) -> noQuery a = true -> noQuery rest = true.
Proof.
  unfold getScheme. destruct (scanScheme 0 a) as [| |i].
  - now intros [= _ <-].
  - discriminate.
  - intros [= _ <-] H. exact (all_drop _ (S i) _ H).
Qed.

Lemma noQuery_HasSuffix (s : string) :
  noQuery s = true -> HasSuffix s "?" = false.
Proof.
  intros Hs. unfold HasSuffix.
  destruct (String.eqb_spec (drop (String.length s - String.length "?") s) "?")
    as [He | He]; [|apply andb_false_r].
  apply (all_drop _ (String.length s - String.length "?")) in Hs.
  unfold noQuery in *. rewrite He in Hs. discriminate.
Qed.

Lemma noQuery_Count (s : string) :
  noQuery s = true -> CountByte s "?" = 0.
Proof.
  unfold noQuery. induction s as [|c s IH]; simpl; [reflexivity|].
  rewrite andb_true_iff. intros [Hc Hs].
  destruct (Ascii.eqb c "?"); [discriminate|]. simpl. auto.
Qed.

Lemma Count_noQuery (s : string) :
  CountByte s "?" = 0 -> noQuery s = true.
Proof.
  unfold noQuery. induction s as [|c s IH]; simpl; [reflexivity|].
  destruct (Ascii.eqb c "?"); simpl; [discriminate|]. auto.
Qed.

Lemma Count_app (a b : string) (c : ascii) :
  CountByte (a ++ b) c = CountByte a c + CountByte b c.
Proof.
  induction a as [|x a IH]; simpl; [reflexivity|]. rewrite IH. lia.
Qed.

Lemma HasSuffix_app (a b p : string) :
  String.length p <= String.length b ->
  HasSuffix (a ++ b) p = HasSuffix b p.
Proof.
  intros Hlen. unfold HasSuffix. rewrite length_append.
  rewrite drop_app_ge by lia.
  replace (String.length a + String.length b - String.length p
           - String.length a)
    with (String.length b - String.length p) by lia.
  f_equal. apply Nat.leb_le in Hlen. rewrite Hlen.
  apply Nat.leb_le. apply Nat.leb_le in Hlen. lia.
Qed.

(** A URL with a query that is not empty does not take the branch of
    [ForceQuery]. *)
Lemma not_bare_query (rest q : string) :
  noQuery rest = true -> q <> EmptyString ->
  HasSuffix (rest ++ String "?" q) "?"
  && (CountByte (rest ++ String "?" q) "?" =? 1)%nat = false.
Proof.
  intros Hrest Hq. rewrite Count_app, (noQuery_Count _ Hrest). simpl.
  destruct (CountByte q "?") as [|n] eqn:Hc; [|apply andb_false_r].
  apply Count_noQuery in Hc. rewrite andb_true_r.
  change (rest ++ String "?" q) with (rest ++ ("?" ++ q)).
  rewrite <- URLFacts.append_assoc, HasSuffix_app.
  - now apply noQuery_HasSuffix.
  - destruct q; [congruence | simpl; lia].
Qed.

Lemma Index_query_app (rest x : string) :
  noQuery rest = true ->
  Index (rest ++ String "?" x) "?" = Some (String.length rest).
Proof.
  unfold noQuery. induction rest as [|c rest IH]; simpl; intros H.
  - now rewrite HasPrefix_empty.
  - apply andb_true_iff in H as [Hc Hr].
    destruct (Ascii.eqb c "?"); [discriminate|]. simpl. now rewrite IH.
Qed.

Lemma Index_query_none (rest : string) :
  noQuery rest = true -> Index rest "?" = None.
Proof.
  unfold noQuery. induction rest as [|c rest IH]; simpl; intros H;
    [reflexivity|].
  apply andb_true_iff in H as [Hc Hr].
  destruct (Ascii.eqb c "?"); [discriminate|]. simpl. now rewrite IH.
Qed.

Lemma Cut_query_app (rest q : string) :
  noQuery rest = true -> Cut (rest ++ String "?" q) "?" = (rest, q, true).
Proof.
  intros H. unfold Cut. rewrite (Index_query_app _ _ H).
  rewrite take_length_app. simpl.
  rewrite drop_app_ge by lia.
  replace (String.length rest + 1 - String.length rest) with 1 by lia.
  reflexivity.
Qed.

Lemma Cut_query_none (rest : string) :
  noQuery rest = true -> Cut rest "?" = (rest, EmptyString, false).
Proof. intros H. unfold Cut. now rewrite (Index_query_none _ H). Qed.

(** [setRawQuery] goes through the rest of [parse]. *)
Lemma setPath_query (u : URL) (p q : string) :
  setPath (setRawQuery u q) p
  = option_map (fun v => setRawQuery v q) (setPath u p).
Proof.
  unfold setPath. destruct (unescape p encodePath) as [path|]; [|reflexivity].
  now destruct (String.eqb p (escape path encodePath)).
Qed.

Lemma setFragment_query (u : URL) (f q : string) :
  setFragment (setRawQuery u q) f
  = option_map (fun v => setRawQuery v q) (setFragment u f).
Proof.
  unfold setFragment.
  destruct (unescape f encodeFragment) as [frag|]; [|reflexivity].
  now destruct (String.eqb f (escape frag encodeFragment)).
Qed.

Lemma parseAfterQuery_query (url : URL) (rest q : string) :
  parseAfterQuery (setRawQuery url q) rest
  = option_map (fun v => setRawQuery v q) (parseAfterQuery url rest).
Proof.
  unfold parseAfterQuery.
  change (Scheme (setRawQuery url q)) with (Scheme url).
  destruct (negb (HasPrefix rest "/") && negb (isEmpty (Scheme url)));
    [reflexivity|].
  destruct (negb (HasPrefix rest "/")
            && (let '(segment, _, _) := Cut rest "/" in Contains segment ":"));
    [reflexivity|].
  destruct ((negb (isEmpty (Scheme url)) || negb (HasPrefix rest "///"))
            && HasPrefix rest "//").
  - cbv zeta. destruct (Index (drop 2 rest) "/") as [i|];
      match goal with
      | |- context [parseAuthority ?a] =>
          destruct (parseAuthority a) as [[usr host]|]
      end; try reflexivity;
      apply (setPath_query (setAuthority url usr host)).
  - destruct (negb (isEmpty (Scheme url)) && HasPrefix rest "/").
    + apply (setPath_query (setOmitHost url true)).
    + apply setPath_query.
Qed.

(** [parse] on a URL with a query that is not empty, and on the same URL
    without it. *)
Lemma parse_with_query (base q : string) :
  noQuery base = true ->
  q <> EmptyString ->
  stringContainsCTLByte q = false ->
  parse (base ++ String "?" q)
  = if stringContainsCTLByte base then None
    else match getScheme base with
         | None => None
         | Some (scheme, rest) =>
             option_map (fun v => setRawQuery v q)
               (parseAfterQuery (setScheme zeroURL (ToLower scheme)) rest)
         end.
Proof.
  intros Hbase Hq Hctl. rewrite parse_unfold.
  unfold stringContainsCTLByte in *. rewrite any_app. simpl. rewrite Hctl.
  rewrite !orb_false_r.
  destruct (any isCTL base); [reflexivity|].
  assert (Hstar : String.eqb (base ++ String "?" q) "*" = false).
  { apply String.eqb_neq. intros H. destruct base as [|c [|d base]];
      simpl in H; try discriminate. }
  rewrite Hstar, getScheme_app.
  destruct (getScheme base) as [[scheme rest]|] eqn:Hs; [|reflexivity].
  pose proof (getScheme_rest_noQuery _ _ _ Hs Hbase) as Hrest.
  cbv zeta. rewrite (not_bare_query _ _ Hrest Hq), (Cut_query_app _ _ Hrest).
  apply (parseAfterQuery_query (setScheme zeroURL (ToLower scheme))).
Qed.

Lemma parse_without_query (base : string) :
  noQuery base = true ->
  base <> "*" ->
  parse base
  = if stringContainsCTLByte base then None
    else match getScheme base with
         | None => None
         | Some (scheme, rest) =>
             parseAfterQuery (setScheme zeroURL (ToLower scheme)) rest
         end.
Proof.
  intros Hbase Hstar. rewrite parse_unfold.
  destruct (stringContainsCTLByte base); [reflexivity|].
  apply String.eqb_neq in Hstar. rewrite Hstar.
  destruct (getScheme base) as [[scheme rest]|] eqn:Hs; [|reflexivity].
  pose proof (getScheme_rest_noQuery _ _ _ Hs Hbase) as Hrest.
  cbv zeta. rewrite (noQuery_HasSuffix _ Hrest), (Cut_query_none _ Hrest).
  simpl. reflexivity.
Qed.

Lemma Index_hash_app (s g : string) :
  noHash s = true -> Index (s ++ String "#" g) "#" = Some (String.length s).
Proof.
  unfold noHash. induction s as [|c s IH]; simpl; intros H.
  - now rewrite HasPrefix_empty.
  - apply andb_true_iff in H as [Hc Hr].
    destruct (Ascii.eqb c "#"); [discriminate|]. simpl. now rewrite IH.
Qed.

Lemma Index_hash_none (s : string) :
  noHash s = true -> Index s "#" = None.
Proof.
  unfold noHash. induction s as [|c s IH]; simpl; intros H; [reflexivity|].
  apply andb_true_iff in H as [Hc Hr].
  destruct (Ascii.eqb c "#"); [discriminate|]. simpl. now rewrite IH.
Qed.

(** Where [url.Parse] cuts the fragment off, for a URL [s] without a number
    sign followed by [f], which is empty or starts with one. *)
Lemma Cut_fragment (s f : string) :
  noHash s = true ->
  f = EmptyString \/ HasPrefix f "#" = true ->
  exists found, Cut (s ++ f) "#" = (s, drop 1 f, found).
Proof.
  intros Hs [-> | Hf].
  - rewrite URLFacts.append_empty_r. unfold Cut.
    rewrite (Index_hash_none _ Hs). now exists false.
  - destruct f as [|c g]; [discriminate|]. simpl in Hf.
    apply andb_true_iff in Hf as [Hc _]. apply Ascii.eqb_eq in Hc. subst c.
    unfold Cut. rewrite (Index_hash_app _ _ Hs), take_length_app. simpl.
    rewrite drop_app_ge by lia.
    replace (String.length s + 1 - String.length s) with 1 by lia.
    now exists true.
Qed.

Lemma Parse_fragment (s f : string) :
  noHash s = true ->
  f = EmptyString \/ HasPrefix f "#" = true ->
  Parse (s ++ f)
  = match parse s with
    | None => None
    | Some url =>
        if isEmpty (drop 1 f) then Some url else setFragment url (drop 1 f)
    end.
Proof.
  intros Hs Hf. unfold Parse.
  destruct (Cut_fragment s f Hs Hf) as [found ->]. reflexivity.
Qed.

(** [removeQueryParams] on a URL with a query that is not empty, and on the
    same URL without it. *)
Lemma query_dropped (base q f : string) :
  URLParts.noQuery base = true ->
  URLParts.noHash base = true ->
  q <> EmptyString ->
  URLParts.noHash q = true ->
  URL.stringContainsCTLByte q = false ->
  f = EmptyString \/ HasPrefix f "#" = true ->
  URL.Parse (base ++ f) <> None ->
  removeQueryParams (base ++ "?" ++ q ++ f) = removeQueryParams (base ++ f).
Proof.
  intros Hbq Hbh Hq Hqh Hctl Hf Hparse.
  assert (Hh : URLParts.noHash (base ++ String "?" q) = true).
  { unfold URLParts.noHash in *. rewrite URLFacts.all_app. simpl.
    now rewrite Hbh, Hqh. }
  change (base ++ "?" ++ q ++ f) with (base ++ (String "?" q ++ f)).
  rewrite <- URLFacts.append_assoc.
  unfold removeQueryParams.
  rewrite (Parse_fragment _ f Hh Hf).
  rewrite (Parse_fragment _ f Hbh Hf) in *.
  rewrite (parse_with_query base q Hbq Hq Hctl).
  remember (drop 1 f) as g eqn:Hg. clear Hg Hf Hh.
  destruct (String.eqb_spec base "*") as [-> | Hstar].
  - change (URL.parse "*")
      with (Some (URL.setPaths URL.zeroURL "*" EmptyString)) in *.
    change (if URL.stringContainsCTLByte "*" then None
            else match URL.getScheme "*" with
                 | Some (scheme, rest) =>
                     option_map (fun v => URL.setRawQuery v q)
                       (URLParts.parseAfterQuery
                          (URL.setScheme URL.zeroURL (ToLower scheme)) rest)
                 | None => None
                 end)
      with (Some (URL.setRawQuery (URL.setPaths URL.zeroURL "*" "*") q)).
    destruct (isEmpty g); [reflexivity|].
    unfold URL.setFragment in *.
    destruct (URL.unescape g URL.encodeFragment) as [frag|];
      [|now elim Hparse].
    now destruct (String.eqb g (URL.escape frag URL.encodeFragment)).
  - rewrite (parse_without_query base Hbq Hstar) in *.
    destruct (URL.stringContainsCTLByte base); [now elim Hparse|].
    destruct (URL.getScheme base) as [[scheme rest]|]; [|now elim Hparse].
    destruct (URLParts.parseAfterQuery _ rest) as [url|]; [|now elim Hparse].
    simpl. destruct (isEmpty g); [reflexivity|].
    rewrite setFragment_query.
    destruct (URL.setFragment url g) as [u|]; [|now elim Hparse].
    reflexivity.
Qed.

End QueryFacts.

(** X17.  A query that is not empty is removed, and nothing else.  Take a
    URL [base] without question mark, a fragment part [f] (empty, or a number
    sign and what follows it) and a query [q] that is not empty.  If the URL
    without the query parses, the URL with the query has the same canonical
    form: [removeQueryParams] maps [base?q f] to what it maps [base f] to.
    So two URLs that differ in such a query only are stored as one. *)
Theorem removeQueryParams_drops_query (base q f : string) :
  URLParts.noQuery base = true ->
  URLParts.noHash base = true ->
  q <> EmptyString ->
  URLParts.noHash q = true ->
  URL.stringContainsCTLByte q = false ->
  f = EmptyString \/ HasPrefix f "#" = true ->
  URL.Parse (base ++ f) <> None ->
  removeQueryParams (base ++ "?" ++ q ++ f) = removeQueryParams (base ++ f).
Proof.
  intros Hbq Hbh Hq Hqh Hctl Hf Hparse.
  exact (QueryFacts.query_dropped base q f Hbq Hbh Hq Hqh Hctl Hf Hparse).
Qed.

Lemma removeQueryParams_drops_query_witness :
  removeQueryParams ("https://example.com/a/b" ++ "?" ++ "utm_source=x&id=7"
                     ++ "#top")
  = removeQueryParams ("https://example.com/a/b" ++ "#top").
Proof.
  apply removeQueryParams_drops_query; try reflexivity; try discriminate.
  now right.
Defined.

(** The canonical URL of a request whose probe is answered without a
    redirect. *)
Lemma canonicalURL_not_redirected (env : Env) (r : HTTP.Request)
  (reqURL : URL.URL) (resp : HTTP.ProbeResponse) :
  HTTP.long_url r <> EmptyString ->
  HTTP.Head (net env) (HTTP.long_url r) = Some (reqURL, resp) ->
  isRedirect (HTTP.StatusCode resp) = false ->
  canonicalURL env r = Some (removeQueryParams (HTTP.long_url r)).
Proof.
  intros Hne Hhead Hstatus. unfold canonicalURL, getFinalURL.
  now rewrite (isEmpty_false _ Hne), Hhead, Hstatus.
Qed.

(** X18.  Two URLs that differ in their query only are shortened to one
    code.  Let two create requests submit [base?q1 f] and [base?q2 f], with
    queries that are not empty, and let neither probe be answered with a
    redirect.  Both requests have the canonical URL of [base f]; served one
    after the other on a table with at most one row for it, the first being
    answered 200, they hand out the same code and leave one row for that
    URL. *)
Theorem queries_deduplicate (rev : Revision) (cfg : Config) (env1 env2 : Env)
  (r1 r2 : HTTP.Request) (db : SQL.DB) (base q1 q2 f : string)
  (reqURL1 reqURL2 : URL.URL) (resp1 resp2 : HTTP.ProbeResponse) :
  URLParts.noQuery base = true ->
  URLParts.noHash base = true ->
  f = EmptyString \/ HasPrefix f "#" = true ->
  URL.Parse (base ++ f) <> None ->
  q1 <> EmptyString /\ URLParts.noHash q1 = true
  /\ URL.stringContainsCTLByte q1 = false ->
  q2 <> EmptyString /\ URLParts.noHash q2 = true
  /\ URL.stringContainsCTLByte q2 = false ->
  HTTP.long_url r1 = base ++ "?" ++ q1 ++ f ->
  HTTP.long_url r2 = base ++ "?" ++ q2 ++ f ->
  HTTP.Head (net env1) (HTTP.long_url r1) = Some (reqURL1, resp1) ->
  HTTP.Head (net env2) (HTTP.long_url r2) = Some (reqURL2, resp2) ->
  isRedirect (HTTP.StatusCode resp1) = false ->
  isRedirect (HTTP.StatusCode resp2) = false ->
  canonicalURL env1 r1 = Some (removeQueryParams (base ++ f))
  /\ canonicalURL env2 r2 = Some (removeQueryParams (base ++ f))
  /\ (SQL.countURL (removeQueryParams (base ++ f)) db <= 1 ->
      HTTP.Status (fst (handleCreate rev cfg env1 r1 db)) = 200%Z ->
      queryFault env2 = false ->
      exists code,
        announces rev cfg (fst (handleCreate rev cfg env1 r1 db)) code
        /\ announces rev cfg
             (fst (handleCreate rev cfg env2 r2
                     (snd (handleCreate rev cfg env1 r1 db)))) code
        /\ SQL.countURL (removeQueryParams (base ++ f))
             (snd (handleCreate rev cfg env2 r2
                     (snd (handleCreate rev cfg env1 r1 db)))) = 1).
Proof.
  intros Hbq Hbh Hf Hparse (Hq1 & Hh1 & Hc1) (Hq2 & Hh2 & Hc2)
    Hu1 Hu2 Hhead1 Hhead2 Hs1 Hs2.
  assert (Hne : forall q, base ++ "?" ++ q ++ f <> EmptyString)
    by (intros q; destruct base; discriminate).
  assert (Hcan1 : canonicalURL env1 r1 = Some (removeQueryParams (base ++ f))).
  { rewrite (canonicalURL_not_redirected env1 r1 reqURL1 resp1); auto.
    - rewrite Hu1. f_equal. now apply QueryFacts.query_dropped.
    - rewrite Hu1. apply Hne. }
  assert (Hcan2 : canonicalURL env2 r2 = Some (removeQueryParams (base ++ f))).
  { rewrite (canonicalURL_not_redirected env2 r2 reqURL2 resp2); auto.
    - rewrite Hu2. f_equal. now apply QueryFacts.query_dropped.
    - rewrite Hu2. apply Hne. }
  split; [exact Hcan1|]. split; [exact Hcan2|].
  intros Hcount Hstatus Hq. now apply create_twice.
Qed.

Lemma queries_deduplicate_witness :
  canonicalURL (envOK "abc") (createRequest "http://example.com/page?x=1")
  = Some "http://example.com/page"
  /\ canonicalURL (envOK "def") (createRequest "http://example.com/page?y=2")
     = Some "http://example.com/page".
Proof.
  destruct (queries_deduplicate RevPart000 defaultConfig (envOK "abc")
              (envOK "def") (createRequest "http://example.com/page?x=1")
              (createRequest "http://example.com/page?y=2") SQL.empty
              "http://example.com/page" "x=1" "y=2" EmptyString
              (URL.mkURL "http" EmptyString None "example.com" "/page"
                 EmptyString false false "x=1" EmptyString EmptyString)
              (URL.mkURL "http" EmptyString None "example.com" "/page"
                 EmptyString false false "y=2" EmptyString EmptyString)
              (HTTP.mkProbe 200 EmptyString) (HTTP.mkProbe 200 EmptyString))
    as (H1 & H2 & _); try reflexivity; try discriminate.
  - now left.
  - repeat split. discriminate.
  - repeat split. discriminate.
  - split; [exact H1 | exact H2].
Defined.

(** ** Further compositions *)

Lemma removeQueryParams_parsed_witness :
  removeQueryParams "https://example.com/a/b?utm_source=x&id=7#top"
  = ("https://example.com/a/b" ++ EmptyString) ++ "#top"
  /\ URLParts.noQuery "https://example.com/a/b" = true.
Proof.
  destruct (removeQueryParams_parsed
              "https://example.com/a/b?utm_source=x&id=7#top"
              (URL.mkURL "https" EmptyString None "example.com" "/a/b"
                 EmptyString false false "utm_source=x&id=7" "top" EmptyString)
              eq_refl) as [Hout Hclean].
  split; [exact Hout | exact (Hclean eq_refl)].
Defined.

(** X20.  A create request does not change where an existing code leads: a
    request for a code that a row carries gets the same answer after any
    create request as before it. *)
Theorem create_keeps_existing_codes (rev : Revision) (cfg : Config)
  (env envG : Env) (r g : HTTP.Request) (db : SQL.DB) :
  In (TrimPrefix (HTTP.Path g) "/") (SQL.codes db) ->
  fst (handleShortURL cfg envG g (snd (handleCreate rev cfg env r db)))
  = fst (handleShortURL cfg envG g db).
Proof.
  intros Hin.
  assert (Hrows : snd (handleCreate rev cfg env r db) = db
                  \/ exists row,
                       SQL.rows (snd (handleCreate rev cfg env r db))
                       = (SQL.rows db ++ [row])%list).
  { destruct (canonicalURL env r) as [u|] eqn:Hc.
    - destruct (handleCreate_table rev cfg env r db u Hc)
        as [H | (_ & _ & H)]; [now left|].
      right. rewrite H. simpl. eauto.
    - left. apply (handleCreate_unresolved rev cfg env r db Hc). }
  destruct Hrows as [-> | (row & Hrows)]; [reflexivity|].
  unfold handleShortURL.
  destruct (isEmpty (TrimPrefix (HTTP.Path g) "/")); [reflexivity|].
  unfold SQL.selectByShortCode. destruct (queryFault envG); [reflexivity|].
  rewrite Hrows.
  destruct (find (SQL.hasCode (TrimPrefix (HTTP.Path g) "/")) (SQL.rows db))
    as [x|] eqn:Hfind.
  - now rewrite (CountFacts.find_app_some _ _ [row] x Hfind).
  - exfalso. revert Hin.
    apply (SQLFacts.find_none_not_in SQL.ShortCode _ _ _
             (fun a => SQLFacts.hasCode_true _ a) Hfind).
Qed.

Lemma create_keeps_existing_codes_witness :
  fst (handleShortURL defaultConfig (envOK EmptyString) (getRequest "/abc")
         (snd (handleCreate RevMainGo defaultConfig (envOK "def")
                 (createRequest "http://example.org/other") dbOne)))
  = fst (handleShortURL defaultConfig (envOK EmptyString) (getRequest "/abc")
           dbOne).
Proof.
  apply (create_keeps_existing_codes RevMainGo defaultConfig (envOK "def")
           (envOK EmptyString) (createRequest "http://example.org/other")
           (getRequest "/abc") dbOne).
  simpl. now left.
Defined.

(** X21.  A row is never rewritten.  In a table with unique short codes, as
    long as no delete for its code is served a row stays what it is through
    any calls, and it remains the row that a lookup of its code finds. *)
Theorem rows_are_immutable (rev : Revision) (cfg : Config) (cs : list Call)
  (db : SQL.DB) (row : SQL.ShortURL) :
  uniqueCodes db ->
  In row (SQL.rows db) ->
  Forall (fun c => deletes (SQL.ShortCode row) c = false) cs ->
  In row (SQL.rows (run rev cfg cs db))
  /\ SQL.selectByShortCode false (run rev cfg cs db) (SQL.ShortCode row)
     = SQL.Ok row.
Proof.
  intros Hcodes Hin Hcs.
  pose proof (run_keeps_row rev cfg cs db row Hcs Hin) as Hkept.
  split; [exact Hkept|].
  unfold SQL.selectByShortCode.
  rewrite (SQLFacts.find_unique SQL.ShortCode _ (SQL.ShortCode row) _ row);
    auto.
  - intros x. apply SQLFacts.hasCode_true.
  - now apply run_uniqueCodes.
Qed.

Lemma rows_are_immutable_witness :
  In (SQL.mkShortURL 1 "abc" "http://example.com/page")
    (SQL.rows
       (run RevPart000 defaultConfig
          [CallCreate (envOK "def") (createRequest "http://example.org/other");
           CallDelete (envOK EmptyString) (deleteRequest "def" "DEFAULT_KEY");
           CallCreate (envOK "abc") (createRequest "http://example.net/third")]
          dbOne))
  /\ SQL.selectByShortCode false
       (run RevPart000 defaultConfig
          [CallCreate (envOK "def") (createRequest "http://example.org/other");
           CallDelete (envOK EmptyString) (deleteRequest "def" "DEFAULT_KEY");
           CallCreate (envOK "abc") (createRequest "http://example.net/third")]
          dbOne) "abc"
     = SQL.Ok (SQL.mkShortURL 1 "abc" "http://example.com/page").
Proof.
  apply (rows_are_immutable RevPart000 defaultConfig
           [CallCreate (envOK "def") (createRequest "http://example.org/other");
            CallDelete (envOK EmptyString) (deleteRequest "def" "DEFAULT_KEY");
            CallCreate (envOK "abc") (createRequest "http://example.net/third")]
           dbOne (SQL.mkShortURL 1 "abc" "http://example.com/page")).
  - unfold uniqueCodes. simpl. repeat constructor. intros [].
  - simpl. now left.
  - repeat constructor.
Defined.

(** X22.  The confirmation of a delete names the short URL as the domain
    directly followed by the code.  That is the short URL that
    [src/main.go] hands out on creation; it is never the one that
    [src/unnamed/part_000] hands out, which has a slash in between. *)
Theorem delete_confirmation_url (cfg : Config) (env : Env) (d : HTTP.Request)
  (db : SQL.DB) (code : string) :
  HTTP.Authorization d = adminKey cfg ->
  HTTP.Path d = "/api/delete/" ++ code ->
  code <> EmptyString ->
  execFault env = false ->
  HTTP.Body (fst (handleDeleteShortURL cfg env d db))
  = "Short URL deleted: " ++ shortURL RevMainGo cfg code ++ HTTP.nl
  /\ shortURL RevMainGo cfg code <> shortURL RevPart000 cfg code.
Proof.
  intros Hkey Hpath Hcode Hx.
  rewrite (authorized_delete cfg env d db code Hkey Hpath Hcode Hx).
  unfold shortURL. split.
  - simpl. now rewrite URLFacts.append_assoc.
  - intros H. apply AppendFacts.append_inv_head in H.
    apply (f_equal String.length) in H. simpl in H. lia.
Qed.

Lemma delete_confirmation_url_witness :
  HTTP.Body
    (fst (handleDeleteShortURL defaultConfig (envOK EmptyString)
            (deleteRequest "abc" "DEFAULT_KEY") dbOne))
  = "Short URL deleted: " ++ shortURL RevMainGo defaultConfig "abc" ++ HTTP.nl
  /\ shortURL RevMainGo defaultConfig "abc"
     <> shortURL RevPart000 defaultConfig "abc".
Proof.
  apply (delete_confirmation_url defaultConfig (envOK EmptyString)
           (deleteRequest "abc" "DEFAULT_KEY") dbOne "abc");
    try reflexivity. discriminate.
Defined.
